(** * hermes v0.4.0: the inbox handler of [src/extension.ts]

    The extension watches an inbox folder for [*.msg] files.  For every new
    file the [onDidCreate] callback reads [sessionId|mode|message], consults
    the optional [context.probe] file, drives the chat panel through VS Code
    commands and resolves the request with an [.ack] or [.err] file (and
    possibly a [.warn] file), unlinking the [.msg] file.

    The callback is embedded as a function from an environment (what the
    file system, the host commands and the clock answer) to the trace of
    effects it attempts.  [console.*] calls are logging only and are left
    out of the trace. *)

From Stdlib Require Import String Ascii DecimalString.
From Stdlib Require Import List NArith ZArith Bool Lia.
Import ListNotations.

Set Implicit Arguments.
Local Open Scope list_scope.

(* ================================================================= *)
(** ** JavaScript strings *)

(** A JavaScript string is a sequence of UTF-16 code units. *)
Definition jsstring := list N.

(** An ASCII literal of the source, code unit by code unit. *)
Fixpoint lit (s : string) : jsstring :=
  match s with
  | EmptyString => []
  | String c s' => N_of_ascii c :: lit s'
  end.

Definition QUOTE : jsstring := [34%N].        (* the double quote *)
Definition EM_DASH : jsstring := [8212%N].    (* U+2014 *)
Definition SEP : N := 124%N.                  (* '|' *)

Fixpoint str_eqb (a b : jsstring) : bool :=
  match a, b with
  | [], [] => true
  | x :: a', y :: b' => N.eqb x y && str_eqb a' b'
  | _, _ => false
  end.

(** [!s] for a string [s]: only the empty string is falsy. *)
Definition falsy (s : jsstring) : bool :=
  match s with [] => true | _ :: _ => false end.

(** WhiteSpace and LineTerminator code units: what [String.prototype.trim]
    strips and what [\s] matches in a regular expression. *)
Definition is_space (c : N) : bool :=
  (N.eqb c 9 || N.eqb c 10 || N.eqb c 11 || N.eqb c 12 || N.eqb c 13
   || N.eqb c 32 || N.eqb c 160 || N.eqb c 5760
   || (N.leb 8192 c && N.leb c 8202)
   || N.eqb c 8232 || N.eqb c 8233 || N.eqb c 8239 || N.eqb c 8287
   || N.eqb c 12288 || N.eqb c 65279)%N.

Fixpoint trimStart (s : jsstring) : jsstring :=
  match s with
  | [] => []
  | c :: s' => if is_space c then trimStart s' else s
  end.

Definition trimEnd (s : jsstring) : jsstring := rev (trimStart (rev s)).

Definition trim (s : jsstring) : jsstring := trimEnd (trimStart s).

(** [s.split(sep)] for a one-unit separator: never an empty array. *)
Fixpoint split (sep : N) (s : jsstring) : list jsstring :=
  match s with
  | [] => [[]]
  | c :: s' =>
      if N.eqb c sep then [] :: split sep s'
      else match split sep s' with
           | seg :: segs => (c :: seg) :: segs
           | [] => [[c]]
           end
  end.

(** [parts.join(sep)]. *)
Fixpoint join (sep : N) (parts : list jsstring) : jsstring :=
  match parts with
  | [] => []
  | [p] => p
  | p :: rest => p ++ sep :: join sep rest
  end.

(** [s.substring(0, n)]. *)
Definition substring0 (n : nat) (s : jsstring) : jsstring := firstn n s.

(** [`${n}`] for an array length. *)
Definition nat_toString (n : nat) : jsstring :=
  lit (NilZero.string_of_uint (Nat.to_uint n)).

(** [hay.includes(needle)]. *)
Fixpoint startsWith (needle hay : jsstring) : bool :=
  match needle, hay with
  | [], _ => true
  | x :: n', y :: h' => N.eqb x y && startsWith n' h'
  | _ :: _, [] => false
  end.

Fixpoint includes (needle hay : jsstring) : bool :=
  startsWith needle hay ||
  match hay with
  | [] => false
  | _ :: h' => includes needle h'
  end.

(* ================================================================= *)
(** ** JavaScript numbers *)

(** The handler uses a number in four ways: as a literal ([0], [80], [95]),
    as the result of [parseFloat], in a [>] comparison and inside a template
    string.  Numbers are binary64 values; the development is parametric in
    their implementation and assumes nothing about it. *)
Class JsNumber (num : Type) : Type := {
  num_lit : Z -> num;                 (* an integer literal of the source *)
  parseFloat : jsstring -> num;
  num_gtb : num -> num -> bool;       (* [a > b] *)
  num_toString : num -> jsstring      (* [`${a}`] *)
}.

(* ================================================================= *)
(** ** The context probe *)

Record Probe (num : Type) : Type := {
  contextPct : num;
  patch : num;
  rsc : num;
  state : jsstring
}.

Definition is_line_terminator (c : N) : bool :=
  (N.eqb c 10 || N.eqb c 13 || N.eqb c 8232 || N.eqb c 8233)%N.

(** The class [[\d.]]. *)
Definition is_digit_or_dot (c : N) : bool :=
  ((N.leb 48 c && N.leb c 57) || N.eqb c 46)%N.

(** The class [\S]. *)
Definition is_non_space (c : N) : bool := negb (is_space c).

Fixpoint strip_prefix (p s : jsstring) : option jsstring :=
  match p, s with
  | [], _ => Some s
  | x :: p', y :: s' => if N.eqb x y then strip_prefix p' s' else None
  | _ :: _, [] => None
  end.

(** The longest prefix of [s] whose units are all in the class. *)
Fixpoint run_of (cls : N -> bool) (s : jsstring) : jsstring :=
  match s with
  | [] => []
  | c :: s' => if cls c then c :: run_of cls s' else []
  end.

(** [key:\s*(cls+)] tried at one position; the capture group.  [\s] and
    the class are disjoint, so the greedy match is the only one. *)
Definition match_here (key : jsstring) (cls : N -> bool) (s : jsstring)
  : option jsstring :=
  match strip_prefix (key ++ lit ":") s with
  | None => None
  | Some rest =>
      match run_of cls (trimStart rest) with
      | [] => None
      | cap => Some cap
      end
  end.

(** [content.match(new RegExp(`^${key}:\s*(cls+)`, 'm'))]: the leftmost
    line start where the pattern matches.  [bol] tells whether the current
    position follows a line terminator (or is the start of the input). *)
Fixpoint match_line (key : jsstring) (cls : N -> bool) (bol : bool)
  (s : jsstring) : option jsstring :=
  match (if bol then match_here key cls s else None) with
  | Some cap => Some cap
  | None =>
      match s with
      | [] => None
      | c :: s' => match_line key cls (is_line_terminator c) s'
      end
  end.

Section ProbeParsing.
Context {num : Type} `{JsNumber num}.

Definition parseNum (content : jsstring) (key : string) (def : num) : num :=
  match match_line (lit key) is_digit_or_dot true content with
  | Some m1 => parseFloat m1
  | None => def
  end.

Definition parseStr (content : jsstring) (key : string) : jsstring :=
  match match_line (lit key) is_non_space true content with
  | Some m1 => m1
  | None => lit "unknown"
  end.

(** The object literal returned by [_readContextProbe] once the file was
    read. *)
Definition probe_of_content (content : jsstring) : Probe num :=
  {| contextPct := parseNum content "context_pct" (num_lit 0);
     patch := parseNum content "patch" (num_lit 0);
     rsc := parseNum content "rsc" (num_lit 0);
     state := parseStr content "state" |}.
End ProbeParsing.

(* ================================================================= *)
(** ** Environment and effects *)

(** What a fallible call of the runtime answers: a value, or an exception.
    The handler only ever looks at [error?.message ?? String(error)], so an
    exception is represented by that text. *)
Inductive result (A : Type) : Type :=
| Ok (a : A)
| Raise (message : jsstring).
Arguments Raise {A} message.

Inductive OutFile : Type := AckFile | ErrFile | WarnFile.

(** The VS Code commands the handler executes. *)
Inductive HostCmd : Type :=
| ChatOpen (query : jsstring) (isPartialQuery : bool)
                                (* workbench.action.chat.open *)
| ChatSteerWithMessage          (* workbench.action.chat.steerWithMessage *)
| ChatCancel                    (* workbench.action.chat.cancel *)
| ChatQueueMessage              (* workbench.action.chat.queueMessage *)
| ChatShowContextUsage.         (* workbench.action.chat.showContextUsage *)

Record Env : Type := {
  read_msgFile : result jsstring;        (* fs.readFileSync(msgFile, 'utf-8') *)
  probeFile : option (result jsstring);  (* None: fs.existsSync is false *)
  executeCommand : HostCmd -> result unit;
  write_file : OutFile -> jsstring -> result unit;     (* fs.writeFileSync *)
  unlink_msgFile : result unit;                        (* fs.unlinkSync *)
  now_ISO : jsstring                     (* new Date().toISOString() *)
}.

(** The effects a run attempts, in order. *)
Inductive Event : Type :=
| Exec (c : HostCmd)
| Delay (ms : Z)
| WriteFile (f : OutFile) (content : jsstring)
| Unlink.

(** How a piece of the handler completes: normally, by [return], or by an
    exception. *)
Inductive completion (A : Type) : Type :=
| Normal (a : A)
| Return
| Throw (error : jsstring).
Arguments Return {A}.
Arguments Throw {A} error.

Definition M (A : Type) : Type := (list Event * completion A)%type.

Definition ret {A} (a : A) : M A := ([], Normal a).

Definition bind {A B} (m : M A) (k : A -> M B) : M B :=
  match m with
  | (t, Normal a) => let (t', c) := k a in (t ++ t', c)
  | (t, Return) => (t, Return)
  | (t, Throw e) => (t, Throw e)
  end.

Definition return_ {A} : M A := ([], Return).

Definition emit (e : Event) : M unit := ([e], Normal tt).

Definition of_result {A} (r : result A) : M A :=
  match r with
  | Ok a => ([], Normal a)
  | Raise e => ([], Throw e)
  end.

(** [try { m } catch (error) { h error }]. *)
Definition try_catch {A} (m : M A) (h : jsstring -> M A) : M A :=
  match m with
  | (t, Throw e) => let (t', c) := h e in (t ++ t', c)
  | other => other
  end.

(** [try { m } catch {}]. *)
Definition try_ (m : M unit) : M unit := try_catch m (fun _ => ret tt).

(** [if (c) { m }]. *)
Definition when (c : bool) (m : M unit) : M unit := if c then m else ret tt.

Declare Scope js_scope.
Delimit Scope js_scope with js.
Notation "x <- m ;; k" := (bind m (fun x => k))
  (at level 61, m at next level, right associativity) : js_scope.
Notation "m ;; k" := (bind m (fun _ => k))
  (at level 61, right associativity) : js_scope.

(* ================================================================= *)
(** ** The texts the handler writes *)

Definition MODE_SEND : jsstring := lit "send".
Definition MODE_STEER : jsstring := lit "steer".
Definition MODE_STOP_AND_SEND : jsstring := lit "stop-and-send".
Definition MODE_QUEUE : jsstring := lit "queue".
Definition MODE_COMPACT : jsstring := lit "compact".

Definition reason_invalid_format (segments : nat) : jsstring :=
  lit "Invalid format " ++ EM_DASH ++ lit " expected " ++ QUOTE
    ++ lit "sessionId|mode|message" ++ QUOTE ++ lit ", got "
    ++ nat_toString segments ++ lit " segment(s)".

Definition reason_empty_field (sessionId mode message : jsstring) : jsstring :=
  lit "Empty field " ++ EM_DASH ++ lit " sessionId=" ++ QUOTE ++ sessionId
    ++ QUOTE ++ lit " mode=" ++ QUOTE ++ mode ++ QUOTE ++ lit " message="
    ++ QUOTE ++ message ++ QUOTE.

Definition reason_unknown_mode (mode : jsstring) : jsstring :=
  lit "Unknown mode=" ++ QUOTE ++ mode ++ QUOTE ++ lit " " ++ EM_DASH
    ++ lit " supported modes: send, steer, stop-and-send, queue, compact".

Definition reason_exception (error : jsstring) : jsstring :=
  lit "Exception: " ++ error.

Definition ack_send (sessionId now : jsstring) : jsstring :=
  lit "sent sessionId=" ++ substring0 8 sessionId ++ lit "... at " ++ now.

Definition ack_steer (sessionId now : jsstring) : jsstring :=
  lit "steered (steerWithMessage) sessionId=" ++ substring0 8 sessionId
    ++ lit "... at " ++ now.

Definition ack_stop_and_send (sessionId now : jsstring) : jsstring :=
  lit "stop-and-send sessionId=" ++ substring0 8 sessionId
    ++ lit "... at " ++ now.

Definition ack_queue (sessionId now : jsstring) : jsstring :=
  lit "queued (queueMessage) sessionId=" ++ substring0 8 sessionId
    ++ lit "... at " ++ now.

Definition ack_compact (now : jsstring) : jsstring :=
  lit "compact: opened context usage panel at " ++ now
    ++ lit ". No direct compact command in VS Code " ++ EM_DASH
    ++ lit " press compact in the panel.".

Section Texts.
Context {num : Type} `{JsNumber num}.

Definition reason_blocked (pct : num) : jsstring :=
  lit "mode=steer blocked: context_pct=" ++ num_toString pct
    ++ lit "% > 95%. Use mode=compact first, then retry.".

Definition warn_text (pct patch : num) : jsstring :=
  lit "context warning: context_pct=" ++ num_toString pct
    ++ lit "% > 80% (approaching compaction zone, patch="
    ++ num_toString patch ++ lit ")".
End Texts.

(* ================================================================= *)
(** ** The [onDidCreate] handler *)

(** Lines 189-190: [raw = content.trim()], [parts = raw.split('|')]. *)
Definition parts_of (content : jsstring) : list jsstring :=
  split SEP (trim content).

(** Lines 199-200: [const [sessionId, mode, ...messageParts] = parts] and
    [message = messageParts.join('|')].  The handler gets here only with
    three parts or more, so the defaults of [nth] are never taken. *)
Definition sessionId_of (parts : list jsstring) : jsstring := nth 0 parts [].
Definition mode_of (parts : list jsstring) : jsstring := nth 1 parts [].
Definition messageParts_of (parts : list jsstring) : list jsstring :=
  skipn 2 parts.
Definition message_of (parts : list jsstring) : jsstring :=
  join SEP (messageParts_of parts).

Section Handler.
Context {num : Type} `{JsNumber num}.
Variable E : Env.

Local Open Scope js_scope.

Definition writeFileSync (f : OutFile) (content : jsstring) : M unit :=
  emit (WriteFile f content) ;; of_result (write_file E f content).

Definition unlinkSync : M unit :=
  emit Unlink ;; of_result (unlink_msgFile E).

Definition exec (c : HostCmd) : M unit :=
  emit (Exec c) ;; of_result (executeCommand E c).

Definition _delay (ms : Z) : M unit := emit (Delay ms).

Definition _cleanup (outFile : OutFile) (content : jsstring) : M unit :=
  try_ (writeFileSync outFile content) ;;
  try_ unlinkSync.

Definition _writeWarn (content : jsstring) : M unit :=
  try_ (writeFileSync WarnFile content).

Definition _readContextProbe : option (Probe num) :=
  match probeFile E with
  | None => None                               (* the file is missing *)
  | Some (Raise _) => None                     (* catch { return null; } *)
  | Some (Ok content) => Some (probe_of_content content)
  end.

(** Lines 211-223: block steer above 95, warn above 80. *)
Definition context_check (mode : jsstring) : M unit :=
  match _readContextProbe with
  | Some probe =>
      when (num_gtb (contextPct probe) (num_lit 95)
            && str_eqb mode MODE_STEER)
        (_cleanup ErrFile (reason_blocked (contextPct probe)) ;;
         return_) ;;
      when (num_gtb (contextPct probe) (num_lit 80))
        (_writeWarn (warn_text (contextPct probe) (patch probe)))
  | None => ret tt
  end.

(** Lines 225-290: the chain over [mode]. *)
Definition dispatch (sessionId mode message : jsstring) : M unit :=
  if str_eqb mode MODE_SEND then
    exec (ChatOpen message false) ;;
    _cleanup AckFile (ack_send sessionId (now_ISO E))
  else if str_eqb mode MODE_STEER then
    exec (ChatOpen message true) ;;
    _delay 100 ;;
    exec ChatSteerWithMessage ;;
    _cleanup AckFile (ack_steer sessionId (now_ISO E))
  else if str_eqb mode MODE_STOP_AND_SEND then
    exec ChatCancel ;;
    _delay 300 ;;
    exec (ChatOpen message false) ;;
    _cleanup AckFile (ack_stop_and_send sessionId (now_ISO E))
  else if str_eqb mode MODE_QUEUE then
    exec (ChatOpen message true) ;;
    _delay 100 ;;
    exec ChatQueueMessage ;;
    _cleanup AckFile (ack_queue sessionId (now_ISO E))
  else if str_eqb mode MODE_COMPACT then
    exec ChatShowContextUsage ;;
    _cleanup AckFile (ack_compact (now_ISO E))
  else
    _cleanup ErrFile (reason_unknown_mode mode).

(** Lines 187-290: the body of the outer [try]. *)
Definition handler_body : M unit :=
  content <- of_result (read_msgFile E) ;;
  let parts := parts_of content in
  when (length parts <? 3)
    (_cleanup ErrFile (reason_invalid_format (length parts)) ;;
     return_) ;;
  let sessionId := sessionId_of parts in
  let mode := mode_of parts in
  let message := message_of parts in
  when (falsy sessionId || falsy mode || falsy message)
    (_cleanup ErrFile (reason_empty_field sessionId mode message) ;;
     return_) ;;
  context_check mode ;;
  dispatch sessionId mode message.

(** Lines 291-295: the [catch] of the outer [try]. *)
Definition on_error (error : jsstring) : M unit :=
  _cleanup ErrFile (reason_exception error).

(** Lines 171-296: the callback given to [watcher.onDidCreate]. *)
Definition onDidCreate : M unit := try_catch handler_body on_error.

(** The chain over [mode] under that [catch]. *)
Definition dispatch_caught (sessionId mode message : jsstring) : M unit :=
  try_catch (dispatch sessionId mode message) on_error.

(** The effects of one run, and whether the callback's promise resolves. *)
Definition trace : list Event := fst onDidCreate.

Definition resolves : bool :=
  match snd onDidCreate with
  | Throw _ => false
  | _ => true
  end.
End Handler.

(* ================================================================= *)
(** ** A number implementation for concrete runs *)

(** Exact decimals [m / 10^e], and NaN.  On the digit-and-dot strings the
    probe pattern captures, [parseFloat] reads the longest decimal literal
    at the front; whenever that literal denotes a binary64 value exactly
    (every integer below 2^53, for one) this is the number JavaScript
    computes with, and between 1e-6 and 1e21 [dec_toString] is the text
    JavaScript prints for it.  The properties below do not depend on this
    implementation; it serves the concrete runs. *)
Inductive dec : Type :=
| DNaN
| DVal (m : Z) (e : nat).

Definition is_digit (c : N) : bool := (N.leb 48 c && N.leb c 57)%N.

Definition digits_value (s : jsstring) : Z :=
  fold_left (fun acc c => (10 * acc + Z.of_N (c - 48))%Z) s 0%Z.

Definition dec_parseFloat (s : jsstring) : dec :=
  let int_part := run_of is_digit s in
  let rest := skipn (length int_part) s in
  let frac_part :=
    match rest with
    | 46%N :: rest' => run_of is_digit rest'
    | _ => []
    end in
  match int_part ++ frac_part with
  | [] => DNaN
  | ds => DVal (digits_value ds) (length frac_part)
  end.

Definition dec_gtb (a b : dec) : bool :=
  match a, b with
  | DVal m e, DVal m' e' =>
      (m' * 10 ^ Z.of_nat e <? m * 10 ^ Z.of_nat e')%Z
  | _, _ => false
  end.

(** Drop the trailing zeros of the fraction. *)
Fixpoint dec_normalize (m : Z) (e : nat) : Z * nat :=
  match e with
  | O => (m, O)
  | S e' => if (m mod 10 =? 0)%Z then dec_normalize (m / 10) e' else (m, e)
  end.

Definition Z_toString (z : Z) : jsstring :=
  lit (NilEmpty.string_of_int (Z.to_int z)).

Definition pad_zeros (width : nat) (s : jsstring) : jsstring :=
  match width - length s with
  | O => s
  | S k => repeat 48%N (S k) ++ s
  end.

Definition dec_toString (a : dec) : jsstring :=
  match a with
  | DNaN => lit "NaN"
  | DVal m e =>
      match dec_normalize m e with
      | (m', O) => if (m' =? 0)%Z then lit "0" else Z_toString m'
      | (m', e') =>
          let p := (10 ^ Z.of_nat e')%Z in
          (if (m' <? 0)%Z then lit "-" else [])
            ++ (if (Z.abs m' / p =? 0)%Z then lit "0"
                else Z_toString (Z.abs m' / p))
            ++ lit "."
            ++ pad_zeros e' (if (Z.abs m' mod p =? 0)%Z then []
                             else Z_toString (Z.abs m' mod p))
      end
  end.

#[export] Instance dec_number : JsNumber dec := {
  num_lit := fun z => DVal z 0;
  parseFloat := dec_parseFloat;
  num_gtb := dec_gtb;
  num_toString := dec_toString
}.

(** A probe file as the qhoami extension writes it. *)
Definition probe_text (pct : string) : jsstring :=
  lit "state: idle" ++ [10%N] ++ lit "context_pct: " ++ lit pct ++ [10%N]
    ++ lit "patch: 10" ++ [10%N] ++ lit "rsc: 42" ++ [10%N]
    ++ lit "ts: 2026-02-20T13:20:38.533Z" ++ [10%N].

(** A host on which every call succeeds. *)
Definition quiet_env (msg : string) (probe : option jsstring) : Env :=
  {| read_msgFile := Ok (lit msg);
     probeFile := option_map (@Ok jsstring) probe;
     executeCommand := fun _ => Ok tt;
     write_file := fun _ _ => Ok tt;
     unlink_msgFile := Ok tt;
     now_ISO := lit "2026-02-20T13:20:40.000Z" |}.


(* ================================================================= *)
(** ** Observations on a run *)

(** The host commands a run invokes, in order. *)
Definition invocations (t : list Event) : list HostCmd :=
  flat_map (fun e => match e with Exec c => [c] | _ => [] end) t.

(** Host commands and delays, in order. *)
Definition timeline (t : list Event) : list Event :=
  filter (fun e => match e with Exec _ | Delay _ => true | _ => false end) t.

Definition delays (t : list Event) : list Z :=
  flat_map (fun e => match e with Delay ms => [ms] | _ => [] end) t.

Definition is_outcome_write (e : Event) : bool :=
  match e with
  | WriteFile AckFile _ | WriteFile ErrFile _ => true
  | _ => false
  end.

Definition is_warn_write (e : Event) : bool :=
  match e with WriteFile WarnFile _ => true | _ => false end.

Definition is_unlink (e : Event) : bool :=
  match e with Unlink => true | _ => false end.

Definition count (p : Event -> bool) (t : list Event) : nat :=
  length (filter p t).

(** A trace that ends with the write of one [.ack] or [.err] file followed
    by the unlink, after host steps and warning writes only. *)
Fixpoint resolved_once (t : list Event) : bool :=
  match t with
  | [WriteFile AckFile _; Unlink] => true
  | [WriteFile ErrFile _; Unlink] => true
  | Exec _ :: t' => resolved_once t'
  | Delay _ :: t' => resolved_once t'
  | WriteFile WarnFile _ :: t' => resolved_once t'
  | _ => false
  end.

(** The five modes of the chain in [dispatch]. *)
Definition recognized (mode : jsstring) : bool :=
  str_eqb mode MODE_SEND || str_eqb mode MODE_STEER
  || str_eqb mode MODE_STOP_AND_SEND || str_eqb mode MODE_QUEUE
  || str_eqb mode MODE_COMPACT.

(** The same environment with no [context.probe] file. *)
Definition without_probe (E : Env) : Env :=
  {| read_msgFile := read_msgFile E;
     probeFile := None;
     executeCommand := executeCommand E;
     write_file := write_file E;
     unlink_msgFile := unlink_msgFile E;
     now_ISO := now_ISO E |}.

(** The [.msg] file was read, has three segments or more and none of the
    three fields is empty: the handler got past line 207. *)
Definition valid_request (E : Env) (sessionId mode message : jsstring)
  : Prop :=
  exists content,
    read_msgFile E = Ok content /\
    3 <= length (parts_of content) /\
    sessionId = sessionId_of (parts_of content) /\
    mode = mode_of (parts_of content) /\
    message = message_of (parts_of content) /\
    sessionId <> [] /\ mode <> [] /\ message <> [].

Section Outcomes.
Context {num : Type} `{JsNumber num}.

(** The run ended on the [.err] file of line 214 and did nothing else. *)
Definition context_blocked (t : list Event) : Prop :=
  exists pct : num, t = [WriteFile ErrFile (reason_blocked pct); Unlink].

(** The condition of line 213. *)
Definition blocks (probe : option (Probe num)) (mode : jsstring) : bool :=
  match probe with
  | Some p => num_gtb (contextPct p) (num_lit 95) && str_eqb mode MODE_STEER
  | None => false
  end.

(** What lines 219-222 write. *)
Definition warn_events (probe : option (Probe num)) : list Event :=
  match probe with
  | Some p =>
      if num_gtb (contextPct p) (num_lit 80)
      then [WriteFile WarnFile (warn_text (contextPct p) (patch p))]
      else []
  | None => []
  end.
End Outcomes.

(** A host on which [executeCommand] always throws and no file can be
    written or removed. *)
Definition hostile_env (msg : string) (probe : option jsstring) : Env :=
  {| read_msgFile := Ok (lit msg);
     probeFile := option_map (@Ok jsstring) probe;
     executeCommand := fun _ => Raise (lit "command not found");
     write_file := fun _ _ => Raise (lit "EACCES: permission denied");
     unlink_msgFile := Raise (lit "EPERM: operation not permitted");
     now_ISO := lit "2026-02-20T13:20:40.000Z" |}.

(** Sample runs. *)
Definition env_steer_97 : Env :=
  quiet_env " abcdefghijkl|steer|hello|world " (Some (probe_text "97")).

Definition env_send_85 : Env :=
  quiet_env "abc|send|hello|world" (Some (probe_text "85")).

Definition env_stop_and_send : Env :=
  quiet_env "session-0001|stop-and-send|halt, then read this" None.

Definition env_steer_idle : Env :=
  quiet_env "session-0001|steer|look here" (Some (probe_text "47")).

Definition env_bogus_85 : Env :=
  quiet_env "session-0001|bogus|hello" (Some (probe_text "85")).

Definition env_compact : Env :=
  quiet_env "abcdefghijkl|compact|now" None.

Definition env_send : Env :=
  quiet_env "abcdefghijkl|send|hello" None.

Definition env_queue : Env :=
  quiet_env "abcdefghijkl|queue|later" None.

(* ================================================================= *)
(** ** Requests and probe files as text *)

(** The same environment with another [.msg] content. *)
Definition with_content (E : Env) (content : jsstring) : Env :=
  {| read_msgFile := Ok content;
     probeFile := probeFile E;
     executeCommand := executeCommand E;
     write_file := write_file E;
     unlink_msgFile := unlink_msgFile E;
     now_ISO := now_ISO E |}.

(** The request format of the header comment, line 78:
    [{sessionId}|{mode}|{message}]. *)
Definition request_text (sessionId mode message : jsstring) : jsstring :=
  sessionId ++ SEP :: mode ++ SEP :: message.

(** The probe format of the header comment, lines 93-98. *)
Definition probe_file (state pct patch rsc ts : jsstring) : jsstring :=
  lit "state: " ++ state ++ 10%N :: lit "context_pct: " ++ pct
    ++ 10%N :: lit "patch: " ++ patch ++ 10%N :: lit "rsc: " ++ rsc
    ++ 10%N :: lit "ts: " ++ ts ++ [10%N].

Definition all_spaces (s : jsstring) : bool := forallb is_space s.

Definition no_line_terminator (s : jsstring) : bool :=
  forallb (fun c => negb (is_line_terminator c)) s.

(** Number of separators in a string. *)
Definition separators (s : jsstring) : nat := count_occ N.eq_dec s SEP.

(* ================================================================= *)
(** ** The chain over [mode] as a table *)

(** The host steps of lines 225-284, mode by mode; [None] for the final
    [else] of line 285. *)
Definition steps_of (mode message : jsstring) : option (list Event) :=
  if str_eqb mode MODE_SEND then
    Some [Exec (ChatOpen message false)]
  else if str_eqb mode MODE_STEER then
    Some [Exec (ChatOpen message true); Delay 100; Exec ChatSteerWithMessage]
  else if str_eqb mode MODE_STOP_AND_SEND then
    Some [Exec ChatCancel; Delay 300; Exec (ChatOpen message false)]
  else if str_eqb mode MODE_QUEUE then
    Some [Exec (ChatOpen message true); Delay 100; Exec ChatQueueMessage]
  else if str_eqb mode MODE_COMPACT then
    Some [Exec ChatShowContextUsage]
  else None.

(** The acknowledgement each branch writes after its last step. *)
Definition ack_of (sessionId mode now : jsstring) : jsstring :=
  if str_eqb mode MODE_SEND then ack_send sessionId now
  else if str_eqb mode MODE_STEER then ack_steer sessionId now
  else if str_eqb mode MODE_STOP_AND_SEND then ack_stop_and_send sessionId now
  else if str_eqb mode MODE_QUEUE then ack_queue sessionId now
  else ack_compact now.

(** Steps taken one after the other under the [catch] of line 291: the
    first command that throws ends the run on the exception [.err] file,
    otherwise the run ends on the acknowledgement. *)
Fixpoint run_steps (E : Env) (steps : list Event) (ack : jsstring)
  : list Event :=
  match steps with
  | [] => [WriteFile AckFile ack; Unlink]
  | Exec c :: rest =>
      Exec c
        :: match executeCommand E c with
           | Ok _ => run_steps E rest ack
           | Raise e => [WriteFile ErrFile (reason_exception e); Unlink]
           end
  | step :: rest => step :: run_steps E rest ack
  end.

Definition commands_of (steps : list Event) : list HostCmd :=
  invocations steps.

Definition host_only (steps : list Event) : bool :=
  forallb (fun e => match e with Exec _ | Delay _ => true | _ => false end)
    steps.

(* ================================================================= *)
(** ** The handlers of v0.2.0 and v0.3.0 *)

(** The two compiled handlers of the earlier releases have the text of
    lines 171-207 and 291-295 word for word (no [.warn] file, no probe) and
    differ in the chain over [mode] only. *)

Definition reason_steer_phase2 : jsstring :=
  lit "mode=steer: not implemented (Phase 2)".

Definition reason_queue_phase3 : jsstring :=
  lit "mode=queue: not implemented (Phase 3)".

Definition reason_unknown_mode_v020 (mode : jsstring) : jsstring :=
  lit "Unknown mode=" ++ QUOTE ++ mode ++ QUOTE ++ lit " " ++ EM_DASH
    ++ lit " supported modes: send, steer (Phase 2), queue (Phase 3)".

Definition reason_unknown_mode_v030 (mode : jsstring) : jsstring :=
  lit "Unknown mode=" ++ QUOTE ++ mode ++ QUOTE ++ lit " " ++ EM_DASH
    ++ lit " supported modes: send, steer, stop-and-send, queue (Phase 3)".

Definition ack_steer_v030 (sessionId now : jsstring) : jsstring :=
  lit "steered (cancel+250ms+send) sessionId=" ++ substring0 8 sessionId
    ++ lit "... at " ++ now.

Section EarlierReleases.
Variable E : Env.

Local Open Scope js_scope.

(** v0.2.0: only [send] reaches the host. *)
Definition dispatch_v020 (sessionId mode message : jsstring) : M unit :=
  if str_eqb mode MODE_SEND then
    exec E (ChatOpen message false) ;;
    _cleanup E AckFile (ack_send sessionId (now_ISO E))
  else if str_eqb mode MODE_STEER then
    _cleanup E ErrFile reason_steer_phase2
  else if str_eqb mode MODE_QUEUE then
    _cleanup E ErrFile reason_queue_phase3
  else
    _cleanup E ErrFile (reason_unknown_mode_v020 mode).

(** v0.3.0: [steer] is cancel, 250 ms, send. *)
Definition dispatch_v030 (sessionId mode message : jsstring) : M unit :=
  if str_eqb mode MODE_SEND then
    exec E (ChatOpen message false) ;;
    _cleanup E AckFile (ack_send sessionId (now_ISO E))
  else if str_eqb mode MODE_STEER then
    exec E ChatCancel ;;
    _delay 250 ;;
    exec E (ChatOpen message false) ;;
    _cleanup E AckFile (ack_steer_v030 sessionId (now_ISO E))
  else if str_eqb mode MODE_STOP_AND_SEND then
    exec E ChatCancel ;;
    _delay 300 ;;
    exec E (ChatOpen message false) ;;
    _cleanup E AckFile (ack_stop_and_send sessionId (now_ISO E))
  else if str_eqb mode MODE_QUEUE then
    _cleanup E ErrFile reason_queue_phase3
  else
    _cleanup E ErrFile (reason_unknown_mode_v030 mode).

(** The callback of both releases around its chain. *)
Definition earlier_onDidCreate
  (chain : jsstring -> jsstring -> jsstring -> M unit) : M unit :=
  try_catch
    (content <- of_result (read_msgFile E) ;;
     let parts := parts_of content in
     when (length parts <? 3)
       (_cleanup E ErrFile (reason_invalid_format (length parts)) ;;
        return_) ;;
     let sessionId := sessionId_of parts in
     let mode := mode_of parts in
     let message := message_of parts in
     when (falsy sessionId || falsy mode || falsy message)
       (_cleanup E ErrFile (reason_empty_field sessionId mode message) ;;
        return_) ;;
     chain sessionId mode message)
    (on_error E).

Definition onDidCreate_v020 : M unit := earlier_onDidCreate dispatch_v020.
Definition onDidCreate_v030 : M unit := earlier_onDidCreate dispatch_v030.
End EarlierReleases.

(** The chains of the two releases as tables: the host steps of a mode
    that reaches the host, and the reason given to the others. *)
Definition steps_of_v020 (mode message : jsstring) : option (list Event) :=
  if str_eqb mode MODE_SEND then Some [Exec (ChatOpen message false)]
  else None.

Definition refusal_v020 (mode : jsstring) : jsstring :=
  if str_eqb mode MODE_STEER then reason_steer_phase2
  else if str_eqb mode MODE_QUEUE then reason_queue_phase3
  else reason_unknown_mode_v020 mode.

Definition steps_of_v030 (mode message : jsstring) : option (list Event) :=
  if str_eqb mode MODE_SEND then
    Some [Exec (ChatOpen message false)]
  else if str_eqb mode MODE_STEER then
    Some [Exec ChatCancel; Delay 250; Exec (ChatOpen message false)]
  else if str_eqb mode MODE_STOP_AND_SEND then
    Some [Exec ChatCancel; Delay 300; Exec (ChatOpen message false)]
  else None.

Definition ack_of_v030 (sessionId mode now : jsstring) : jsstring :=
  if str_eqb mode MODE_SEND then ack_send sessionId now
  else if str_eqb mode MODE_STEER then ack_steer_v030 sessionId now
  else ack_stop_and_send sessionId now.

Definition refusal_v030 (mode : jsstring) : jsstring :=
  if str_eqb mode MODE_QUEUE then reason_queue_phase3
  else reason_unknown_mode_v030 mode.

(* ================================================================= *)
(** ** The prototype handler *)

(** The first handler of [src/extension.ts] (lines 26-63).  Its steer
    command takes the message as an argument, its outcome files are named
    after the whole [.msg] path, and its writes and its unlink are inside
    the one outer [try].  Its [catch] writes [error.message] as it is. *)
Module Prototype.

Inductive Cmd : Type :=
| Open (query : jsstring) (isPartialQuery : bool)
                               (* workbench.action.chat.open *)
| SteerWithMessage (query : jsstring).
                               (* workbench.action.chat.steerWithMessage *)

Inductive Target : Type :=
| MsgAck                       (* `${uri.fsPath}.ack` *)
| MsgErr.                      (* `${uri.fsPath}.err` *)

Inductive Step : Type :=
| Call (c : Cmd)
| Write (f : Target) (content : jsstring)
| Remove.                      (* fs.unlinkSync(uri.fsPath) *)

(** What the [catch] of line 59 can receive, as far as line 61 looks at
    it: a value whose [message] is a string (every Error object, so
    everything [fs] throws), or a value with no string [message] (a
    command rejected with a bare string, with [undefined], ...). *)
Inductive rejection : Type :=
| WithMessage (message : jsstring)
| WithoutMessage.

(** What a command answers. *)
Inductive reply : Type :=
| Accepted
| Rejected (v : rejection).

Record Host : Type := {
  read : result jsstring;
  execute : Cmd -> reply;
  write : Target -> jsstring -> result unit;
  remove : result unit
}.

(** How a piece of the callback ends.  [TypeError] is the error of
    line 61 itself, when there is no string to write: it is raised inside
    the [catch] clause, so nothing catches it. *)
Inductive ending (A : Type) : Type :=
| Done (a : A)
| Returned
| Thrown (v : rejection)
| TypeError.
Arguments Returned {A}.
Arguments Thrown {A} v.
Arguments TypeError {A}.

Definition P (A : Type) : Type := (list Step * ending A)%type.

Definition pbind {A B} (m : P A) (k : A -> P B) : P B :=
  match m with
  | (t, Done a) => let (t', c) := k a in (t ++ t', c)
  | (t, Returned) => (t, Returned)
  | (t, Thrown v) => (t, Thrown v)
  | (t, TypeError) => (t, TypeError)
  end.

Definition pcatch {A} (m : P A) (h : rejection -> P A) : P A :=
  match m with
  | (t, Thrown v) => let (t', c) := h v in (t ++ t', c)
  | other => other
  end.

(** A call into [fs]: what it throws is an Error object. *)
Definition attempt {A} (s : Step) (r : result A) : P A :=
  match r with
  | Ok a => ([s], Done a)
  | Raise e => ([s], Thrown (WithMessage e))
  end.

Definition SENT : jsstring := lit "Message sent successfully".
Definition STEERED : jsstring := lit "Message steered successfully".
Definition NOT_YET : jsstring := lit "queue mode not yet implemented".

(** Line 33: [parts[1] || 'send']. *)
Definition mode_or_send (parts : list jsstring) : jsstring :=
  if falsy (mode_of parts) then lit "send" else mode_of parts.

Section Run.
Variable H : Host.

Definition call (c : Cmd) : P unit :=
  match execute H c with
  | Accepted => ([Call c], Done tt)
  | Rejected v => ([Call c], Thrown v)
  end.

Definition writeFileSync (f : Target) (content : jsstring) : P unit :=
  attempt (Write f content) (write H f content).
Definition unlinkSync : P unit := attempt Remove (remove H).

(** Line 61: [fs.writeFileSync(`${uri.fsPath}.err`, error.message)].
    Without a string there is nothing [writeFileSync] accepts as data: it
    throws before it writes. *)
Definition write_error (error : rejection) : P unit :=
  match error with
  | WithMessage message => writeFileSync MsgErr message
  | WithoutMessage => ([], TypeError)
  end.

Definition body : P unit :=
  pbind (match read H with
         | Ok content => ([], Done content)
         | Raise e => ([], Thrown (WithMessage e))
         end)
    (fun content =>
       let parts := parts_of content in
       let sessionId := sessionId_of parts in
       let mode := mode_or_send parts in
       let message := message_of parts in
       if falsy sessionId || falsy message then ([], Returned)
       else
         pbind
           (if str_eqb mode (lit "send") then
              pbind (call (Open message false))
                (fun _ => writeFileSync MsgAck SENT)
            else if str_eqb mode (lit "steer") then
              pbind (call (SteerWithMessage message))
                (fun _ => writeFileSync MsgAck STEERED)
            else writeFileSync MsgErr NOT_YET)
           (fun _ => unlinkSync)).

Definition onDidCreate : P unit := pcatch body write_error.

Definition steps : list Step := fst onDidCreate.

(** Whether the callback's promise rejects. *)
Definition rejects : bool :=
  match snd onDidCreate with
  | Thrown _ => true
  | TypeError => true
  | _ => false
  end.
End Run.

Definition calls (t : list Step) : list Cmd :=
  flat_map (fun s => match s with Call c => [c] | _ => [] end) t.

Definition host_of (content : jsstring) (execute : Cmd -> reply)
  (write : Target -> jsstring -> result unit) (remove : result unit) : Host :=
  {| read := Ok content; execute := execute; write := write;
     remove := remove |}.

End Prototype.

(** More sample runs. *)
Definition env_padded : Env :=
  quiet_env "  abcdefghijkl|queue|a|b  " (Some (probe_text "85")).

Definition env_unreadable_probe : Env :=
  {| read_msgFile := Ok (lit "abcdefghijkl|steer|go");
     probeFile := Some (Raise (lit "EISDIR: illegal operation on a directory"));
     executeCommand := fun _ => Ok tt;
     write_file := fun _ _ => Ok tt;
     unlink_msgFile := Ok tt;
     now_ISO := lit "2026-02-20T13:20:40.000Z" |}.

Definition env_unreadable_msg : Env :=
  {| read_msgFile := Raise (lit "ENOENT: no such file or directory");
     probeFile := None;
     executeCommand := fun _ => Ok tt;
     write_file := fun _ _ => Ok tt;
     unlink_msgFile := Ok tt;
     now_ISO := lit "2026-02-20T13:20:40.000Z" |}.

(** A host whose steer command is missing. *)
Definition env_no_steer_command : Env :=
  {| read_msgFile := Ok (lit "abcdefghijkl|steer|go");
     probeFile := None;
     executeCommand := fun c =>
       match c with
       | ChatSteerWithMessage =>
           Raise (lit "command 'workbench.action.chat.steerWithMessage' not found")
       | _ => Ok tt
       end;
     write_file := fun _ _ => Ok tt;
     unlink_msgFile := Ok tt;
     now_ISO := lit "2026-02-20T13:20:40.000Z" |}.

(* ================================================================= *)
(** * Properties *)

(* ----------------------------------------------------------------- *)
(** *** Facts about strings *)

Lemma str_eqb_eq a b : str_eqb a b = true <-> a = b.
Proof.
  revert b; induction a as [|x a IH]; intros [|y b]; simpl;
    try (split; [discriminate | congruence]); try tauto.
  rewrite andb_true_iff, N.eqb_eq, IH. split.
  - intros [-> ->]; reflexivity.
  - intros E; inversion E; auto.
Qed.

Lemma str_eqb_refl a : str_eqb a a = true.
Proof. apply str_eqb_eq; reflexivity. Qed.

Lemma str_eqb_neq a b : a <> b -> str_eqb a b = false.
Proof.
  intros H. destruct (str_eqb a b) eqn:E; [|reflexivity].
  apply str_eqb_eq in E. contradiction.
Qed.

Lemma falsy_false_iff s : falsy s = false <-> s <> [].
Proof. destruct s; simpl; split; congruence. Qed.

Lemma falsy_true_iff s : falsy s = true <-> s = [].
Proof. destruct s; simpl; split; congruence. Qed.

Lemma split_not_nil sep s : split sep s <> [].
Proof.
  destruct s as [|c s]; simpl; [discriminate|].
  destruct (N.eqb c sep); [discriminate|].
  destruct (split sep s); discriminate.
Qed.

Lemma split_length_pos sep s : 1 <= length (split sep s).
Proof.
  pose proof (split_not_nil sep s).
  destruct (split sep s); simpl; [contradiction | lia].
Qed.

(** Splitting loses nothing: joining the segments gives the string back. *)
Lemma join_split sep s : join sep (split sep s) = s.
Proof.
  induction s as [|c s IH]; simpl; [reflexivity|].
  pose proof (split_not_nil sep s) as NN.
  destruct (N.eqb_spec c sep) as [->|Hc].
  - simpl. destruct (split sep s) as [|p ps]; [contradiction|].
    rewrite IH. reflexivity.
  - destruct (split sep s) as [|p ps]; [contradiction|].
    destruct ps as [|q qs]; simpl in *; rewrite <- IH; reflexivity.
Qed.

(** No segment contains the separator. *)
Lemma split_no_sep sep s seg : In seg (split sep s) -> ~ In sep seg.
Proof.
  revert seg; induction s as [|c s IH]; simpl; intros seg H.
  - destruct H as [<-|[]]. intros [].
  - pose proof (split_not_nil sep s) as NN.
    destruct (N.eqb_spec c sep) as [->|Hc].
    + destruct H as [<-|H]; [intros []|auto].
    + destruct (split sep s) as [|p ps]; [contradiction|].
      destruct H as [<-|H].
      * intros [E|E]; [congruence|]. apply (IH p); simpl; auto.
      * apply IH; simpl; auto.
Qed.

(** Joining from the third segment on: the text after the second separator. *)
Lemma join_cons2 sep a b rest :
  rest <> [] ->
  join sep (a :: b :: rest) = a ++ sep :: b ++ sep :: join sep rest.
Proof. destruct rest; [congruence|reflexivity]. Qed.

Lemma startsWith_app needle post : startsWith needle (needle ++ post) = true.
Proof.
  induction needle as [|x n IH]; simpl; [reflexivity|].
  rewrite N.eqb_refl, IH. reflexivity.
Qed.

Lemma includes_app pre needle post :
  includes needle (pre ++ needle ++ post) = true.
Proof.
  induction pre as [|c pre IH]; simpl.
  - destruct (needle ++ post) eqn:Eq; simpl; rewrite <- Eq;
      rewrite startsWith_app; reflexivity.
  - rewrite IH. apply orb_true_r.
Qed.

Lemma includes_intro needle hay pre post :
  hay = pre ++ needle ++ post -> includes needle hay = true.
Proof. intros ->. apply includes_app. Qed.

(** From the third segment on, the parts are the text behind the second
    separator. *)
Lemma parts_shape content :
  3 <= length (parts_of content) ->
  parts_of content =
    sessionId_of (parts_of content) :: mode_of (parts_of content)
      :: messageParts_of (parts_of content)
  /\ messageParts_of (parts_of content) <> [].
Proof.
  unfold sessionId_of, mode_of, messageParts_of.
  destruct (parts_of content) as [|a [|b [|c rest]]]; simpl; try lia.
  intros _. split; [reflexivity | discriminate].
Qed.

(* ----------------------------------------------------------------- *)
(** *** The handler, path by path *)

Section HandlerFacts.
Context {num : Type} `{JsNumber num}.
Variable E : Env.

Lemma cleanup_run f content :
  _cleanup E f content = ([WriteFile f content; Unlink], Normal tt).
Proof.
  unfold _cleanup, try_, writeFileSync, unlinkSync.
  destruct (write_file E f content) as [[]|], (unlink_msgFile E) as [[]|];
    reflexivity.
Qed.

Lemma writeWarn_run content :
  _writeWarn E content = ([WriteFile WarnFile content], Normal tt).
Proof.
  unfold _writeWarn, try_, writeFileSync.
  destruct (write_file E WarnFile content) as [[]|]; reflexivity.
Qed.

Lemma on_error_run error :
  on_error E error
  = ([WriteFile ErrFile (reason_exception error); Unlink], Normal tt).
Proof. apply cleanup_run. Qed.

Lemma read_failure_run error :
  read_msgFile E = Raise error ->
  onDidCreate E
  = ([WriteFile ErrFile (reason_exception error); Unlink], Normal tt).
Proof.
  intros Hr. unfold onDidCreate, handler_body. rewrite Hr. simpl.
  rewrite on_error_run. reflexivity.
Qed.

Lemma malformed_run content :
  read_msgFile E = Ok content ->
  length (parts_of content) < 3 ->
  onDidCreate E
  = ([WriteFile ErrFile (reason_invalid_format (length (parts_of content)));
      Unlink], Return).
Proof.
  intros Hr Hlen. unfold onDidCreate, handler_body. rewrite Hr.
  apply Nat.ltb_lt in Hlen. simpl. rewrite Hlen. simpl.
  rewrite cleanup_run. reflexivity.
Qed.

Lemma empty_field_run content :
  read_msgFile E = Ok content ->
  3 <= length (parts_of content) ->
  falsy (sessionId_of (parts_of content))
  || falsy (mode_of (parts_of content))
  || falsy (message_of (parts_of content)) = true ->
  onDidCreate E
  = ([WriteFile ErrFile
        (reason_empty_field (sessionId_of (parts_of content))
           (mode_of (parts_of content)) (message_of (parts_of content)));
      Unlink], Return).
Proof.
  intros Hr Hlen Hf. unfold onDidCreate, handler_body. rewrite Hr.
  apply Nat.ltb_ge in Hlen. simpl. rewrite Hlen. simpl. rewrite Hf. simpl.
  rewrite cleanup_run. reflexivity.
Qed.

(** Past line 207 the run is the context check followed by the chain. *)
Lemma valid_run sessionId mode message :
  valid_request E sessionId mode message ->
  onDidCreate E
  = try_catch (bind (context_check E mode)
                 (fun _ => dispatch E sessionId mode message))
      (on_error E).
Proof.
  intros (content & Hr & Hlen & -> & -> & -> & Hs & Hm & Hg).
  unfold onDidCreate, handler_body. rewrite Hr.
  apply Nat.ltb_ge in Hlen. simpl. rewrite Hlen. simpl.
  apply falsy_false_iff in Hs, Hm, Hg. rewrite Hs, Hm, Hg. simpl.
  destruct (bind _ _) as [t c]. reflexivity.
Qed.

Lemma blocked_run sessionId mode message p :
  valid_request E sessionId mode message ->
  _readContextProbe E = Some p ->
  blocks (Some p) mode = true ->
  onDidCreate E
  = ([WriteFile ErrFile (reason_blocked (contextPct p)); Unlink], Return).
Proof.
  intros Hv Hp Hb. rewrite (valid_run Hv). unfold context_check.
  rewrite Hp. simpl in Hb. rewrite Hb. simpl. rewrite cleanup_run.
  reflexivity.
Qed.

Lemma unblocked_run sessionId mode message :
  valid_request E sessionId mode message ->
  blocks (_readContextProbe E) mode = false ->
  onDidCreate E
  = (warn_events (_readContextProbe E)
       ++ fst (dispatch_caught E sessionId mode message),
     snd (dispatch_caught E sessionId mode message)).
Proof.
  intros Hv Hb. rewrite (valid_run Hv).
  unfold context_check, dispatch_caught.
  destruct (_readContextProbe E) as [p|]; simpl in *.
  - rewrite Hb. simpl.
    destruct (num_gtb (contextPct p) (num_lit 80)); simpl.
    + rewrite writeWarn_run. simpl.
      destruct (dispatch E sessionId mode message) as [t [a| |e]];
        simpl; try reflexivity.
      destruct (on_error E e). simpl. reflexivity.
    + destruct (dispatch E sessionId mode message) as [t [a| |e]];
        simpl; try reflexivity.
      destruct (on_error E e). reflexivity.
  - destruct (dispatch E sessionId mode message) as [t [a| |e]];
      simpl; try reflexivity.
    destruct (on_error E e). reflexivity.
Qed.
End HandlerFacts.

Arguments _cleanup : simpl never.
Arguments on_error : simpl never.
Arguments lit : simpl never.
Arguments substring0 : simpl never.

(** Unfold one step of the chain and settle every [_cleanup]. *)
Ltac run_chain :=
  unfold exec, _delay; simpl;
  repeat match goal with
         | |- context [executeCommand ?E ?c] =>
             destruct (executeCommand E c) as [[]|?]; simpl
         end;
  rewrite ?cleanup_run, ?on_error_run; simpl.

Section DispatchFacts.
Context {num : Type} `{JsNumber num}.
Variable E : Env.
Variables sessionId message : jsstring.

Lemma send_run :
  dispatch_caught E sessionId MODE_SEND message
  = (Exec (ChatOpen message false)
       :: match executeCommand E (ChatOpen message false) with
          | Ok _ => [WriteFile AckFile (ack_send sessionId (now_ISO E));
                     Unlink]
          | Raise e => [WriteFile ErrFile (reason_exception e); Unlink]
          end,
     Normal tt).
Proof. unfold dispatch_caught, dispatch. run_chain; reflexivity. Qed.

Lemma steer_run :
  dispatch_caught E sessionId MODE_STEER message
  = (Exec (ChatOpen message true)
       :: match executeCommand E (ChatOpen message true) with
          | Raise e => [WriteFile ErrFile (reason_exception e); Unlink]
          | Ok _ =>
              Delay 100 :: Exec ChatSteerWithMessage
                :: match executeCommand E ChatSteerWithMessage with
                   | Ok _ =>
                       [WriteFile AckFile
                          (ack_steer sessionId (now_ISO E)); Unlink]
                   | Raise e =>
                       [WriteFile ErrFile (reason_exception e); Unlink]
                   end
          end,
     Normal tt).
Proof. unfold dispatch_caught, dispatch. run_chain; reflexivity. Qed.

Lemma stop_and_send_run :
  dispatch_caught E sessionId MODE_STOP_AND_SEND message
  = (Exec ChatCancel
       :: match executeCommand E ChatCancel with
          | Raise e => [WriteFile ErrFile (reason_exception e); Unlink]
          | Ok _ =>
              Delay 300 :: Exec (ChatOpen message false)
                :: match executeCommand E (ChatOpen message false) with
                   | Ok _ =>
                       [WriteFile AckFile
                          (ack_stop_and_send sessionId (now_ISO E)); Unlink]
                   | Raise e =>
                       [WriteFile ErrFile (reason_exception e); Unlink]
                   end
          end,
     Normal tt).
Proof. unfold dispatch_caught, dispatch. run_chain; reflexivity. Qed.

Lemma queue_run :
  dispatch_caught E sessionId MODE_QUEUE message
  = (Exec (ChatOpen message true)
       :: match executeCommand E (ChatOpen message true) with
          | Raise e => [WriteFile ErrFile (reason_exception e); Unlink]
          | Ok _ =>
              Delay 100 :: Exec ChatQueueMessage
                :: match executeCommand E ChatQueueMessage with
                   | Ok _ =>
                       [WriteFile AckFile
                          (ack_queue sessionId (now_ISO E)); Unlink]
                   | Raise e =>
                       [WriteFile ErrFile (reason_exception e); Unlink]
                   end
          end,
     Normal tt).
Proof. unfold dispatch_caught, dispatch. run_chain; reflexivity. Qed.

Lemma compact_run :
  dispatch_caught E sessionId MODE_COMPACT message
  = (Exec ChatShowContextUsage
       :: match executeCommand E ChatShowContextUsage with
          | Ok _ => [WriteFile AckFile (ack_compact (now_ISO E)); Unlink]
          | Raise e => [WriteFile ErrFile (reason_exception e); Unlink]
          end,
     Normal tt).
Proof. unfold dispatch_caught, dispatch. run_chain; reflexivity. Qed.

Lemma unknown_mode_run mode :
  recognized mode = false ->
  dispatch_caught E sessionId mode message
  = ([WriteFile ErrFile (reason_unknown_mode mode); Unlink], Normal tt).
Proof.
  unfold recognized. intros Hm.
  repeat (apply orb_false_iff in Hm; destruct Hm as [Hm ?]).
  unfold dispatch_caught, dispatch.
  repeat match goal with Hq : str_eqb _ _ = false |- _ =>
           rewrite Hq; clear Hq end.
  rewrite cleanup_run. reflexivity.
Qed.

(** Every mode is one of the five or unknown to the chain. *)
Lemma mode_cases mode :
  mode = MODE_SEND \/ mode = MODE_STEER \/ mode = MODE_STOP_AND_SEND
  \/ mode = MODE_QUEUE \/ mode = MODE_COMPACT \/ recognized mode = false.
Proof.
  unfold recognized.
  destruct (str_eqb mode MODE_SEND) eqn:E1;
    [apply str_eqb_eq in E1; auto|].
  destruct (str_eqb mode MODE_STEER) eqn:E2;
    [apply str_eqb_eq in E2; auto|].
  destruct (str_eqb mode MODE_STOP_AND_SEND) eqn:E3;
    [apply str_eqb_eq in E3; auto|].
  destruct (str_eqb mode MODE_QUEUE) eqn:E4;
    [apply str_eqb_eq in E4; auto 6|].
  destruct (str_eqb mode MODE_COMPACT) eqn:E5;
    [apply str_eqb_eq in E5; auto 6|].
  auto 10.
Qed.

(** Whatever the host does, the chain ends on one outcome write and the
    unlink, and its exception does not leave the handler. *)
Lemma dispatch_caught_resolved mode :
  resolved_once (fst (dispatch_caught E sessionId mode message)) = true
  /\ snd (dispatch_caught E sessionId mode message) = Normal tt.
Proof.
  destruct (mode_cases mode) as [->|[->|[->|[->|[->|Hu]]]]].
  - rewrite send_run; simpl.
    destruct (executeCommand E _); auto.
  - rewrite steer_run; simpl.
    destruct (executeCommand E (ChatOpen _ _)); simpl; auto.
    destruct (executeCommand E _); auto.
  - rewrite stop_and_send_run; simpl.
    destruct (executeCommand E ChatCancel); simpl; auto.
    destruct (executeCommand E _); auto.
  - rewrite queue_run; simpl.
    destruct (executeCommand E (ChatOpen _ _)); simpl; auto.
    destruct (executeCommand E _); auto.
  - rewrite compact_run; simpl.
    destruct (executeCommand E _); auto.
  - rewrite unknown_mode_run by assumption. auto.
Qed.
End DispatchFacts.

(* ----------------------------------------------------------------- *)
(** *** Shape of a resolved trace *)

Lemma resolved_once_shape t :
  resolved_once t = true ->
  exists pre f content,
    t = pre ++ [WriteFile f content; Unlink] /\ f <> WarnFile
    /\ count is_outcome_write pre = 0 /\ count is_unlink pre = 0.
Proof.
  induction t as [|e t IH]; simpl; [discriminate|].
  destruct e as [c|ms|f content|].
  - intros Hr. destruct (IH Hr) as (pre & f & k & -> & Hf & Hw & Hu).
    exists (Exec c :: pre), f, k. auto.
  - intros Hr. destruct (IH Hr) as (pre & f & k & -> & Hf & Hw & Hu).
    exists (Delay ms :: pre), f, k. auto.
  - destruct f.
    + destruct t as [|[| | |] [|? ?]]; try discriminate.
      intros _. exists [], AckFile, content.
      repeat split; discriminate.
    + destruct t as [|[| | |] [|? ?]]; try discriminate.
      intros _. exists [], ErrFile, content.
      repeat split; discriminate.
    + intros Hr. destruct (IH Hr) as (pre & f & k & -> & Hf & Hw & Hu).
      exists (WriteFile WarnFile content :: pre), f, k. auto.
  - discriminate.
Qed.

Lemma count_app p a b : count p (a ++ b) = count p a + count p b.
Proof. unfold count. rewrite filter_app, length_app. reflexivity. Qed.

Lemma resolved_once_counts t :
  resolved_once t = true ->
  count is_outcome_write t = 1 /\ count is_unlink t = 1.
Proof.
  intros Hr. destruct (resolved_once_shape _ Hr)
    as (pre & f & k & -> & Hf & Hw & Hu).
  rewrite !count_app, Hw, Hu. destruct f; try contradiction; auto.
Qed.

Lemma resolved_once_after_warn {num} `{JsNumber num}
  (probe : option (Probe num)) t :
  resolved_once (warn_events probe ++ t) = resolved_once t.
Proof.
  destruct probe as [p|]; simpl; [|reflexivity].
  destruct (num_gtb _ _); reflexivity.
Qed.

Section RunFacts.
Context {num : Type} `{JsNumber num}.
Variable E : Env.

(** The four ways a run can go before the context check. *)
Lemma run_paths :
  (exists error, read_msgFile E = Raise error)
  \/ (exists content,
        read_msgFile E = Ok content /\ length (parts_of content) < 3)
  \/ (exists content,
        read_msgFile E = Ok content /\ 3 <= length (parts_of content)
        /\ falsy (sessionId_of (parts_of content))
           || falsy (mode_of (parts_of content))
           || falsy (message_of (parts_of content)) = true)
  \/ (exists sessionId mode message,
        valid_request E sessionId mode message).
Proof.
  destruct (read_msgFile E) as [content|error] eqn:Hr;
    [|left; exists error; reflexivity].
  right. destruct (Nat.lt_ge_cases (length (parts_of content)) 3) as [Hl|Hl];
    [left; exists content; auto|].
  right.
  destruct (falsy (sessionId_of (parts_of content))
            || falsy (mode_of (parts_of content))
            || falsy (message_of (parts_of content))) eqn:Hf;
    [left; exists content; auto|].
  right.
  apply orb_false_iff in Hf. destruct Hf as [Hf Hg].
  apply orb_false_iff in Hf. destruct Hf as [Hs Hm].
  apply falsy_false_iff in Hs, Hm, Hg.
  do 3 eexists. exists content. repeat split; eauto.
Qed.

Lemma blocks_true_inv probe mode :
  blocks probe mode = true ->
  exists p : Probe num,
    probe = Some p /\ num_gtb (contextPct p) (num_lit 95) = true
    /\ mode = MODE_STEER.
Proof.
  destruct probe as [p|]; simpl; [|discriminate].
  intros Hb. apply andb_true_iff in Hb. destruct Hb as [Hg Hm].
  apply str_eqb_eq in Hm. eauto.
Qed.

Lemma dispatch_caught_no_warn sessionId mode message :
  count is_warn_write (fst (dispatch_caught E sessionId mode message)) = 0.
Proof.
  destruct (mode_cases mode) as [->|[->|[->|[->|[->|Hu]]]]].
  - rewrite send_run; simpl.
    destruct (executeCommand E _); reflexivity.
  - rewrite steer_run; simpl.
    destruct (executeCommand E (ChatOpen _ _)); simpl; auto.
    destruct (executeCommand E _); reflexivity.
  - rewrite stop_and_send_run; simpl.
    destruct (executeCommand E ChatCancel); simpl; auto.
    destruct (executeCommand E _); reflexivity.
  - rewrite queue_run; simpl.
    destruct (executeCommand E (ChatOpen _ _)); simpl; auto.
    destruct (executeCommand E _); reflexivity.
  - rewrite compact_run; simpl.
    destruct (executeCommand E _); reflexivity.
  - rewrite unknown_mode_run by assumption. reflexivity.
Qed.

Lemma warn_events_count (probe : option (Probe num)) :
  count is_warn_write (warn_events probe) <= 1.
Proof.
  destruct probe as [p|]; simpl; [|auto].
  destruct (num_gtb _ _); simpl; auto.
Qed.

(** Every run ends on one outcome write and the unlink, writes at most
    one warning and lets no exception out. *)
Lemma run_resolved :
  resolved_once (trace E) = true
  /\ resolves E = true
  /\ count is_warn_write (trace E) <= 1.
Proof.
  unfold trace, resolves.
  destruct run_paths as
    [[error Hr]|[(content & Hr & Hl)|[(content & Hr & Hl & Hf)
      |(sessionId & mode & message & Hv)]]].
  - rewrite (read_failure_run _ Hr). simpl. auto.
  - rewrite (malformed_run _ Hr Hl). simpl. auto.
  - rewrite (empty_field_run _ Hr Hl Hf). simpl. auto.
  - destruct (blocks (_readContextProbe E) mode) eqn:Hb.
    + destruct (blocks_true_inv _ _ Hb) as (p & Hp & _ & _).
      rewrite Hp in Hb. rewrite (blocked_run Hv Hp Hb). simpl. auto.
    + rewrite (unblocked_run Hv Hb). simpl.
      rewrite resolved_once_after_warn, count_app, dispatch_caught_no_warn.
      destruct (dispatch_caught_resolved E sessionId message mode)
        as [Hres Hsnd].
      rewrite Hres, Hsnd, Nat.add_0_r.
      split; [reflexivity|]. split; [reflexivity|].
      apply warn_events_count.
Qed.
End RunFacts.

(* ================================================================= *)
(** * The claims *)

(** C1.  Every run of the handler attempts exactly one write of an outcome
    file ([.ack] or [.err]) and exactly one unlink of the [.msg] file, as
    the last two effects of the run, whatever the file system and the host
    answer: a failing write does not stop the unlink, a failing unlink
    comes after the write was already attempted, and no exception leaves
    the handler.  A [.warn] file is written at most once, before them. *)
Theorem outcome_write_and_unlink_exactly_once
  {num : Type} `{JsNumber num} (E : Env) :
  resolves E = true
  /\ count is_outcome_write (trace E) = 1
  /\ count is_unlink (trace E) = 1
  /\ count is_warn_write (trace E) <= 1
  /\ (exists pre f content,
        trace E = pre ++ [WriteFile f content; Unlink] /\ f <> WarnFile)
  /\ (forall f content,
        _cleanup E f content = ([WriteFile f content; Unlink], Normal tt)).
Proof.
  destruct (run_resolved E) as (Hres & Hok & Hwarn).
  destruct (resolved_once_counts _ Hres) as [Hw Hu].
  destruct (resolved_once_shape _ Hres) as (pre & f & k & Ht & Hf & _ & _).
  repeat split; auto.
  - exists pre, f, k. auto.
  - intros. apply cleanup_run.
Qed.

(** C2.  When the trimmed content of the [.msg] file splits on ['|'] into
    fewer than three segments, the run writes the [.err] file with the
    invalid-format reason, unlinks the [.msg] file and invokes no host
    command.  The reason carries the number of segments found: there are
    one or two, and the text ends in [got 1 segment(s)] or in
    [got 2 segment(s)] accordingly. *)
Theorem malformed_segment_count_no_host
  {num : Type} `{JsNumber num} (E : Env) (content : jsstring) :
  read_msgFile E = Ok content ->
  length (parts_of content) < 3 ->
  trace E
  = [WriteFile ErrFile (reason_invalid_format (length (parts_of content)));
     Unlink]
  /\ includes (nat_toString (length (parts_of content)))
       (reason_invalid_format (length (parts_of content))) = true
  /\ invocations (trace E) = []
  /\ ((length (parts_of content) = 1
       /\ trace E
          = [WriteFile ErrFile
               (lit "Invalid format " ++ EM_DASH ++ lit " expected " ++ QUOTE
                  ++ lit "sessionId|mode|message" ++ QUOTE
                  ++ lit ", got 1 segment(s)");
             Unlink])
      \/ (length (parts_of content) = 2
          /\ trace E
             = [WriteFile ErrFile
                  (lit "Invalid format " ++ EM_DASH ++ lit " expected "
                     ++ QUOTE ++ lit "sessionId|mode|message" ++ QUOTE
                     ++ lit ", got 2 segment(s)");
                Unlink])).
Proof.
  intros Hr Hl. unfold trace. rewrite (malformed_run _ Hr Hl).
  split; [reflexivity|]. split; [|split; [reflexivity|]].
  - apply includes_intro with
      (pre := lit "Invalid format " ++ EM_DASH ++ lit " expected " ++ QUOTE
                ++ lit "sessionId|mode|message" ++ QUOTE ++ lit ", got ")
      (post := lit " segment(s)").
    unfold reason_invalid_format. rewrite <- !app_assoc. reflexivity.
  - pose proof (split_length_pos SEP (trim content)) as Hpos.
    fold (parts_of content) in Hpos.
    assert (Hn : length (parts_of content) = 1
                 \/ length (parts_of content) = 2) by lia.
    destruct Hn as [Hn|Hn]; [left|right]; (split; [exact Hn|]);
      rewrite Hn; reflexivity.
Qed.

Lemma malformed_segment_count_no_host_witness :
  trace (num := dec) (quiet_env "abcdefghijkl|send" None)
  = [WriteFile ErrFile
       (lit "Invalid format " ++ EM_DASH ++ lit " expected " ++ QUOTE
          ++ lit "sessionId|mode|message" ++ QUOTE
          ++ lit ", got 2 segment(s)");
     Unlink]
  /\ includes (lit "2")
       (lit "Invalid format " ++ EM_DASH ++ lit " expected " ++ QUOTE
          ++ lit "sessionId|mode|message" ++ QUOTE
          ++ lit ", got 2 segment(s)") = true
  /\ invocations (trace (num := dec) (quiet_env "abcdefghijkl|send" None))
     = []
  /\ length (parts_of (lit "abcdefghijkl|send")) = 2.
Proof.
  assert (Hl : length (parts_of (lit "abcdefghijkl|send")) < 3)
    by (vm_compute; lia).
  destruct (malformed_segment_count_no_host (num := dec)
              (quiet_env "abcdefghijkl|send" None)
              (content := lit "abcdefghijkl|send") eq_refl Hl)
    as (_ & Hinc & Hinv & [[Hone _]|[Htwo Htrace]]).
  - vm_compute in Hone. discriminate Hone.
  - split; [exact Htrace|]. split; [exact Hinc|].
    split; [exact Hinv | exact Htwo].
Defined.

(** C3.  With three segments or more, [sessionId] is the first segment,
    [mode] the second and [message] the remaining segments joined with
    ['|'] again, so that the trimmed input is [sessionId|mode|message] with
    no separator inside [sessionId] or [mode]: the message is the whole
    text behind the second separator.  The input [abc|send|hello|world]
    gives [abc], [send] and [hello|world]. *)
Theorem fields_of_three_or_more_segments :
  (forall content : jsstring,
      3 <= length (parts_of content) ->
      exists first second rest,
        parts_of content = first :: second :: rest
        /\ sessionId_of (parts_of content) = first
        /\ mode_of (parts_of content) = second
        /\ message_of (parts_of content) = join SEP rest
        /\ trim content
           = first ++ SEP :: second ++ SEP :: message_of (parts_of content)
        /\ ~ In SEP first /\ ~ In SEP second)
  /\ (sessionId_of (parts_of (lit "abc|send|hello|world")) = lit "abc"
      /\ mode_of (parts_of (lit "abc|send|hello|world")) = lit "send"
      /\ message_of (parts_of (lit "abc|send|hello|world"))
         = lit "hello|world").
Proof.
  split; [|repeat split; reflexivity].
  intros content Hl.
  destruct (parts_shape content Hl) as [Hparts Hrest].
  exists (sessionId_of (parts_of content)), (mode_of (parts_of content)),
    (messageParts_of (parts_of content)).
  repeat split; auto.
  - unfold message_of. rewrite <- join_cons2 by assumption.
    rewrite <- Hparts. unfold parts_of. rewrite join_split. reflexivity.
  - apply (split_no_sep SEP (trim content)). fold (parts_of content).
    rewrite Hparts. simpl. auto.
  - apply (split_no_sep SEP (trim content)). fold (parts_of content).
    rewrite Hparts. simpl. auto.
Qed.

Lemma fields_of_three_or_more_segments_witness :
  exists first second rest,
    parts_of (lit "  s-1|queue|a||b| ") = first :: second :: rest
    /\ sessionId_of (parts_of (lit "  s-1|queue|a||b| ")) = first
    /\ mode_of (parts_of (lit "  s-1|queue|a||b| ")) = second
    /\ message_of (parts_of (lit "  s-1|queue|a||b| ")) = join SEP rest
    /\ trim (lit "  s-1|queue|a||b| ")
       = first ++ SEP :: second ++ SEP
           :: message_of (parts_of (lit "  s-1|queue|a||b| "))
    /\ ~ In SEP first /\ ~ In SEP second.
Proof.
  apply (proj1 fields_of_three_or_more_segments (lit "  s-1|queue|a||b| ")).
  vm_compute. lia.
Defined.

(** C4.  With three segments or more, if [sessionId], [mode] or [message]
    is the empty string the run writes the [.err] file with the empty-field
    reason, unlinks the [.msg] file and invokes no host command.  The
    reason quotes the three fields, so an empty one shows as two adjacent
    quotes behind its name, and it differs from every invalid-format
    reason. *)
Theorem empty_field_no_host
  {num : Type} `{JsNumber num} (E : Env) (content : jsstring) :
  read_msgFile E = Ok content ->
  3 <= length (parts_of content) ->
  sessionId_of (parts_of content) = []
  \/ mode_of (parts_of content) = []
  \/ message_of (parts_of content) = [] ->
  let sessionId := sessionId_of (parts_of content) in
  let mode := mode_of (parts_of content) in
  let message := message_of (parts_of content) in
  let reason := reason_empty_field sessionId mode message in
  trace E = [WriteFile ErrFile reason; Unlink]
  /\ invocations (trace E) = []
  /\ (forall n, reason <> reason_invalid_format n)
  /\ (sessionId = [] ->
      includes (lit " sessionId=" ++ QUOTE ++ QUOTE) reason = true)
  /\ (mode = [] -> includes (lit " mode=" ++ QUOTE ++ QUOTE) reason = true)
  /\ (message = [] ->
      includes (lit " message=" ++ QUOTE ++ QUOTE) reason = true).
Proof.
  intros Hr Hl Hempty sessionId mode message reason.
  assert (Hf : falsy sessionId || falsy mode || falsy message = true).
  { destruct Hempty as [He|[He|He]]; apply falsy_true_iff in He;
      subst sessionId mode message; rewrite He;
      rewrite ?orb_true_r; reflexivity. }
  unfold trace. rewrite (empty_field_run _ Hr Hl Hf).
  split; [reflexivity|]. split; [reflexivity|].
  subst reason. unfold reason_empty_field.
  split; [|split; [|split]].
  - intros n Heq. apply (f_equal (@hd_error N)) in Heq.
    vm_compute in Heq. discriminate.
  - intros ->.
    apply includes_intro with
      (pre := lit "Empty field " ++ EM_DASH)
      (post := lit " mode=" ++ QUOTE ++ mode ++ QUOTE ++ lit " message="
                 ++ QUOTE ++ message ++ QUOTE).
    reflexivity.
  - intros ->.
    apply includes_intro with
      (pre := lit "Empty field " ++ EM_DASH ++ lit " sessionId=" ++ QUOTE
                ++ sessionId ++ QUOTE)
      (post := lit " message=" ++ QUOTE ++ message ++ QUOTE).
    rewrite <- !app_assoc. reflexivity.
  - intros ->.
    apply includes_intro with
      (pre := lit "Empty field " ++ EM_DASH ++ lit " sessionId=" ++ QUOTE
                ++ sessionId ++ QUOTE ++ lit " mode=" ++ QUOTE ++ mode
                ++ QUOTE)
      (post := []).
    rewrite <- !app_assoc. reflexivity.
Qed.

Lemma empty_field_no_host_witness :
  let E := hostile_env "s-1||hello" None in
  let reason := reason_empty_field (lit "s-1") [] (lit "hello") in
  trace (num := dec) E = [WriteFile ErrFile reason; Unlink]
  /\ invocations (trace (num := dec) E) = []
  /\ (forall n, reason <> reason_invalid_format n)
  /\ (lit "s-1" = [] ->
      includes (lit " sessionId=" ++ QUOTE ++ QUOTE) reason = true)
  /\ (@nil N = [] -> includes (lit " mode=" ++ QUOTE ++ QUOTE) reason = true)
  /\ (lit "hello" = [] ->
      includes (lit " message=" ++ QUOTE ++ QUOTE) reason = true).
Proof.
  apply (empty_field_no_host (num := dec) (hostile_env "s-1||hello" None)
           (content := lit "s-1||hello")).
  - reflexivity.
  - vm_compute. lia.
  - right; left. reflexivity.
Defined.

(* ----------------------------------------------------------------- *)
(** *** The context check *)

Lemma dispatch_caught_without_probe
  {num : Type} `{JsNumber num} (E : Env) sessionId mode message :
  dispatch_caught (without_probe E) sessionId mode message
  = dispatch_caught E sessionId mode message.
Proof. reflexivity. Qed.

Lemma valid_request_without_probe E sessionId mode message :
  valid_request E sessionId mode message ->
  valid_request (without_probe E) sessionId mode message.
Proof. intros H. exact H. Qed.

(** A run that is not blocked: the warning, if any, then the run the same
    request gets with no probe file. *)
Lemma unblocked_run_without_probe
  {num : Type} `{JsNumber num} (E : Env) sessionId mode message :
  valid_request E sessionId mode message ->
  blocks (_readContextProbe E) mode = false ->
  trace E = warn_events (_readContextProbe E) ++ trace (without_probe E).
Proof.
  intros Hv Hb. unfold trace.
  rewrite (unblocked_run Hv Hb).
  rewrite (unblocked_run (E := without_probe E)
             (valid_request_without_probe Hv) eq_refl).
  reflexivity.
Qed.

Lemma write_content_inj f f' (c c' : jsstring) (t t' : list Event) :
  WriteFile f c :: t = WriteFile f' c' :: t' -> c = c'.
Proof. intros Heq. inversion Heq. reflexivity. Qed.

(** A run that is not blocked never looks like a blocked one. *)
Lemma unblocked_shape
  {num : Type} `{JsNumber num} (E : Env) probe sessionId mode message pct :
  warn_events probe ++ fst (dispatch_caught E sessionId mode message)
  <> [WriteFile ErrFile (reason_blocked pct); Unlink].
Proof.
  assert (Hd : forall t, fst (dispatch_caught E sessionId mode message) = t ->
               t <> [WriteFile ErrFile (reason_blocked pct); Unlink]).
  { intros t <-.
    destruct (mode_cases mode) as [->|[->|[->|[->|[->|Hu]]]]].
    - rewrite send_run. discriminate.
    - rewrite steer_run. discriminate.
    - rewrite stop_and_send_run. discriminate.
    - rewrite queue_run. discriminate.
    - rewrite compact_run. discriminate.
    - rewrite unknown_mode_run by assumption. intros Heq.
      pose proof (write_content_inj Heq) as Hr.
      apply (f_equal (@hd_error N)) in Hr. vm_compute in Hr.
      discriminate. }
  destruct probe as [p|]; simpl; [|apply Hd; reflexivity].
  destruct (num_gtb _ _); simpl; [discriminate|apply Hd; reflexivity].
Qed.

(** C5.  For a valid request the run ends on the context-blocked [.err]
    file exactly when the probe was read, its [contextPct] is above 95 and
    the mode is [steer]; the reason then carries the percentage and sends
    the caller to [mode=compact] first, and no host command is invoked.
    For every other mode the run is never blocked: it is the run the
    request gets with no probe file, behind the warning if there is one. *)
Theorem steer_blocked_iff_above_95
  {num : Type} `{JsNumber num} (E : Env) (sessionId mode message : jsstring) :
  valid_request E sessionId mode message ->
  (@context_blocked num _ (trace E) <->
   exists p, _readContextProbe E = Some p
             /\ num_gtb (contextPct p) (num_lit 95) = true
             /\ mode = MODE_STEER)
  /\ (forall p, _readContextProbe E = Some p ->
                num_gtb (contextPct p) (num_lit 95) = true ->
                mode = MODE_STEER ->
                trace E
                = [WriteFile ErrFile (reason_blocked (contextPct p)); Unlink]
                /\ invocations (trace E) = []
                /\ includes (num_toString (contextPct p))
                     (reason_blocked (contextPct p)) = true
                /\ includes (lit "Use mode=compact first")
                     (reason_blocked (contextPct p)) = true)
  /\ (mode <> MODE_STEER ->
      ~ @context_blocked num _ (trace E)
      /\ trace E
         = warn_events (_readContextProbe E) ++ trace (without_probe E)).
Proof.
  intros Hv.
  assert (Hblocked : forall p,
             _readContextProbe E = Some p ->
             num_gtb (contextPct p) (num_lit 95) = true ->
             mode = MODE_STEER ->
             trace E
             = [WriteFile ErrFile (reason_blocked (contextPct p)); Unlink]).
  { intros p Hp Hg ->. unfold trace. rewrite (blocked_run Hv Hp).
    - reflexivity.
    - simpl. rewrite Hg. reflexivity. }
  assert (Hfree : blocks (_readContextProbe E) mode = false ->
                  ~ @context_blocked num _ (trace E)).
  { intros Hb [pct Hpct]. unfold trace in Hpct.
    rewrite (unblocked_run Hv Hb) in Hpct.
    eapply unblocked_shape. exact Hpct. }
  assert (Hother : mode <> MODE_STEER ->
                   blocks (_readContextProbe E) mode = false).
  { intros Hm. destruct (_readContextProbe E) as [p|]; simpl; auto.
    rewrite (str_eqb_neq Hm). apply andb_false_r. }
  split; [|split].
  - split.
    + intros Hcb.
      destruct (Bool.bool_dec (blocks (_readContextProbe E) mode) true)
        as [Hb|Hb].
      * apply blocks_true_inv in Hb. exact Hb.
      * apply not_true_is_false in Hb. exfalso. exact (Hfree Hb Hcb).
    + intros (p & Hp & Hg & Hm). exists (contextPct p). auto.
  - intros p Hp Hg Hm. rewrite (Hblocked p Hp Hg Hm).
    split; [reflexivity|]. split; [reflexivity|]. split.
    + apply includes_intro with
        (pre := lit "mode=steer blocked: context_pct=")
        (post := lit "% > 95%. Use mode=compact first, then retry.").
      reflexivity.
    + apply includes_intro with
        (pre := lit "mode=steer blocked: context_pct="
                  ++ num_toString (contextPct p) ++ lit "% > 95%. ")
        (post := lit ", then retry.").
      unfold reason_blocked. rewrite <- !app_assoc. reflexivity.
  - intros Hm. split.
    + apply Hfree, Hother, Hm.
    + apply (unblocked_run_without_probe Hv), Hother, Hm.
Qed.

(** Validity of a concrete request, by running the parse. *)
Ltac valid_by_computation c :=
  exists c; repeat split;
  try (vm_compute; solve [reflexivity | lia | discriminate]).

Lemma steer_blocked_iff_above_95_witness :
  valid_request env_steer_97 (lit "abcdefghijkl") MODE_STEER
    (lit "hello|world")
  /\ trace (num := dec) env_steer_97
     = [WriteFile ErrFile
          (lit "mode=steer blocked: context_pct=97% > 95%. Use mode=compact first, then retry.");
        Unlink]
  /\ @context_blocked dec _ (trace env_steer_97).
Proof.
  assert (Hv : valid_request env_steer_97 (lit "abcdefghijkl") MODE_STEER
                 (lit "hello|world"))
    by valid_by_computation (lit " abcdefghijkl|steer|hello|world ").
  destruct (steer_blocked_iff_above_95 (num := dec) Hv) as (Hiff & Hb & _).
  split; [exact Hv|]. split.
  - destruct (Hb (probe_of_content (probe_text "97")) eq_refl eq_refl eq_refl)
      as [Ht _].
    exact Ht.
  - apply Hiff. exists (probe_of_content (probe_text "97")).
    repeat split; reflexivity.
Defined.

Lemma invocations_app a b : invocations (a ++ b) = invocations a ++ invocations b.
Proof. unfold invocations. apply flat_map_app. Qed.

Lemma timeline_app a b : timeline (a ++ b) = timeline a ++ timeline b.
Proof. unfold timeline. apply filter_app. Qed.

Lemma delays_app a b : delays (a ++ b) = delays a ++ delays b.
Proof. unfold delays. apply flat_map_app. Qed.

Lemma warn_events_silent {num} `{JsNumber num} (probe : option (Probe num)) :
  invocations (warn_events probe) = []
  /\ timeline (warn_events probe) = []
  /\ delays (warn_events probe) = [].
Proof.
  destruct probe as [p|]; simpl; auto.
  destruct (num_gtb _ _); simpl; auto.
Qed.

Lemma not_steer_unblocked {num} `{JsNumber num}
  (probe : option (Probe num)) mode :
  mode <> MODE_STEER -> blocks probe mode = false.
Proof.
  intros Hm. destruct probe as [p|]; simpl; auto.
  rewrite (str_eqb_neq Hm). apply andb_false_r.
Qed.

(** C6.  For a valid request that is not blocked, a probe whose
    [contextPct] is above 80 makes the run write the [.warn] file, whose
    text carries the percentage and the patch count, and then go on as it
    does with no probe file.  For [mode=send] on a host that accepts the
    command this is the warning, one [chat.open] with the whole message
    and [isPartialQuery=false], the [.ack] file and the unlink; so it is
    for a probe with [context_pct: 85]. *)
Theorem warn_above_80_then_dispatch
  {num : Type} `{JsNumber num} (E : Env) (sessionId mode message : jsstring)
  (p : Probe num) :
  valid_request E sessionId mode message ->
  _readContextProbe E = Some p ->
  ~ (num_gtb (contextPct p) (num_lit 95) = true /\ mode = MODE_STEER) ->
  num_gtb (contextPct p) (num_lit 80) = true ->
  trace E
  = WriteFile WarnFile (warn_text (contextPct p) (patch p))
      :: trace (without_probe E)
  /\ includes (num_toString (contextPct p))
       (warn_text (contextPct p) (patch p)) = true
  /\ includes (num_toString (patch p))
       (warn_text (contextPct p) (patch p)) = true
  /\ (mode = MODE_SEND ->
      executeCommand E (ChatOpen message false) = Ok tt ->
      trace E
      = [WriteFile WarnFile (warn_text (contextPct p) (patch p));
         Exec (ChatOpen message false);
         WriteFile AckFile (ack_send sessionId (now_ISO E));
         Unlink]
      /\ invocations (trace E) = [ChatOpen message false]).
Proof.
  intros Hv Hp Hnb Hw.
  assert (Hb : blocks (_readContextProbe E) mode = false).
  { rewrite Hp. simpl.
    destruct (num_gtb (contextPct p) (num_lit 95)) eqn:Hg; [|reflexivity].
    apply str_eqb_neq. intros Hm. apply Hnb. auto. }
  assert (Ht : trace E
               = WriteFile WarnFile (warn_text (contextPct p) (patch p))
                   :: trace (without_probe E)).
  { rewrite (unblocked_run_without_probe Hv Hb), Hp. simpl. rewrite Hw.
    reflexivity. }
  split; [exact Ht|]. split; [|split].
  - apply includes_intro with
      (pre := lit "context warning: context_pct=")
      (post := lit "% > 80% (approaching compaction zone, patch="
                 ++ num_toString (patch p) ++ lit ")").
    reflexivity.
  - apply includes_intro with
      (pre := lit "context warning: context_pct="
                ++ num_toString (contextPct p)
                ++ lit "% > 80% (approaching compaction zone, patch=")
      (post := lit ")").
    unfold warn_text. rewrite <- !app_assoc. reflexivity.
  - intros -> Hx. rewrite Ht. unfold trace.
    rewrite (unblocked_run (E := without_probe E)
               (valid_request_without_probe Hv) eq_refl).
    rewrite dispatch_caught_without_probe, send_run, Hx.
    split; reflexivity.
Qed.

Lemma warn_above_80_then_dispatch_witness :
  trace (num := dec) env_send_85
  = [WriteFile WarnFile
       (lit "context warning: context_pct=85% > 80% (approaching compaction zone, patch=10)");
     Exec (ChatOpen (lit "hello|world") false);
     WriteFile AckFile (lit "sent sessionId=abc... at 2026-02-20T13:20:40.000Z");
     Unlink]
  /\ invocations (trace (num := dec) env_send_85)
     = [ChatOpen (lit "hello|world") false].
Proof.
  assert (Hv : valid_request env_send_85 (lit "abc") MODE_SEND
                 (lit "hello|world"))
    by valid_by_computation (lit "abc|send|hello|world").
  assert (Hnb : ~ (num_gtb (contextPct (probe_of_content (probe_text "85")))
                     (num_lit 95) = true /\ MODE_SEND = MODE_STEER))
    by (intros [Hg _]; vm_compute in Hg; discriminate).
  destruct (warn_above_80_then_dispatch (num := dec)
              (p := probe_of_content (probe_text "85"))
              Hv eq_refl Hnb eq_refl) as (_ & _ & _ & Hsend).
  exact (Hsend eq_refl eq_refl).
Defined.

(** C7.  For a valid [stop-and-send] request the host steps are, in this
    order, [chat.cancel], a delay of 300 ms and [chat.open] with the whole
    message and [isPartialQuery=false]; if [chat.cancel] throws, nothing
    follows it.  A [steer] run that is not blocked prefills, waits 100 ms
    and steers, and every delay of a [stop-and-send] run is strictly
    longer than every delay of a [steer] run. *)
Theorem stop_and_send_order
  {num : Type} `{JsNumber num} (E : Env) (sessionId message : jsstring) :
  valid_request E sessionId MODE_STOP_AND_SEND message ->
  (executeCommand E ChatCancel = Ok tt ->
   timeline (trace E)
   = [Exec ChatCancel; Delay 300; Exec (ChatOpen message false)]
   /\ invocations (trace E) = [ChatCancel; ChatOpen message false]
   /\ delays (trace E) = [300%Z])
  /\ (forall error, executeCommand E ChatCancel = Raise error ->
                    timeline (trace E) = [Exec ChatCancel])
  /\ (forall E' sessionId' message',
        valid_request E' sessionId' MODE_STEER message' ->
        (blocks (_readContextProbe E') MODE_STEER = false ->
         executeCommand E' (ChatOpen message' true) = Ok tt ->
         timeline (trace E')
         = [Exec (ChatOpen message' true); Delay 100;
            Exec ChatSteerWithMessage])
        /\ (forall d d', In d (delays (trace E)) ->
                         In d' (delays (trace E')) -> (d' < d)%Z)).
Proof.
  intros Hv.
  assert (Hb : blocks (_readContextProbe E) MODE_STOP_AND_SEND = false)
    by (apply not_steer_unblocked; discriminate).
  destruct (warn_events_silent (_readContextProbe E)) as (Wi & Wt & Wd).
  assert (Ht : trace E
               = warn_events (_readContextProbe E)
                   ++ fst (dispatch_caught E sessionId MODE_STOP_AND_SEND
                             message))
    by (unfold trace; rewrite (unblocked_run Hv Hb); reflexivity).
  rewrite stop_and_send_run in Ht. simpl fst in Ht.
  split; [|split].
  - intros Hc. rewrite Ht, timeline_app, invocations_app, delays_app.
    rewrite Wi, Wt, Wd, Hc. simpl.
    destruct (executeCommand E (ChatOpen message false)); auto.
  - intros error Hc. rewrite Ht, timeline_app, Wt, Hc. reflexivity.
  - intros E' sessionId' message' Hv'. split.
    + intros Hb' Hx. unfold trace. rewrite (unblocked_run Hv' Hb').
      simpl fst. rewrite timeline_app.
      destruct (warn_events_silent (_readContextProbe E')) as (_ & Wt' & _).
      rewrite Wt', steer_run, Hx. simpl.
      destruct (executeCommand E' ChatSteerWithMessage); reflexivity.
    + intros d d' Hd Hd'.
      assert (d = 300%Z) as ->.
      { rewrite Ht, delays_app, Wd in Hd. simpl in Hd.
        destruct (executeCommand E ChatCancel); simpl in Hd;
          [|contradiction].
        destruct (executeCommand E (ChatOpen message false)); simpl in Hd;
          destruct Hd as [<-|[]]; reflexivity. }
      assert (d' = 100%Z) as ->; [|lia].
      destruct (Bool.bool_dec (blocks (_readContextProbe E') MODE_STEER) true)
        as [Hb'|Hb'].
      * destruct (blocks_true_inv _ _ Hb') as (p & Hp & _ & _).
        rewrite Hp in Hb'. unfold trace in Hd'.
        rewrite (blocked_run Hv' Hp Hb') in Hd'. destruct Hd'.
      * apply not_true_is_false in Hb'. unfold trace in Hd'.
        rewrite (unblocked_run Hv' Hb') in Hd'. simpl fst in Hd'.
        rewrite delays_app in Hd'.
        destruct (warn_events_silent (_readContextProbe E')) as (_ & _ & Wd').
        rewrite Wd', steer_run in Hd'. simpl in Hd'.
        destruct (executeCommand E' (ChatOpen message' true)); simpl in Hd';
          [|contradiction].
        destruct (executeCommand E' ChatSteerWithMessage); simpl in Hd';
          destruct Hd' as [<-|[]]; reflexivity.
Qed.

Lemma stop_and_send_order_witness :
  timeline (trace (num := dec) env_stop_and_send)
  = [Exec ChatCancel; Delay 300;
     Exec (ChatOpen (lit "halt, then read this") false)]
  /\ timeline (trace (num := dec) env_steer_idle)
     = [Exec (ChatOpen (lit "look here") true); Delay 100;
        Exec ChatSteerWithMessage]
  /\ (100 < 300)%Z.
Proof.
  assert (Hv : valid_request env_stop_and_send (lit "session-0001")
                 MODE_STOP_AND_SEND (lit "halt, then read this"))
    by valid_by_computation
         (lit "session-0001|stop-and-send|halt, then read this").
  assert (Hv' : valid_request env_steer_idle (lit "session-0001")
                  MODE_STEER (lit "look here"))
    by valid_by_computation (lit "session-0001|steer|look here").
  destruct (stop_and_send_order (num := dec) Hv) as (Hsas & _ & Hsteer).
  destruct (Hsas eq_refl) as (Ht & _ & Hd).
  destruct (Hsteer env_steer_idle _ _ Hv') as (Ht' & Hlt).
  split; [exact Ht|]. split; [exact (Ht' eq_refl eq_refl)|].
  apply Hlt.
  - rewrite Hd. left. reflexivity.
  - vm_compute. left. reflexivity.
Defined.

(** C8.  For a valid request whose mode is none of [send], [steer],
    [stop-and-send], [queue] and [compact], the run writes the [.err] file
    with the unknown-mode reason, which quotes the mode and lists the five
    supported modes, unlinks the [.msg] file and invokes no host command.
    The only thing that can come before is the context warning. *)
Theorem unknown_mode_errored
  {num : Type} `{JsNumber num} (E : Env) (sessionId mode message : jsstring) :
  valid_request E sessionId mode message ->
  mode <> MODE_SEND -> mode <> MODE_STEER -> mode <> MODE_STOP_AND_SEND ->
  mode <> MODE_QUEUE -> mode <> MODE_COMPACT ->
  trace E
  = warn_events (_readContextProbe E)
      ++ [WriteFile ErrFile (reason_unknown_mode mode); Unlink]
  /\ invocations (trace E) = []
  /\ includes (QUOTE ++ mode ++ QUOTE) (reason_unknown_mode mode) = true
  /\ includes
       (lit "supported modes: send, steer, stop-and-send, queue, compact")
       (reason_unknown_mode mode) = true.
Proof.
  intros Hv H1 H2 H3 H4 H5.
  assert (Hu : recognized mode = false).
  { unfold recognized.
    rewrite (str_eqb_neq H1), (str_eqb_neq H2), (str_eqb_neq H3),
      (str_eqb_neq H4), (str_eqb_neq H5). reflexivity. }
  assert (Ht : trace E
               = warn_events (_readContextProbe E)
                   ++ [WriteFile ErrFile (reason_unknown_mode mode); Unlink]).
  { unfold trace.
    rewrite (unblocked_run Hv (not_steer_unblocked _ H2)).
    rewrite unknown_mode_run by assumption. reflexivity. }
  split; [exact Ht|]. split; [|split].
  - rewrite Ht, invocations_app.
    destruct (warn_events_silent (_readContextProbe E)) as (-> & _ & _).
    reflexivity.
  - apply includes_intro with
      (pre := lit "Unknown mode=")
      (post := lit " " ++ EM_DASH
                 ++ lit " supported modes: send, steer, stop-and-send, queue, compact").
    unfold reason_unknown_mode. rewrite <- !app_assoc. reflexivity.
  - apply includes_intro with
      (pre := lit "Unknown mode=" ++ QUOTE ++ mode ++ QUOTE ++ lit " "
                ++ EM_DASH ++ lit " ")
      (post := []).
    unfold reason_unknown_mode. rewrite <- !app_assoc. reflexivity.
Qed.

Lemma unknown_mode_errored_witness :
  trace (num := dec) env_bogus_85
  = [WriteFile WarnFile
       (lit "context warning: context_pct=85% > 80% (approaching compaction zone, patch=10)");
     WriteFile ErrFile (reason_unknown_mode (lit "bogus"));
     Unlink]
  /\ invocations (trace (num := dec) env_bogus_85) = [].
Proof.
  assert (Hv : valid_request env_bogus_85 (lit "session-0001") (lit "bogus")
                 (lit "hello"))
    by valid_by_computation (lit "session-0001|bogus|hello").
  destruct (unknown_mode_errored (num := dec) Hv)
    as (Ht & Hi & _); try (vm_compute; discriminate).
  split; [exact Ht | exact Hi].
Defined.

(** C10.  A warning can come with an error: there is a valid request with
    an unknown mode and a probe above 80 whose run writes the [.warn] file
    first, then the unknown-mode [.err] file, then unlinks, because the
    context check of lines 211-223 runs before the chain over [mode]. *)
Theorem warning_can_accompany_error :
  exists (E : Env) (sessionId mode message : jsstring) (p : Probe dec),
    valid_request E sessionId mode message
    /\ recognized mode = false
    /\ _readContextProbe E = Some p
    /\ num_gtb (contextPct p) (num_lit 80) = true
    /\ trace E
       = [WriteFile WarnFile (warn_text (contextPct p) (patch p));
          WriteFile ErrFile (reason_unknown_mode mode);
          Unlink].
Proof.
  exists env_bogus_85, (lit "session-0001"), (lit "bogus"), (lit "hello"),
    (probe_of_content (probe_text "85")).
  split; [valid_by_computation (lit "session-0001|bogus|hello")|].
  repeat split; reflexivity.
Qed.

(* ----------------------------------------------------------------- *)
(** *** The acknowledgement texts *)

(** An [.ack] write in the chain is the acknowledgement of its mode. *)
Lemma ack_in_dispatch
  {num : Type} `{JsNumber num} (E : Env) sessionId mode message content :
  In (WriteFile AckFile content)
     (fst (dispatch_caught E sessionId mode message)) ->
  (mode = MODE_SEND /\ content = ack_send sessionId (now_ISO E))
  \/ (mode = MODE_STEER /\ content = ack_steer sessionId (now_ISO E))
  \/ (mode = MODE_STOP_AND_SEND
      /\ content = ack_stop_and_send sessionId (now_ISO E))
  \/ (mode = MODE_QUEUE /\ content = ack_queue sessionId (now_ISO E))
  \/ (mode = MODE_COMPACT /\ content = ack_compact (now_ISO E)).
Proof.
  assert (Hin : forall (a b : jsstring) ev,
             In (WriteFile AckFile a) [WriteFile AckFile b; ev] ->
             ev = Unlink -> a = b).
  { intros a b ev [Heq|[Heq|[]]] Hev; [congruence|].
    rewrite Hev in Heq. discriminate. }
  assert (Herr : forall (a b : jsstring),
             ~ In (WriteFile AckFile a) [WriteFile ErrFile b; Unlink]).
  { intros a b [Heq|[Heq|[]]]; discriminate. }
  destruct (mode_cases mode) as [->|[->|[->|[->|[->|Hu]]]]].
  - rewrite send_run. simpl. intros [Heq|Hi]; [discriminate|].
    destruct (executeCommand E _); [|destruct (Herr _ _ Hi)].
    left. split; [reflexivity|]. apply (Hin _ _ _ Hi eq_refl).
  - rewrite steer_run. simpl. intros [Heq|Hi]; [discriminate|].
    destruct (executeCommand E (ChatOpen _ _)); [|destruct (Herr _ _ Hi)].
    destruct Hi as [Heq|[Heq|Hi]]; try discriminate.
    destruct (executeCommand E _); [|destruct (Herr _ _ Hi)].
    right; left. split; [reflexivity|]. apply (Hin _ _ _ Hi eq_refl).
  - rewrite stop_and_send_run. simpl. intros [Heq|Hi]; [discriminate|].
    destruct (executeCommand E ChatCancel); [|destruct (Herr _ _ Hi)].
    destruct Hi as [Heq|[Heq|Hi]]; try discriminate.
    destruct (executeCommand E _); [|destruct (Herr _ _ Hi)].
    right; right; left. split; [reflexivity|].
    apply (Hin _ _ _ Hi eq_refl).
  - rewrite queue_run. simpl. intros [Heq|Hi]; [discriminate|].
    destruct (executeCommand E (ChatOpen _ _)); [|destruct (Herr _ _ Hi)].
    destruct Hi as [Heq|[Heq|Hi]]; try discriminate.
    destruct (executeCommand E _); [|destruct (Herr _ _ Hi)].
    right; right; right; left. split; [reflexivity|].
    apply (Hin _ _ _ Hi eq_refl).
  - rewrite compact_run. simpl. intros [Heq|Hi]; [discriminate|].
    destruct (executeCommand E _); [|destruct (Herr _ _ Hi)].
    right; right; right; right. split; [reflexivity|].
    apply (Hin _ _ _ Hi eq_refl).
  - rewrite unknown_mode_run by assumption. intros Hi.
    destruct (Herr _ _ Hi).
Qed.

(** An [.ack] write in a run of a valid request comes from the chain. *)
Lemma ack_in_trace
  {num : Type} `{JsNumber num} (E : Env) sessionId mode message content :
  valid_request E sessionId mode message ->
  In (WriteFile AckFile content) (trace E) ->
  In (WriteFile AckFile content)
     (fst (dispatch_caught E sessionId mode message)).
Proof.
  intros Hv Hi. unfold trace in Hi.
  destruct (Bool.bool_dec (blocks (_readContextProbe E) mode) true)
    as [Hb|Hb].
  - destruct (blocks_true_inv _ _ Hb) as (p & Hp & _ & _).
    rewrite Hp in Hb. rewrite (blocked_run Hv Hp Hb) in Hi.
    destruct Hi as [Heq|[Heq|[]]]; discriminate.
  - apply not_true_is_false in Hb. rewrite (unblocked_run Hv Hb) in Hi.
    simpl fst in Hi. apply in_app_or in Hi. destruct Hi as [Hi|Hi]; auto.
    destruct (_readContextProbe E) as [p|]; simpl in Hi; [|destruct Hi].
    destruct (num_gtb _ _); simpl in Hi; [|destruct Hi].
    destruct Hi as [Heq|[]]. discriminate.
Qed.

(** C9, as the code has it.  When a run of a valid request writes the
    [.ack] file, its text carries the timestamp; in every mode but
    [compact] it carries the first 8 code units of [sessionId]; for
    [steer], [stop-and-send], [queue] and [compact] it contains the mode
    name, and for [send] it starts with the word [sent].  The [compact]
    acknowledgement is the fixed panel text around the timestamp.  On a
    host that accepts every command, a run with a recognized mode that is
    not blocked does write the [.ack] file. *)
Theorem ack_content
  {num : Type} `{JsNumber num} (E : Env) (sessionId mode message : jsstring) :
  valid_request E sessionId mode message ->
  (forall content,
      In (WriteFile AckFile content) (trace E) ->
      includes (now_ISO E) content = true
      /\ (mode <> MODE_COMPACT ->
          includes (substring0 8 sessionId) content = true)
      /\ (mode <> MODE_SEND -> includes mode content = true)
      /\ (mode = MODE_SEND -> content = ack_send sessionId (now_ISO E))
      /\ (mode = MODE_COMPACT -> content = ack_compact (now_ISO E)))
  /\ (recognized mode = true ->
      blocks (_readContextProbe E) mode = false ->
      (forall c, executeCommand E c = Ok tt) ->
      exists content, In (WriteFile AckFile content) (trace E)).
Proof.
  intros Hv. split.
  - intros content Hi.
    pose proof Hi as Hd. eapply ack_in_trace in Hd; [|exact Hv].
    apply ack_in_dispatch in Hd. clear Hi.
    destruct Hd as [[Hm Hc]|[[Hm Hc]|[[Hm Hc]|[[Hm Hc]|[Hm Hc]]]]];
      rewrite Hm, Hc; clear Hv Hm Hc.
    + split; [|split; [|split; [|split]]].
      * eapply includes_intro with (post := []).
        unfold ack_send. rewrite app_nil_r, !app_assoc. reflexivity.
      * intros _. unfold ack_send.
        eapply includes_intro. reflexivity.
      * intros Hm. destruct Hm. reflexivity.
      * reflexivity.
      * discriminate.
    + split; [|split; [|split; [|split]]].
      * eapply includes_intro with (post := []).
        unfold ack_steer. rewrite app_nil_r, !app_assoc. reflexivity.
      * intros _. unfold ack_steer.
        eapply includes_intro. reflexivity.
      * intros _.
        apply includes_intro with
          (pre := [])
          (post := lit "ed (steerWithMessage) sessionId="
                     ++ substring0 8 sessionId ++ lit "... at " ++ now_ISO E).
        reflexivity.
      * discriminate.
      * discriminate.
    + split; [|split; [|split; [|split]]].
      * eapply includes_intro with (post := []).
        unfold ack_stop_and_send. rewrite app_nil_r, !app_assoc.
        reflexivity.
      * intros _. unfold ack_stop_and_send.
        eapply includes_intro. reflexivity.
      * intros _.
        apply includes_intro with
          (pre := [])
          (post := lit " sessionId="
                     ++ substring0 8 sessionId ++ lit "... at " ++ now_ISO E).
        reflexivity.
      * discriminate.
      * discriminate.
    + split; [|split; [|split; [|split]]].
      * eapply includes_intro with (post := []).
        unfold ack_queue. rewrite app_nil_r, !app_assoc. reflexivity.
      * intros _. unfold ack_queue.
        eapply includes_intro. reflexivity.
      * intros _.
        apply includes_intro with
          (pre := [])
          (post := lit "d (queueMessage) sessionId="
                     ++ substring0 8 sessionId ++ lit "... at " ++ now_ISO E).
        reflexivity.
      * discriminate.
      * discriminate.
    + split; [|split; [|split; [|split]]].
      * unfold ack_compact. eapply includes_intro. reflexivity.
      * intros Hm. destruct Hm. reflexivity.
      * intros _.
        apply includes_intro with
          (pre := [])
          (post := lit ": opened context usage panel at " ++ now_ISO E
                     ++ lit ". No direct compact command in VS Code "
                     ++ EM_DASH ++ lit " press compact in the panel.").
        reflexivity.
      * discriminate.
      * reflexivity.
  - intros Hrec Hb Hx. unfold trace. rewrite (unblocked_run Hv Hb).
    simpl fst.
    destruct (mode_cases mode) as [->|[->|[->|[->|[->|Hu]]]]];
      [| | | | |congruence].
    + rewrite send_run, Hx. eexists. apply in_or_app. right.
      simpl. right. left. reflexivity.
    + rewrite steer_run, !Hx. eexists. apply in_or_app. right.
      simpl. do 3 right. left. reflexivity.
    + rewrite stop_and_send_run, !Hx. eexists. apply in_or_app. right.
      simpl. do 3 right. left. reflexivity.
    + rewrite queue_run, !Hx. eexists. apply in_or_app. right.
      simpl. do 3 right. left. reflexivity.
    + rewrite compact_run, Hx. eexists. apply in_or_app. right.
      simpl. right. left. reflexivity.
Qed.

Lemma ack_content_witness :
  exists content,
    In (WriteFile AckFile content) (trace (num := dec) env_queue)
    /\ includes (now_ISO env_queue) content = true
    /\ includes (substring0 8 (lit "abcdefghijkl")) content = true
    /\ includes MODE_QUEUE content = true.
Proof.
  assert (Hv : valid_request env_queue (lit "abcdefghijkl") MODE_QUEUE
                 (lit "later"))
    by valid_by_computation (lit "abcdefghijkl|queue|later").
  destruct (ack_content (num := dec) Hv) as [Htext Hack].
  destruct (Hack eq_refl eq_refl (fun _ => eq_refl)) as [content Hi].
  exists content.
  destruct (Htext content Hi) as (Hnow & Hsid & Hmode & _ & _).
  split; [exact Hi|]. split; [exact Hnow|]. split.
  - apply Hsid. discriminate.
  - apply Hmode. discriminate.
Defined.

(** C9 as written fails on two successful runs: the acknowledgement of
    [compact] does not contain the session id, and the acknowledgement of
    [send] says [sent], so it does not contain the mode name. *)
Lemma ack_content_counterexample :
  (valid_request env_compact (lit "abcdefghijkl") MODE_COMPACT (lit "now")
   /\ trace (num := dec) env_compact
      = [Exec ChatShowContextUsage;
         WriteFile AckFile
           (lit "compact: opened context usage panel at 2026-02-20T13:20:40.000Z. No direct compact command in VS Code "
              ++ EM_DASH ++ lit " press compact in the panel.");
         Unlink]
   /\ includes (substring0 8 (lit "abcdefghijkl"))
        (lit "compact: opened context usage panel at 2026-02-20T13:20:40.000Z. No direct compact command in VS Code "
           ++ EM_DASH ++ lit " press compact in the panel.") = false)
  /\ (valid_request env_send (lit "abcdefghijkl") MODE_SEND (lit "hello")
      /\ trace (num := dec) env_send
         = [Exec (ChatOpen (lit "hello") false);
            WriteFile AckFile
              (lit "sent sessionId=abcdefgh... at 2026-02-20T13:20:40.000Z");
            Unlink]
      /\ includes MODE_SEND
           (lit "sent sessionId=abcdefgh... at 2026-02-20T13:20:40.000Z")
         = false).
Proof.
  split; (split; [|split; reflexivity]).
  - valid_by_computation (lit "abcdefghijkl|compact|now").
  - valid_by_computation (lit "abcdefghijkl|send|hello").
Qed.

(* ================================================================= *)
(** * Further properties of the handler *)

(* ----------------------------------------------------------------- *)
(** *** Requests as text *)

Lemma split_app_sep sep a rest :
  ~ In sep a -> split sep (a ++ sep :: rest) = a :: split sep rest.
Proof.
  induction a as [|c a IH]; simpl; intros Hn.
  - rewrite N.eqb_refl. reflexivity.
  - destruct (N.eqb_spec c sep) as [->|Hc]; [exfalso; auto|].
    rewrite IH by auto. reflexivity.
Qed.

Lemma split_length sep s :
  length (split sep s) = S (count_occ N.eq_dec s sep).
Proof.
  induction s as [|c s IH]; simpl; [reflexivity|].
  pose proof (split_not_nil sep s) as NN.
  destruct (N.eqb_spec c sep) as [->|Hc].
  - simpl. rewrite IH. destruct (N.eq_dec sep sep); congruence.
  - destruct (split sep s) as [|p ps]; [contradiction|].
    destruct (N.eq_dec c sep); [contradiction|]. exact IH.
Qed.

Lemma trimStart_spaces ws s :
  all_spaces ws = true -> trimStart (ws ++ s) = trimStart s.
Proof.
  induction ws as [|c ws IH]; simpl; [reflexivity|].
  intros Hs. apply andb_true_iff in Hs. destruct Hs as [Hc Hs].
  rewrite Hc. auto.
Qed.

Lemma trimEnd_spaces s ws :
  all_spaces ws = true -> trimEnd (s ++ ws) = trimEnd s.
Proof.
  intros Hs. unfold trimEnd. rewrite rev_app_distr, trimStart_spaces; auto.
  unfold all_spaces. rewrite forallb_forall. intros c Hc.
  apply in_rev in Hc. unfold all_spaces in Hs.
  rewrite forallb_forall in Hs. auto.
Qed.

Lemma trimStart_before_spaces s ws :
  all_spaces ws = true ->
  trimStart (s ++ ws) = trimStart s ++ ws
  \/ (trimStart s = [] /\ trimStart (s ++ ws) = []).
Proof.
  intros Hs. induction s as [|c s IH]; simpl.
  - right. split; [reflexivity|].
    rewrite <- (app_nil_r ws). rewrite trimStart_spaces; auto.
  - destruct (is_space c); auto.
Qed.

(** Whitespace around the content is invisible to the parse. *)
Lemma trim_padded ws1 s ws2 :
  all_spaces ws1 = true -> all_spaces ws2 = true ->
  trim (ws1 ++ s ++ ws2) = trim s.
Proof.
  intros H1 H2. unfold trim. rewrite trimStart_spaces by assumption.
  destruct (trimStart_before_spaces s ws2 H2) as [->|[Ha Hb]].
  - apply trimEnd_spaces. assumption.
  - rewrite Ha, Hb. reflexivity.
Qed.

(** The run is a function of the parts and of the rest of the
    environment. *)
Lemma run_of_parts {num : Type} `{JsNumber num} (E : Env) c1 c2 :
  read_msgFile E = Ok c1 ->
  parts_of c1 = parts_of c2 ->
  onDidCreate E = onDidCreate (with_content E c2).
Proof.
  intros Hr Hp. unfold onDidCreate, handler_body. rewrite Hr. simpl.
  rewrite Hp. reflexivity.
Qed.

(** X1.  A request written as [sessionId|mode|message] with no separator
    inside [sessionId] or [mode], no field empty and no whitespace at
    either end is read back as exactly these three fields, whatever
    separators the message holds: it is a valid request of the run. *)
Theorem request_text_read_back
  (E : Env) (sessionId mode message : jsstring) :
  read_msgFile E = Ok (request_text sessionId mode message) ->
  ~ In SEP sessionId -> ~ In SEP mode ->
  sessionId <> [] -> mode <> [] -> message <> [] ->
  trim (request_text sessionId mode message)
  = request_text sessionId mode message ->
  sessionId_of (parts_of (request_text sessionId mode message)) = sessionId
  /\ mode_of (parts_of (request_text sessionId mode message)) = mode
  /\ message_of (parts_of (request_text sessionId mode message)) = message
  /\ valid_request E sessionId mode message.
Proof.
  intros Hr Hs Hm Hs0 Hm0 Hg0 Ht.
  assert (Hparts : parts_of (request_text sessionId mode message)
                   = sessionId :: mode :: split SEP message).
  { unfold parts_of. rewrite Ht. unfold request_text.
    rewrite split_app_sep by assumption.
    rewrite split_app_sep by assumption. reflexivity. }
  assert (Hmsg : message_of (parts_of (request_text sessionId mode message))
                 = message).
  { unfold message_of, messageParts_of. rewrite Hparts. simpl.
    apply join_split. }
  assert (Hsid : sessionId_of (parts_of (request_text sessionId mode message))
                 = sessionId) by (rewrite Hparts; reflexivity).
  assert (Hmode : mode_of (parts_of (request_text sessionId mode message))
                  = mode) by (rewrite Hparts; reflexivity).
  repeat split; auto.
  exists (request_text sessionId mode message).
  rewrite Hsid, Hmode, Hmsg. repeat split; auto.
  rewrite Hparts. simpl. pose proof (split_length_pos SEP message). lia.
Qed.

Lemma request_text_read_back_witness :
  sessionId_of (parts_of (lit "s-42|queue|a|b||c")) = lit "s-42"
  /\ mode_of (parts_of (lit "s-42|queue|a|b||c")) = lit "queue"
  /\ message_of (parts_of (lit "s-42|queue|a|b||c")) = lit "a|b||c"
  /\ valid_request (quiet_env "s-42|queue|a|b||c" None)
       (lit "s-42") (lit "queue") (lit "a|b||c").
Proof.
  apply (request_text_read_back (quiet_env "s-42|queue|a|b||c" None)
           (sessionId := lit "s-42") (mode := lit "queue")
           (message := lit "a|b||c")).
  - reflexivity.
  - vm_compute. intuition discriminate.
  - vm_compute. intuition discriminate.
  - discriminate.
  - discriminate.
  - discriminate.
  - reflexivity.
Defined.

(** X2.  Whitespace and line ends before and after the content of the
    [.msg] file change nothing: the run is the run on the bare content. *)
Theorem padding_is_ignored
  {num : Type} `{JsNumber num} (E : Env) (ws1 content ws2 : jsstring) :
  read_msgFile E = Ok (ws1 ++ content ++ ws2) ->
  all_spaces ws1 = true -> all_spaces ws2 = true ->
  onDidCreate E = onDidCreate (with_content E content).
Proof.
  intros Hr H1 H2.
  apply run_of_parts with (c1 := ws1 ++ content ++ ws2); [exact Hr|].
  unfold parts_of. rewrite trim_padded by assumption. reflexivity.
Qed.

Lemma padding_is_ignored_witness :
  onDidCreate (num := dec) env_padded
  = onDidCreate (with_content env_padded (lit "abcdefghijkl|queue|a|b")).
Proof.
  apply (padding_is_ignored (num := dec) env_padded
           (lit "  ") (lit "abcdefghijkl|queue|a|b") (lit "  "));
    reflexivity.
Defined.

(* ----------------------------------------------------------------- *)
(** *** The chain as a table *)

Lemma dispatch_caught_table
  {num : Type} `{JsNumber num} (E : Env) sessionId mode message steps :
  steps_of mode message = Some steps ->
  dispatch_caught E sessionId mode message
  = (run_steps E steps (ack_of sessionId mode (now_ISO E)), Normal tt).
Proof.
  unfold steps_of, ack_of.
  destruct (mode_cases mode) as [->|[->|[->|[->|[->|Hu]]]]].
  - intros Hs. injection Hs as <-. rewrite send_run. simpl.
    destruct (executeCommand E _); reflexivity.
  - intros Hs. injection Hs as <-. rewrite steer_run. simpl.
    destruct (executeCommand E (ChatOpen _ _)); [|reflexivity].
    destruct (executeCommand E _); reflexivity.
  - intros Hs. injection Hs as <-. rewrite stop_and_send_run. simpl.
    destruct (executeCommand E ChatCancel); [|reflexivity].
    destruct (executeCommand E _); reflexivity.
  - intros Hs. injection Hs as <-. rewrite queue_run. simpl.
    destruct (executeCommand E (ChatOpen _ _)); [|reflexivity].
    destruct (executeCommand E _); reflexivity.
  - intros Hs. injection Hs as <-. rewrite compact_run. simpl.
    destruct (executeCommand E _); reflexivity.
  - unfold recognized in Hu.
    repeat (apply orb_false_iff in Hu; destruct Hu as [Hu ?]).
    repeat match goal with Hq : str_eqb _ _ = false |- _ =>
             rewrite Hq; clear Hq end.
    discriminate.
Qed.

Lemma steps_of_recognized mode message :
  steps_of mode message = None <-> recognized mode = false.
Proof.
  unfold steps_of, recognized.
  destruct (str_eqb mode MODE_SEND); [split; discriminate|].
  destruct (str_eqb mode MODE_STEER); [split; discriminate|].
  destruct (str_eqb mode MODE_STOP_AND_SEND); [split; discriminate|].
  destruct (str_eqb mode MODE_QUEUE); [split; discriminate|].
  destruct (str_eqb mode MODE_COMPACT); [split; discriminate|].
  split; reflexivity.
Qed.

(** All the commands accepted: every step is taken, then the [.ack]. *)
Lemma run_steps_all_ok E steps ack :
  (forall c, In c (commands_of steps) -> executeCommand E c = Ok tt) ->
  run_steps E steps ack = steps ++ [WriteFile AckFile ack; Unlink].
Proof.
  induction steps as [|[c|ms|f k|] steps IH]; simpl; intros Hok;
    try (rewrite IH; [reflexivity | exact Hok]).
  - reflexivity.
  - rewrite (Hok c) by (left; reflexivity).
    rewrite IH; [reflexivity|]. intros c' Hc'. apply Hok. right. exact Hc'.
Qed.

(** A command throws after accepted ones: the steps up to it, then the
    exception [.err]. *)
Lemma run_steps_failure E pre c post ack e :
  (forall c', In c' (commands_of pre) -> executeCommand E c' = Ok tt) ->
  executeCommand E c = Raise e ->
  run_steps E (pre ++ Exec c :: post) ack
  = pre ++ [Exec c; WriteFile ErrFile (reason_exception e); Unlink].
Proof.
  intros Hok Hc.
  induction pre as [|[c0|ms|f k|] pre IH]; simpl in *;
    try (rewrite IH; [reflexivity | exact Hok]).
  - rewrite Hc. reflexivity.
  - rewrite (Hok c0) by (left; reflexivity).
    rewrite IH; [reflexivity|]. intros c' Hc'. apply Hok. right. exact Hc'.
Qed.

Lemma steps_of_host_only mode message steps :
  steps_of mode message = Some steps -> host_only steps = true.
Proof.
  unfold steps_of.
  repeat match goal with
         | |- context [if ?b then _ else _] => destruct b
         end;
    intros Hs; try discriminate; injection Hs as <-; reflexivity.
Qed.

(** A run of host steps either takes them all and acknowledges, or stops
    at the first command that throws. *)
Lemma run_steps_cases E steps ack :
  host_only steps = true ->
  ((forall c, In c (commands_of steps) -> executeCommand E c = Ok tt)
   /\ run_steps E steps ack = steps ++ [WriteFile AckFile ack; Unlink])
  \/ (exists pre c post e,
        steps = pre ++ Exec c :: post
        /\ (forall c', In c' (commands_of pre) -> executeCommand E c' = Ok tt)
        /\ executeCommand E c = Raise e
        /\ run_steps E steps ack
           = pre ++ [Exec c; WriteFile ErrFile (reason_exception e); Unlink]).
Proof.
  induction steps as [|[c|ms|f k|] steps IH]; simpl; intros Hh;
    try discriminate.
  - left. split; [intros c []|reflexivity].
  - destruct (executeCommand E c) as [[]|e] eqn:Hc.
    + destruct (IH Hh) as [[Hok Hrun]|(pre & c1 & post & e & -> & Hok & He & Hrun)].
      * left. split; [|rewrite Hrun; reflexivity].
        intros c' [<-|Hc']; auto.
      * right. exists (Exec c :: pre), c1, post, e.
        repeat split; auto; [|rewrite Hrun; reflexivity].
        intros c' [<-|Hc']; auto.
    + right. exists [], c, steps, e. repeat split; auto. intros c' [].
  - destruct (IH Hh) as [[Hok Hrun]|(pre & c1 & post & e & -> & Hok & He & Hrun)].
    + left. split; [exact Hok|rewrite Hrun; reflexivity].
    + right. exists (Delay ms :: pre), c1, post, e.
      repeat split; auto. rewrite Hrun. reflexivity.
Qed.

Lemma invocations_host_steps steps tail :
  invocations tail = [] ->
  invocations (steps ++ tail) = commands_of steps.
Proof.
  intros Ht. rewrite invocations_app, Ht, app_nil_r. reflexivity.
Qed.

(** The run of a valid request that is not blocked, in a recognized
    mode. *)
Lemma recognized_run
  {num : Type} `{JsNumber num} (E : Env) sessionId mode message steps :
  valid_request E sessionId mode message ->
  blocks (_readContextProbe E) mode = false ->
  steps_of mode message = Some steps ->
  trace E
  = warn_events (_readContextProbe E)
      ++ run_steps E steps (ack_of sessionId mode (now_ISO E)).
Proof.
  intros Hv Hb Hs. unfold trace. rewrite (unblocked_run Hv Hb).
  erewrite dispatch_caught_table by eassumption. reflexivity.
Qed.

(** X3.  For a valid request in one of the five modes that is not
    blocked, on a host that accepts every command of the mode, the run is
    the context warning if any, the steps of the mode in order (send: one
    full [chat.open]; steer: prefill, 100 ms, steer; stop-and-send:
    cancel, 300 ms, full [chat.open]; queue: prefill, 100 ms, queue;
    compact: the usage panel alone), the [.ack] file of the mode and the
    unlink. *)
Theorem accepted_steps_then_ack
  {num : Type} `{JsNumber num} (E : Env)
  (sessionId mode message : jsstring) (steps : list Event) :
  valid_request E sessionId mode message ->
  blocks (_readContextProbe E) mode = false ->
  steps_of mode message = Some steps ->
  (forall c, In c (commands_of steps) -> executeCommand E c = Ok tt) ->
  trace E
  = warn_events (_readContextProbe E) ++ steps
      ++ [WriteFile AckFile (ack_of sessionId mode (now_ISO E)); Unlink]
  /\ invocations (trace E) = commands_of steps.
Proof.
  intros Hv Hb Hs Hok.
  assert (Ht : trace E
               = warn_events (_readContextProbe E) ++ steps
                   ++ [WriteFile AckFile (ack_of sessionId mode (now_ISO E));
                       Unlink]).
  { erewrite recognized_run by eassumption.
    rewrite run_steps_all_ok by assumption. reflexivity. }
  split; [exact Ht|].
  rewrite Ht, invocations_app.
  destruct (warn_events_silent (_readContextProbe E)) as (-> & _ & _).
  apply invocations_host_steps. reflexivity.
Qed.

Lemma accepted_steps_then_ack_witness :
  trace (num := dec) env_queue
  = [Exec (ChatOpen (lit "later") true); Delay 100; Exec ChatQueueMessage;
     WriteFile AckFile
       (lit "queued (queueMessage) sessionId=abcdefgh... at 2026-02-20T13:20:40.000Z");
     Unlink]
  /\ invocations (trace (num := dec) env_queue)
     = [ChatOpen (lit "later") true; ChatQueueMessage].
Proof.
  assert (Hv : valid_request env_queue (lit "abcdefghijkl") MODE_QUEUE
                 (lit "later"))
    by valid_by_computation (lit "abcdefghijkl|queue|later").
  exact (accepted_steps_then_ack (num := dec) Hv eq_refl eq_refl
           (fun _ _ => eq_refl)).
Defined.

(** X4.  When a command of the mode throws after the earlier ones were
    accepted, the run stops there: no later step is taken, no [.ack] is
    written, and the run ends on the [.err] file holding the exception
    text, followed by the unlink. *)
Theorem throwing_command_ends_run
  {num : Type} `{JsNumber num} (E : Env)
  (sessionId mode message : jsstring) (pre post : list Event)
  (c : HostCmd) (e : jsstring) :
  valid_request E sessionId mode message ->
  blocks (_readContextProbe E) mode = false ->
  steps_of mode message = Some (pre ++ Exec c :: post) ->
  (forall c', In c' (commands_of pre) -> executeCommand E c' = Ok tt) ->
  executeCommand E c = Raise e ->
  trace E
  = warn_events (_readContextProbe E) ++ pre
      ++ [Exec c; WriteFile ErrFile (reason_exception e); Unlink]
  /\ (forall k, ~ In (WriteFile AckFile k) (trace E))
  /\ includes e (reason_exception e) = true.
Proof.
  intros Hv Hb Hs Hok He.
  assert (Ht : trace E
               = warn_events (_readContextProbe E) ++ pre
                   ++ [Exec c; WriteFile ErrFile (reason_exception e);
                       Unlink]).
  { erewrite recognized_run by eassumption.
    erewrite run_steps_failure by eassumption. reflexivity. }
  split; [exact Ht|]. split.
  - intros k Hi. rewrite Ht in Hi.
    apply in_app_or in Hi. destruct Hi as [Hi|Hi].
    + destruct (_readContextProbe E) as [p|]; simpl in Hi; [|destruct Hi].
      destruct (num_gtb _ _); simpl in Hi; [|destruct Hi].
      destruct Hi as [Hi|[]]. discriminate.
    + apply in_app_or in Hi. destruct Hi as [Hi|Hi].
      * assert (Hh : host_only (pre ++ Exec c :: post) = true)
          by (eapply steps_of_host_only; exact Hs).
        unfold host_only in Hh. rewrite forallb_app in Hh.
        apply andb_true_iff in Hh. destruct Hh as [Hh _].
        rewrite forallb_forall in Hh. specialize (Hh _ Hi). discriminate.
      * destruct Hi as [Hi|[Hi|[Hi|[]]]]; discriminate.
  - apply includes_intro with (pre := lit "Exception: ") (post := []).
    unfold reason_exception. rewrite app_nil_r. reflexivity.
Qed.

Lemma throwing_command_ends_run_witness :
  trace (num := dec) env_no_steer_command
  = [Exec (ChatOpen (lit "go") true); Delay 100; Exec ChatSteerWithMessage;
     WriteFile ErrFile
       (lit "Exception: command 'workbench.action.chat.steerWithMessage' not found");
     Unlink]
  /\ (forall k, ~ In (WriteFile AckFile k)
                   (trace (num := dec) env_no_steer_command)).
Proof.
  assert (Hv : valid_request env_no_steer_command (lit "abcdefghijkl")
                 MODE_STEER (lit "go"))
    by valid_by_computation (lit "abcdefghijkl|steer|go").
  assert (Hok : forall c',
             In c' (commands_of [Exec (ChatOpen (lit "go") true); Delay 100]) ->
             executeCommand env_no_steer_command c' = Ok tt)
    by (intros c' Hc; simpl in Hc; destruct Hc as [<-|[]]; reflexivity).
  destruct (throwing_command_ends_run (num := dec)
              [Exec (ChatOpen (lit "go") true); Delay 100] []
              ChatSteerWithMessage
              Hv eq_refl eq_refl Hok eq_refl)
    as (Ht & Hn & _).
  split; [exact Ht | exact Hn].
Defined.

Lemma host_steps_write_nothing steps f k :
  host_only steps = true -> ~ In (WriteFile f k) steps.
Proof.
  unfold host_only. rewrite forallb_forall. intros Hh Hi.
  specialize (Hh _ Hi). discriminate.
Qed.

Lemma warn_events_only_warn {num} `{JsNumber num}
  (probe : option (Probe num)) f k :
  In (WriteFile f k) (warn_events probe) -> f = WarnFile.
Proof.
  destruct probe as [p|]; simpl; [|intros []].
  destruct (num_gtb _ _); simpl; [|intros []].
  intros [Hi|[]]. congruence.
Qed.

Lemma commands_of_app a b :
  commands_of (a ++ b) = commands_of a ++ commands_of b.
Proof. apply invocations_app. Qed.

(** What the run of a valid request does, case by case. *)
Lemma valid_run_cases
  {num : Type} `{JsNumber num} (E : Env) sessionId mode message :
  valid_request E sessionId mode message ->
  (exists p, _readContextProbe E = Some p
             /\ num_gtb (contextPct p) (num_lit 95) = true
             /\ mode = MODE_STEER
             /\ trace E
                = [WriteFile ErrFile (reason_blocked (contextPct p)); Unlink])
  \/ (blocks (_readContextProbe E) mode = false
      /\ recognized mode = false
      /\ trace E
         = warn_events (_readContextProbe E)
             ++ [WriteFile ErrFile (reason_unknown_mode mode); Unlink])
  \/ (exists steps,
        blocks (_readContextProbe E) mode = false
        /\ steps_of mode message = Some steps
        /\ (forall c, In c (commands_of steps) -> executeCommand E c = Ok tt)
        /\ trace E
           = warn_events (_readContextProbe E) ++ steps
               ++ [WriteFile AckFile (ack_of sessionId mode (now_ISO E));
                   Unlink])
  \/ (exists pre c post e,
        blocks (_readContextProbe E) mode = false
        /\ steps_of mode message = Some (pre ++ Exec c :: post)
        /\ (forall c', In c' (commands_of pre) -> executeCommand E c' = Ok tt)
        /\ executeCommand E c = Raise e
        /\ trace E
           = warn_events (_readContextProbe E) ++ pre
               ++ [Exec c; WriteFile ErrFile (reason_exception e); Unlink]).
Proof.
  intros Hv.
  destruct (Bool.bool_dec (blocks (_readContextProbe E) mode) true)
    as [Hb|Hb].
  - left. destruct (blocks_true_inv _ _ Hb) as (p & Hp & Hg & Hm).
    exists p. repeat split; auto. unfold trace.
    rewrite Hp in Hb. rewrite (blocked_run Hv Hp Hb). reflexivity.
  - apply not_true_is_false in Hb. right.
    destruct (steps_of mode message) as [steps|] eqn:Hs.
    + right.
      assert (Ht : trace E
                   = warn_events (_readContextProbe E)
                       ++ run_steps E steps
                            (ack_of sessionId mode (now_ISO E)))
        by (eapply recognized_run; eassumption).
      assert (Hh : host_only steps = true)
        by (eapply steps_of_host_only; exact Hs).
      destruct (run_steps_cases E steps
                  (ack_of sessionId mode (now_ISO E)) Hh)
        as [[Hok Hrun]|(pre & c & post & e & -> & Hok & He & Hrun)].
      * left. exists steps. rewrite Ht, Hrun. auto.
      * right. exists pre, c, post, e. rewrite Ht, Hrun. auto.
    + left. apply steps_of_recognized in Hs.
      repeat split; auto. unfold trace. rewrite (unblocked_run Hv Hb).
      rewrite unknown_mode_run by assumption. reflexivity.
Qed.

(** X5.  An [.ack] file is written only after the whole chain of the mode
    went through: the request was not blocked, its mode is one of the
    five, every command of the mode was invoked and accepted, and the
    text is the acknowledgement of that mode. *)
Theorem ack_means_every_command_accepted
  {num : Type} `{JsNumber num} (E : Env)
  (sessionId mode message k : jsstring) :
  valid_request E sessionId mode message ->
  In (WriteFile AckFile k) (trace E) ->
  exists steps,
    steps_of mode message = Some steps
    /\ blocks (_readContextProbe E) mode = false
    /\ (forall c, In c (commands_of steps) -> executeCommand E c = Ok tt)
    /\ invocations (trace E) = commands_of steps
    /\ k = ack_of sessionId mode (now_ISO E).
Proof.
  intros Hv Hi.
  destruct (valid_run_cases Hv)
    as [(p & _ & _ & _ & Ht)
       |[(_ & _ & Ht)
        |[(steps & Hb & Hs & Hok & Ht)
         |(pre & c & post & e & Hb & Hs & Hok & He & Ht)]]];
    rewrite Ht in Hi.
  - destruct Hi as [Hi|[Hi|[]]]; discriminate.
  - apply in_app_or in Hi. destruct Hi as [Hi|Hi].
    + apply warn_events_only_warn in Hi. discriminate.
    + destruct Hi as [Hi|[Hi|[]]]; discriminate.
  - exists steps. repeat split; auto.
    + rewrite Ht, invocations_app.
      destruct (warn_events_silent (_readContextProbe E)) as (-> & _ & _).
      apply invocations_host_steps. reflexivity.
    + apply in_app_or in Hi. destruct Hi as [Hi|Hi].
      * apply warn_events_only_warn in Hi. discriminate.
      * apply in_app_or in Hi. destruct Hi as [Hi|Hi].
        -- exfalso. eapply host_steps_write_nothing; [|exact Hi].
           eapply steps_of_host_only. exact Hs.
        -- destruct Hi as [Hi|[Hi|[]]]; [congruence|discriminate].
  - exfalso. apply in_app_or in Hi. destruct Hi as [Hi|Hi].
    + apply warn_events_only_warn in Hi. discriminate.
    + apply in_app_or in Hi. destruct Hi as [Hi|Hi].
      * assert (Hh : host_only (pre ++ Exec c :: post) = true)
          by (eapply steps_of_host_only; exact Hs).
        unfold host_only in Hh. rewrite forallb_app in Hh.
        apply andb_true_iff in Hh. destruct Hh as [Hh _].
        exact (host_steps_write_nothing _ _ _ Hh Hi).
      * destruct Hi as [Hi|[Hi|[Hi|[]]]]; discriminate.
Qed.

Lemma ack_means_every_command_accepted_witness :
  exists steps,
    steps_of MODE_STOP_AND_SEND (lit "halt, then read this") = Some steps
    /\ blocks (_readContextProbe (num := dec) env_stop_and_send)
         MODE_STOP_AND_SEND = false
    /\ (forall c, In c (commands_of steps) ->
                  executeCommand env_stop_and_send c = Ok tt)
    /\ invocations (trace (num := dec) env_stop_and_send) = commands_of steps
    /\ lit "stop-and-send sessionId=session-... at 2026-02-20T13:20:40.000Z"
       = ack_of (lit "session-0001") MODE_STOP_AND_SEND
           (now_ISO env_stop_and_send).
Proof.
  assert (Hv : valid_request env_stop_and_send (lit "session-0001")
                 MODE_STOP_AND_SEND (lit "halt, then read this"))
    by valid_by_computation
         (lit "session-0001|stop-and-send|halt, then read this").
  eapply (@ack_means_every_command_accepted dec _ env_stop_and_send);
    [exact Hv|].
  vm_compute. do 3 right. left. reflexivity.
Defined.

Lemma chat_open_in_table mode message steps q b :
  steps_of mode message = Some steps ->
  In (ChatOpen q b) (commands_of steps) ->
  q = message /\ mode <> MODE_COMPACT
  /\ (b = true <-> mode = MODE_STEER \/ mode = MODE_QUEUE).
Proof.
  unfold steps_of.
  destruct (str_eqb mode MODE_SEND) eqn:E1.
  { apply str_eqb_eq in E1. subst mode. intros Hs. injection Hs as <-.
    simpl. intros [Hq|[]]. injection Hq as <- <-.
    split; [reflexivity|]. split; [discriminate|].
    split; [discriminate|intros [Hx|Hx]; discriminate]. }
  destruct (str_eqb mode MODE_STEER) eqn:E2.
  { apply str_eqb_eq in E2. subst mode. intros Hs. injection Hs as <-.
    simpl. intros [Hq|[Hq|[]]]; [|discriminate]. injection Hq as <- <-.
    split; [reflexivity|]. split; [discriminate|]. split; auto. }
  destruct (str_eqb mode MODE_STOP_AND_SEND) eqn:E3.
  { apply str_eqb_eq in E3. subst mode. intros Hs. injection Hs as <-.
    simpl. intros [Hq|[Hq|[]]]; [discriminate|]. injection Hq as <- <-.
    split; [reflexivity|]. split; [discriminate|].
    split; [discriminate|intros [Hx|Hx]; discriminate]. }
  destruct (str_eqb mode MODE_QUEUE) eqn:E4.
  { apply str_eqb_eq in E4. subst mode. intros Hs. injection Hs as <-.
    simpl. intros [Hq|[Hq|[]]]; [|discriminate]. injection Hq as <- <-.
    split; [reflexivity|]. split; [discriminate|]. split; auto. }
  destruct (str_eqb mode MODE_COMPACT) eqn:E5; [|discriminate].
  intros Hs. injection Hs as <-. simpl. intros [Hq|[]]. discriminate.
Qed.

(** X6.  The commands a valid request makes the handler invoke are always
    an initial segment of the commands of its mode (none at all for an
    unknown mode or a blocked steer), and the only text the host ever
    receives is the message itself, through [chat.open]: as a prefill
    ([isPartialQuery=true]) exactly in the modes steer and queue, and
    never in the mode compact. *)
Theorem host_receives_only_the_message
  {num : Type} `{JsNumber num} (E : Env) (sessionId mode message : jsstring) :
  valid_request E sessionId mode message ->
  (exists rest,
      match steps_of mode message with
      | Some steps => commands_of steps
      | None => []
      end = invocations (trace E) ++ rest)
  /\ (forall q b,
         In (ChatOpen q b) (invocations (trace E)) ->
         q = message /\ mode <> MODE_COMPACT
         /\ (b = true <-> mode = MODE_STEER \/ mode = MODE_QUEUE)).
Proof.
  intros Hv.
  assert (Hprefix : exists rest,
             match steps_of mode message with
             | Some steps => commands_of steps
             | None => []
             end = invocations (trace E) ++ rest).
  { destruct (warn_events_silent (_readContextProbe E)) as (Wi & _ & _).
    destruct (valid_run_cases Hv)
      as [(p & _ & _ & _ & Ht)
         |[(_ & Hu & Ht)
          |[(steps & Hb & Hs & Hok & Ht)
           |(pre & c & post & e & Hb & Hs & Hok & He & Ht)]]];
      rewrite Ht.
    - eexists. reflexivity.
    - apply steps_of_recognized with (message := message) in Hu.
      rewrite Hu, invocations_app, Wi. exists []. reflexivity.
    - rewrite Hs, invocations_app, Wi. exists [].
      rewrite app_nil_r. simpl.
      rewrite invocations_host_steps by reflexivity. reflexivity.
    - rewrite Hs, !invocations_app, Wi. exists (commands_of post).
      simpl. rewrite <- app_assoc. reflexivity. }
  split; [exact Hprefix|].
  intros q b Hi. destruct Hprefix as [rest Hrest].
  destruct (steps_of mode message) as [steps|] eqn:Hs.
  - eapply chat_open_in_table; [exact Hs|].
    rewrite Hrest. apply in_or_app. left. exact Hi.
  - destruct (invocations (trace E)); [destruct Hi|discriminate].
Qed.

Lemma host_receives_only_the_message_witness :
  (exists rest,
      [ChatOpen (lit "go") true; ChatSteerWithMessage]
      = invocations (trace (num := dec) env_no_steer_command) ++ rest)
  /\ (forall q b,
         In (ChatOpen q b)
            (invocations (trace (num := dec) env_no_steer_command)) ->
         q = lit "go" /\ MODE_STEER <> MODE_COMPACT
         /\ (b = true <-> MODE_STEER = MODE_STEER \/ MODE_STEER = MODE_QUEUE)).
Proof.
  assert (Hv : valid_request env_no_steer_command (lit "abcdefghijkl")
                 MODE_STEER (lit "go"))
    by valid_by_computation (lit "abcdefghijkl|steer|go").
  exact (host_receives_only_the_message (num := dec) Hv).
Defined.

(* ----------------------------------------------------------------- *)
(** *** The reasons of an [.err] file *)

Lemma in_outcome_pair f k (g : OutFile) (r : jsstring) :
  In (WriteFile f k) [WriteFile g r; Unlink] -> f = g /\ k = r.
Proof. intros [Hi|[Hi|[]]]; [split; congruence|discriminate]. Qed.

(** Every [.err] write of a run, with the path that led to it. *)
Lemma err_write_cases {num : Type} `{JsNumber num} (E : Env) k :
  In (WriteFile ErrFile k) (trace E) ->
  (exists e, read_msgFile E = Raise e /\ k = reason_exception e)
  \/ (exists content,
        read_msgFile E = Ok content /\ length (parts_of content) < 3
        /\ k = reason_invalid_format (length (parts_of content)))
  \/ (exists content,
        read_msgFile E = Ok content /\ 3 <= length (parts_of content)
        /\ (sessionId_of (parts_of content) = []
            \/ mode_of (parts_of content) = []
            \/ message_of (parts_of content) = [])
        /\ k = reason_empty_field (sessionId_of (parts_of content))
                 (mode_of (parts_of content)) (message_of (parts_of content)))
  \/ (exists sessionId mode message,
        valid_request E sessionId mode message
        /\ ((exists p, _readContextProbe E = Some p
                       /\ num_gtb (contextPct p) (num_lit 95) = true
                       /\ mode = MODE_STEER
                       /\ k = reason_blocked (contextPct p))
            \/ (recognized mode = false /\ k = reason_unknown_mode mode)
            \/ (exists c e, In c (invocations (trace E))
                            /\ executeCommand E c = Raise e
                            /\ k = reason_exception e))).
Proof.
  intros Hi.
  destruct (run_paths E) as
    [[error Hr]|[(content & Hr & Hl)|[(content & Hr & Hl & Hf)
      |(sessionId & mode & message & Hv)]]].
  - left. exists error. split; [exact Hr|].
    unfold trace in Hi. rewrite (read_failure_run _ Hr) in Hi.
    apply in_outcome_pair in Hi. apply Hi.
  - right; left. exists content. repeat split; auto.
    unfold trace in Hi. rewrite (malformed_run _ Hr Hl) in Hi.
    apply in_outcome_pair in Hi. apply Hi.
  - right; right; left. exists content. repeat split; auto.
    + apply orb_true_iff in Hf. destruct Hf as [Hf|Hf].
      * apply orb_true_iff in Hf.
        destruct Hf as [Hf|Hf]; apply falsy_true_iff in Hf; auto.
      * apply falsy_true_iff in Hf. auto.
    + unfold trace in Hi. rewrite (empty_field_run _ Hr Hl Hf) in Hi.
      apply in_outcome_pair in Hi. apply Hi.
  - do 3 right. exists sessionId, mode, message. split; [exact Hv|].
    destruct (warn_events_silent (_readContextProbe E)) as (Wi & _ & _).
    destruct (valid_run_cases Hv)
      as [(p & Hp & Hg & Hm & Ht)
         |[(_ & Hu & Ht)
          |[(steps & Hb & Hs & Hok & Ht)
           |(pre & c & post & e & Hb & Hs & Hok & He & Ht)]]];
      rewrite Ht in Hi.
    + left. exists p. repeat split; auto.
      apply in_outcome_pair in Hi. apply Hi.
    + right; left. split; [exact Hu|].
      apply in_app_or in Hi. destruct Hi as [Hi|Hi].
      * apply warn_events_only_warn in Hi. discriminate.
      * apply in_outcome_pair in Hi. apply Hi.
    + exfalso. apply in_app_or in Hi. destruct Hi as [Hi|Hi].
      * apply warn_events_only_warn in Hi. discriminate.
      * apply in_app_or in Hi. destruct Hi as [Hi|Hi].
        -- eapply host_steps_write_nothing; [|exact Hi].
           eapply steps_of_host_only. exact Hs.
        -- apply in_outcome_pair in Hi. destruct Hi. discriminate.
    + right; right. exists c, e. split; [|split; [exact He|]].
      * rewrite Ht, !invocations_app, Wi. simpl.
        apply in_or_app. right. left. reflexivity.
      * apply in_app_or in Hi. destruct Hi as [Hi|Hi].
        { apply warn_events_only_warn in Hi. discriminate. }
        apply in_app_or in Hi. destruct Hi as [Hi|Hi].
        { exfalso.
          assert (Hh : host_only (pre ++ Exec c :: post) = true)
            by (eapply steps_of_host_only; exact Hs).
          unfold host_only in Hh. rewrite forallb_app in Hh.
          apply andb_true_iff in Hh. destruct Hh as [Hh _].
          exact (host_steps_write_nothing _ _ _ Hh Hi). }
        destruct Hi as [Hi|Hi]; [discriminate|].
        apply in_outcome_pair in Hi. apply Hi.
Qed.

(** The first two code units tell the five kinds of reason apart. *)
Lemma reason_heads {num : Type} `{JsNumber num}
  (n : nat) (a b c m e : jsstring) (pct : num) :
  firstn 2 (reason_invalid_format n) = lit "In"
  /\ firstn 2 (reason_empty_field a b c) = lit "Em"
  /\ firstn 2 (reason_blocked pct) = lit "mo"
  /\ firstn 2 (reason_unknown_mode m) = lit "Un"
  /\ firstn 2 (reason_exception e) = lit "Ex".
Proof. repeat split. Qed.

(** X7.  Whatever an [.err] file of a run holds is one of five texts, told
    apart by their first two code units, each with its cause: [Ex], the
    exception text, when the [.msg] file cannot be read or an invoked
    command throws; [In], the invalid-format reason, below three segments;
    [Em], the empty-field reason; [mo], the blocked-steer reason; [Un],
    the unknown-mode reason. *)
Theorem err_reason_taxonomy {num : Type} `{JsNumber num} (E : Env)
  (k : jsstring) :
  In (WriteFile ErrFile k) (trace E) ->
  (firstn 2 k = lit "Ex"
   /\ exists e, k = reason_exception e
                /\ (read_msgFile E = Raise e
                    \/ exists c, In c (invocations (trace E))
                                 /\ executeCommand E c = Raise e))
  \/ (firstn 2 k = lit "In"
      /\ exists content,
           read_msgFile E = Ok content /\ length (parts_of content) < 3
           /\ k = reason_invalid_format (length (parts_of content)))
  \/ (firstn 2 k = lit "Em"
      /\ exists content,
           read_msgFile E = Ok content /\ 3 <= length (parts_of content)
           /\ (sessionId_of (parts_of content) = []
               \/ mode_of (parts_of content) = []
               \/ message_of (parts_of content) = [])
           /\ k = reason_empty_field (sessionId_of (parts_of content))
                    (mode_of (parts_of content))
                    (message_of (parts_of content)))
  \/ (firstn 2 k = lit "mo"
      /\ exists sessionId message p,
           valid_request E sessionId MODE_STEER message
           /\ _readContextProbe E = Some p
           /\ num_gtb (contextPct p) (num_lit 95) = true
           /\ k = reason_blocked (contextPct p))
  \/ (firstn 2 k = lit "Un"
      /\ exists sessionId mode message,
           valid_request E sessionId mode message
           /\ recognized mode = false /\ k = reason_unknown_mode mode).
Proof.
  intros Hi.
  destruct (err_write_cases E k Hi) as
    [(e & Hr & ->)|[(content & Hr & Hl & ->)|[(content & Hr & Hl & He & ->)
      |(s & m & g & Hv
        & [(p & Hp & Hg & -> & ->)|[(Hu & ->)|(c & e & Hc & He & ->)]])]]].
  - left. split; [reflexivity|]. exists e. auto.
  - right; left. split; [reflexivity|]. exists content. auto.
  - right; right; left. split; [reflexivity|]. exists content. auto.
  - do 3 right; left. split; [reflexivity|]. exists s, g, p. auto.
  - do 4 right. split; [reflexivity|]. exists s, m, g. auto.
  - left. split; [reflexivity|]. exists e. split; [reflexivity|].
    right. exists c. auto.
Qed.

Lemma err_reason_taxonomy_witness :
  exists e,
    lit "Exception: command 'workbench.action.chat.steerWithMessage' not found"
    = reason_exception e
    /\ (read_msgFile env_no_steer_command = Raise e
        \/ exists c,
             In c (invocations (trace (num := dec) env_no_steer_command))
             /\ executeCommand env_no_steer_command c = Raise e).
Proof.
  assert (Hi : In (WriteFile ErrFile
                     (lit "Exception: command 'workbench.action.chat.steerWithMessage' not found"))
                  (trace (num := dec) env_no_steer_command))
    by (vm_compute; do 3 right; left; reflexivity).
  destruct (@err_reason_taxonomy dec _ env_no_steer_command _ Hi)
    as [[_ Hc]|[[Hh _]|[[Hh _]|[[Hh _]|[Hh _]]]]];
    [exact Hc | | | |]; vm_compute in Hh; discriminate Hh.
Defined.

(** X8.  The number of segments is the number of separators in the
    trimmed content plus one.  So a readable [.msg] file gets the
    invalid-format [.err] exactly when its trimmed content holds fewer
    than two ['|'], the reason counting one segment more than separators;
    with two or more, no invalid-format reason is written. *)
Theorem segments_are_separators_plus_one
  {num : Type} `{JsNumber num} (E : Env) (content : jsstring) :
  read_msgFile E = Ok content ->
  length (parts_of content) = S (separators (trim content))
  /\ (separators (trim content) < 2 ->
      trace E
      = [WriteFile ErrFile
           (reason_invalid_format (S (separators (trim content))));
         Unlink])
  /\ (2 <= separators (trim content) ->
      forall n, ~ In (WriteFile ErrFile (reason_invalid_format n)) (trace E)).
Proof.
  intros Hr.
  assert (Hlen : length (parts_of content) = S (separators (trim content)))
    by apply split_length.
  split; [exact Hlen|]. split.
  - intros Hs. unfold trace. rewrite (malformed_run _ Hr) by lia.
    rewrite Hlen. reflexivity.
  - intros Hs n Hi.
    destruct (reason_heads n [] [] [] [] [] (num_lit 0))
      as (Hin & _).
    destruct (err_write_cases E _ Hi) as
      [(e & Hr' & Hk)|[(c' & Hr' & Hl & Hk)|[(c' & _ & _ & _ & Hk)
        |(s & m & g & _
          & [(p & _ & _ & _ & Hk)|[(_ & Hk)|(c & e & _ & _ & Hk)]])]]].
    + congruence.
    + rewrite Hr in Hr'. injection Hr' as <-. lia.
    + apply (f_equal (firstn 2)) in Hk. rewrite Hin in Hk. discriminate Hk.
    + apply (f_equal (firstn 2)) in Hk. rewrite Hin in Hk. discriminate Hk.
    + apply (f_equal (firstn 2)) in Hk. rewrite Hin in Hk. discriminate Hk.
    + apply (f_equal (firstn 2)) in Hk. rewrite Hin in Hk. discriminate Hk.
Qed.

Lemma segments_are_separators_plus_one_witness :
  length (parts_of (lit "abcdefghijkl|send")) = 2
  /\ trace (num := dec) (quiet_env "abcdefghijkl|send" None)
     = [WriteFile ErrFile (reason_invalid_format 2); Unlink].
Proof.
  destruct (segments_are_separators_plus_one (num := dec)
              (quiet_env "abcdefghijkl|send" None)
              (content := lit "abcdefghijkl|send") eq_refl)
    as (Hl & Ht & _).
  split; [exact Hl|]. apply Ht. vm_compute. lia.
Defined.

(** X9.  When the [.msg] file cannot be read, the run is the [.err] file
    with the exception text and the unlink attempt, nothing else: no host
    command, no warning, whatever the probe file says. *)
Theorem unreadable_msg_file
  {num : Type} `{JsNumber num} (E : Env) (e : jsstring) :
  read_msgFile E = Raise e ->
  trace E = [WriteFile ErrFile (lit "Exception: " ++ e); Unlink]
  /\ invocations (trace E) = []
  /\ resolves E = true.
Proof.
  intros Hr. unfold trace, resolves. rewrite (read_failure_run _ Hr).
  repeat split.
Qed.

Lemma unreadable_msg_file_witness :
  trace (num := dec) env_unreadable_msg
  = [WriteFile ErrFile (lit "Exception: ENOENT: no such file or directory");
     Unlink]
  /\ invocations (trace (num := dec) env_unreadable_msg) = []
  /\ resolves (num := dec) env_unreadable_msg = true.
Proof.
  exact (unreadable_msg_file (num := dec) env_unreadable_msg eq_refl).
Defined.

(* ----------------------------------------------------------------- *)
(** *** Reading the probe file *)

Lemma strip_prefix_app p r : strip_prefix p (p ++ r) = Some r.
Proof.
  induction p as [|x p IH]; simpl; [reflexivity|].
  rewrite N.eqb_refl. exact IH.
Qed.

Lemma strip_prefix_spec p s r : strip_prefix p s = Some r -> s = p ++ r.
Proof.
  revert s; induction p as [|x p IH]; intros [|y s]; simpl; intros Hs;
    try congruence.
  destruct (N.eqb_spec x y) as [->|]; [|discriminate].
  rewrite (IH _ Hs). reflexivity.
Qed.

Lemma run_of_all cls s : forallb cls (run_of cls s) = true.
Proof.
  induction s as [|c s IH]; simpl; [reflexivity|].
  destruct (cls c) eqn:Hc; simpl; [rewrite Hc; exact IH|reflexivity].
Qed.

Lemma run_of_stop cls v rest :
  forallb cls v = true ->
  match rest with [] => True | c :: _ => cls c = false end ->
  run_of cls (v ++ rest) = v.
Proof.
  induction v as [|c v IH]; simpl; intros Hv Hr.
  - destruct rest as [|c rest]; simpl; [reflexivity|]. rewrite Hr. reflexivity.
  - apply andb_true_iff in Hv. destruct Hv as [Hc Hv].
    rewrite Hc, IH; auto.
Qed.

Lemma match_here_spec key cls s cap :
  match_here key cls s = Some cap ->
  exists rest,
    s = (key ++ lit ":") ++ rest
    /\ cap = run_of cls (trimStart rest) /\ cap <> [].
Proof.
  unfold match_here.
  destruct (strip_prefix (key ++ lit ":") s) as [rest|] eqn:Hs;
    [|discriminate].
  apply strip_prefix_spec in Hs.
  destruct (run_of cls (trimStart rest)) as [|c r] eqn:Hr; [discriminate|].
  intros Hc. injection Hc as <-. exists rest. rewrite Hr.
  repeat split; auto. discriminate.
Qed.

(** A match starts with the key at the start of the input or right behind
    a line terminator. *)
Lemma match_line_sound key cls bol s cap :
  match_line key cls bol s = Some cap ->
  exists pre rest,
    s = pre ++ (key ++ lit ":") ++ rest
    /\ ((pre = [] /\ bol = true)
        \/ exists pre' c, pre = pre' ++ [c] /\ is_line_terminator c = true)
    /\ cap = run_of cls (trimStart rest) /\ cap <> [].
Proof.
  revert bol; induction s as [|c s IH]; intros bol; simpl.
  - destruct bol; [|discriminate].
    destruct (match_here key cls []) as [cap'|] eqn:Hh; [|discriminate].
    intros Hc. injection Hc as <-.
    destruct (match_here_spec _ _ _ Hh) as (rest & Hs & Hcap & Hne).
    exists [], rest. auto.
  - destruct (if bol then match_here key cls (c :: s) else None)
      as [cap'|] eqn:Hh.
    + intros Hc. injection Hc as <-.
      destruct bol; [|discriminate].
      destruct (match_here_spec _ _ _ Hh) as (rest & Hs & Hcap & Hne).
      exists [], rest. auto.
    + intros Hm.
      destruct (IH _ Hm) as (pre & rest & -> & Hpre & Hcap & Hne).
      exists (c :: pre), rest. repeat split; auto.
      right. destruct Hpre as [[-> Hlt]|(pre' & c' & -> & Hlt)].
      * exists [], c. auto.
      * exists (c :: pre'), c'. auto.
Qed.

Lemma line_terminator_is_space c :
  is_line_terminator c = true -> is_space c = true.
Proof.
  unfold is_line_terminator. intros Hc.
  repeat (apply orb_true_iff in Hc; destruct Hc as [Hc|Hc]);
    apply N.eqb_eq in Hc; subst c; reflexivity.
Qed.

Lemma digit_or_dot_not_space c :
  is_digit_or_dot c = true -> is_space c = false.
Proof.
  unfold is_digit_or_dot, is_space. intros Hc.
  assert (Hr : (46 <= c <= 57)%N).
  { apply orb_true_iff in Hc. destruct Hc as [Hc|Hc].
    - apply andb_true_iff in Hc. destruct Hc as [H1 H2].
      apply N.leb_le in H1, H2. lia.
    - apply N.eqb_eq in Hc. lia. }
  repeat match goal with
         | |- context [N.eqb c ?k] =>
             replace (N.eqb c k) with false
               by (symmetry; apply N.eqb_neq; lia)
         end.
  replace (N.leb 8192 c) with false by (symmetry; apply N.leb_gt; lia).
  reflexivity.
Qed.

(** X10.  A number field of the probe is its default, or [parseFloat] of
    the longest run of digits and dots (never empty) that follows the key,
    a colon and optional whitespace, the key standing at the start of the
    file or right behind a line terminator; [state] likewise is [unknown]
    or the run of non-space units found that way. *)
Theorem probe_fields_come_from_keyed_lines
  {num : Type} `{JsNumber num} (content : jsstring) (key : string) (def : num) :
  (parseNum content key def = def
   \/ exists pre rest cap,
        content = pre ++ (lit key ++ lit ":") ++ rest
        /\ (pre = []
            \/ exists pre' c, pre = pre' ++ [c] /\ is_line_terminator c = true)
        /\ cap = run_of is_digit_or_dot (trimStart rest)
        /\ cap <> [] /\ forallb is_digit_or_dot cap = true
        /\ parseNum content key def = parseFloat cap)
  /\ (parseStr content key = lit "unknown"
      \/ exists pre rest,
           content = pre ++ (lit key ++ lit ":") ++ rest
           /\ (pre = []
               \/ exists pre' c,
                    pre = pre' ++ [c] /\ is_line_terminator c = true)
           /\ parseStr content key = run_of is_non_space (trimStart rest)
           /\ parseStr content key <> []
           /\ forallb is_non_space (parseStr content key) = true).
Proof.
  split.
  - unfold parseNum.
    destruct (match_line (lit key) is_digit_or_dot true content)
      as [cap|] eqn:Hm; [right|left; reflexivity].
    destruct (match_line_sound _ _ _ _ Hm)
      as (pre & rest & Hc & Hpre & Hcap & Hne).
    exists pre, rest, cap. repeat split; auto.
    + destruct Hpre as [[Hp _]|Hp]; auto.
    + rewrite Hcap. apply run_of_all.
  - unfold parseStr.
    destruct (match_line (lit key) is_non_space true content)
      as [cap|] eqn:Hm; [right|left; reflexivity].
    destruct (match_line_sound _ _ _ _ Hm)
      as (pre & rest & Hc & Hpre & Hcap & Hne).
    exists pre, rest. repeat split; auto.
    + destruct Hpre as [[Hp _]|Hp]; auto.
    + rewrite Hcap. apply run_of_all.
Qed.

(** X11.  A key counts only at the start of a line.  A file in which the
    key followed by a colon does not occur gives the default, and so does
    a file of one line that does not begin with the key, even when the
    key occurs further on in that line.  An empty file gives 0, 0, 0 and
    [unknown]. *)
Theorem key_must_start_a_line
  {num : Type} `{JsNumber num} (content : jsstring) (key : string) (def : num) :
  (includes (lit key ++ lit ":") content = false ->
   parseNum content key def = def /\ parseStr content key = lit "unknown")
  /\ (no_line_terminator content = true ->
      strip_prefix (lit key ++ lit ":") content = None ->
      parseNum content key def = def /\ parseStr content key = lit "unknown")
  /\ probe_of_content (num := num) []
     = {| contextPct := num_lit 0; patch := num_lit 0; rsc := num_lit 0;
          state := lit "unknown" |}.
Proof.
  assert (Hnone : forall cls,
             (includes (lit key ++ lit ":") content = false
              \/ (no_line_terminator content = true
                  /\ strip_prefix (lit key ++ lit ":") content = None)) ->
             match_line (lit key) cls true content = None).
  { intros cls Hc.
    destruct (match_line (lit key) cls true content) as [cap|] eqn:Hm;
      [exfalso|reflexivity].
    destruct (match_line_sound _ _ _ _ Hm)
      as (pre & rest & Heq & Hpre & _ & _).
    destruct Hc as [Hc|[Hl Hs]].
    - rewrite Heq, includes_app in Hc. discriminate.
    - destruct Hpre as [[-> _]|(pre' & c & -> & Hlt)].
      + rewrite Heq in Hs. simpl in Hs. rewrite strip_prefix_app in Hs.
        discriminate.
      + rewrite Heq in Hl. unfold no_line_terminator in Hl.
        rewrite !forallb_app in Hl. simpl in Hl. rewrite Hlt in Hl.
        simpl in Hl. rewrite andb_false_r in Hl. discriminate. }
  split; [|split].
  - intros Hi. unfold parseNum, parseStr. rewrite !Hnone by auto. auto.
  - intros Hl Hs. unfold parseNum, parseStr. rewrite !Hnone by auto. auto.
  - reflexivity.
Qed.

Lemma key_must_start_a_line_witness :
  parseNum (num := dec) (lit "dispatch: 5 rsc: 7") "patch" (DVal 0 0)
  = DVal 0 0
  /\ parseStr (lit "dispatch: 5 rsc: 7") "patch" = lit "unknown".
Proof.
  apply (proj1 (proj2 (key_must_start_a_line (num := dec)
                         (lit "dispatch: 5 rsc: 7") "patch" (DVal 0 0))));
    reflexivity.
Defined.

Lemma match_line_true key cls s :
  match_line key cls true s
  = match match_here key cls s with
    | Some cap => Some cap
    | None =>
        match s with
        | [] => None
        | c :: s' => match_line key cls (is_line_terminator c) s'
        end
    end.
Proof. destruct s; reflexivity. Qed.

Lemma match_line_rest_of_line key cls l rest :
  no_line_terminator l = true ->
  match_line key cls false (l ++ 10%N :: rest) = match_line key cls true rest.
Proof.
  induction l as [|c l IH]; simpl; intros Hl; [reflexivity|].
  apply andb_true_iff in Hl. destruct Hl as [Hc Hl].
  apply negb_true_iff in Hc. rewrite Hc. auto.
Qed.

(** A line that does not begin with the key is passed over. *)
Lemma match_line_next_line key cls l rest :
  no_line_terminator l = true ->
  strip_prefix (key ++ lit ":") (l ++ 10%N :: rest) = None ->
  match_line key cls true (l ++ 10%N :: rest) = match_line key cls true rest.
Proof.
  intros Hl Hs. rewrite match_line_true. unfold match_here. rewrite Hs.
  destruct l as [|c l]; simpl; [reflexivity|].
  simpl in Hl. apply andb_true_iff in Hl. destruct Hl as [Hc Hl].
  apply negb_true_iff in Hc. rewrite Hc.
  apply match_line_rest_of_line. exact Hl.
Qed.

(** A line [key: value] gives the value. *)
Lemma match_line_this_line key cls v rest :
  (forall c, cls c = true -> is_space c = false) ->
  cls 10%N = false ->
  v <> [] -> forallb cls v = true ->
  match_line key cls true ((key ++ lit ":") ++ 32%N :: v ++ 10%N :: rest)
  = Some v.
Proof.
  intros Hcls H10 Hne Hv. rewrite match_line_true. unfold match_here.
  rewrite strip_prefix_app.
  assert (Ht : trimStart (32%N :: v ++ 10%N :: rest) = v ++ 10%N :: rest).
  { destruct v as [|c v]; [congruence|]. simpl in *.
    apply andb_true_iff in Hv. destruct Hv as [Hc _].
    rewrite (Hcls _ Hc). reflexivity. }
  rewrite Ht, run_of_stop; auto.
  destruct v; [congruence|reflexivity].
Qed.

Lemma non_space_no_line_terminator s :
  forallb is_non_space s = true -> no_line_terminator s = true.
Proof.
  unfold no_line_terminator. rewrite !forallb_forall. intros Hs c Hc.
  specialize (Hs c Hc). unfold is_non_space in Hs.
  destruct (is_line_terminator c) eqn:Hl; [|reflexivity].
  rewrite (line_terminator_is_space _ Hl) in Hs. discriminate.
Qed.

Lemma digits_no_line_terminator s :
  forallb is_digit_or_dot s = true -> no_line_terminator s = true.
Proof.
  intros Hs. apply non_space_no_line_terminator.
  rewrite forallb_forall in *. intros c Hc. unfold is_non_space.
  rewrite (digit_or_dot_not_space _ (Hs c Hc)). reflexivity.
Qed.

Lemma no_line_terminator_app a b :
  no_line_terminator a = true -> no_line_terminator b = true ->
  no_line_terminator (a ++ b) = true.
Proof.
  unfold no_line_terminator. intros Ha Hb.
  rewrite forallb_app, Ha, Hb. reflexivity.
Qed.

(** X12.  A probe file in the format of the header comment is read back
    field by field: [state] is the token written (any run of non-space
    units), and the three numbers are [parseFloat] of the digit-and-dot
    texts written behind [context_pct:], [patch:] and [rsc:]; the [ts]
    line is ignored. *)
Theorem probe_file_read_back
  {num : Type} `{JsNumber num} (st pc pa rs ts : jsstring) :
  st <> [] -> forallb is_non_space st = true ->
  pc <> [] -> forallb is_digit_or_dot pc = true ->
  pa <> [] -> forallb is_digit_or_dot pa = true ->
  rs <> [] -> forallb is_digit_or_dot rs = true ->
  probe_of_content (probe_file st pc pa rs ts)
  = {| contextPct := parseFloat pc; patch := parseFloat pa;
       rsc := parseFloat rs; state := st |}.
Proof.
  intros Hst0 Hst Hpc0 Hpc Hpa0 Hpa Hrs0 Hrs.
  set (L4 := lit "ts: " ++ ts ++ [10%N]).
  set (L3 := (lit "rsc" ++ lit ":") ++ 32%N :: rs ++ 10%N :: L4).
  set (L2 := (lit "patch" ++ lit ":") ++ 32%N :: pa ++ 10%N :: L3).
  set (L1 := (lit "context_pct" ++ lit ":") ++ 32%N :: pc ++ 10%N :: L2).
  assert (Hfile : probe_file st pc pa rs ts
                  = (lit "state" ++ lit ":") ++ 32%N :: st ++ 10%N :: L1)
    by reflexivity.
  assert (Hline0 : probe_file st pc pa rs ts
                   = (lit "state: " ++ st) ++ 10%N :: L1)
    by (rewrite <- app_assoc; reflexivity).
  assert (Hline1 : L1 = (lit "context_pct: " ++ pc) ++ 10%N :: L2)
    by (rewrite <- app_assoc; reflexivity).
  assert (Hline2 : L2 = (lit "patch: " ++ pa) ++ 10%N :: L3)
    by (rewrite <- app_assoc; reflexivity).
  assert (Hn0 : no_line_terminator (lit "state: " ++ st) = true)
    by (apply no_line_terminator_app;
        [reflexivity | apply non_space_no_line_terminator; assumption]).
  assert (Hn1 : no_line_terminator (lit "context_pct: " ++ pc) = true)
    by (apply no_line_terminator_app;
        [reflexivity | apply digits_no_line_terminator; assumption]).
  assert (Hn2 : no_line_terminator (lit "patch: " ++ pa) = true)
    by (apply no_line_terminator_app;
        [reflexivity | apply digits_no_line_terminator; assumption]).
  assert (Hd : forall c, is_digit_or_dot c = true -> is_space c = false)
    by apply digit_or_dot_not_space.
  assert (Hs : forall c, is_non_space c = true -> is_space c = false)
    by (intros c Hc; apply negb_true_iff; exact Hc).
  unfold probe_of_content, parseNum, parseStr. f_equal.
  - rewrite Hline0, match_line_next_line by (assumption || reflexivity).
    unfold L1. rewrite match_line_this_line by (assumption || reflexivity).
    reflexivity.
  - rewrite Hline0, match_line_next_line by (assumption || reflexivity).
    rewrite Hline1, match_line_next_line by (assumption || reflexivity).
    unfold L2. rewrite match_line_this_line by (assumption || reflexivity).
    reflexivity.
  - rewrite Hline0, match_line_next_line by (assumption || reflexivity).
    rewrite Hline1, match_line_next_line by (assumption || reflexivity).
    rewrite Hline2, match_line_next_line by (assumption || reflexivity).
    unfold L3. rewrite match_line_this_line by (assumption || reflexivity).
    reflexivity.
  - rewrite Hfile, match_line_this_line by (assumption || reflexivity).
    reflexivity.
Qed.

Lemma probe_file_read_back_witness :
  probe_of_content (num := dec)
    (probe_file (lit "running") (lit "47.5") (lit "10") (lit "42")
       (lit "2026-02-20T13:20:38.533Z"))
  = {| contextPct := DVal 475 1; patch := DVal 10 0; rsc := DVal 42 0;
       state := lit "running" |}.
Proof.
  exact (probe_file_read_back (num := dec) (st := lit "running")
           (pc := lit "47.5") (pa := lit "10") (rs := lit "42")
           (lit "2026-02-20T13:20:38.533Z")
           ltac:(discriminate) eq_refl ltac:(discriminate) eq_refl
           ltac:(discriminate) eq_refl ltac:(discriminate) eq_refl).
Defined.

(** X13.  A probe file that is missing, or present but unreadable, is no
    probe: the whole run is the run without a probe file, so it can
    neither block, nor warn, nor fail the request. *)
Theorem unreadable_probe_is_no_probe
  {num : Type} `{JsNumber num} (E : Env) :
  probeFile E = None \/ (exists e, probeFile E = Some (Raise e)) ->
  onDidCreate E = onDidCreate (without_probe E).
Proof.
  intros Hp.
  assert (Hnone : _readContextProbe E = None).
  { unfold _readContextProbe. destruct Hp as [->|[e ->]]; reflexivity. }
  assert (Hc : forall mode, context_check E mode = ret tt).
  { intros mode. unfold context_check. rewrite Hnone. reflexivity. }
  unfold onDidCreate, handler_body.
  change (read_msgFile (without_probe E)) with (read_msgFile E).
  destruct (read_msgFile E) as [content|e]; [|reflexivity].
  simpl. rewrite Hc. reflexivity.
Qed.

Lemma unreadable_probe_is_no_probe_witness :
  onDidCreate (num := dec) env_unreadable_probe
  = onDidCreate (without_probe env_unreadable_probe).
Proof.
  apply (unreadable_probe_is_no_probe (num := dec) env_unreadable_probe).
  right. exists (lit "EISDIR: illegal operation on a directory").
  reflexivity.
Defined.

(* ================================================================= *)
(** * The earlier releases *)

Section EarlierFacts.
Variable E : Env.
Variable chain : jsstring -> jsstring -> jsstring -> M unit.

Lemma earlier_read_failure error :
  read_msgFile E = Raise error ->
  earlier_onDidCreate E chain
  = ([WriteFile ErrFile (reason_exception error); Unlink], Normal tt).
Proof.
  intros Hr. unfold earlier_onDidCreate. rewrite Hr. simpl.
  rewrite on_error_run. reflexivity.
Qed.

Lemma earlier_malformed content :
  read_msgFile E = Ok content ->
  length (parts_of content) < 3 ->
  earlier_onDidCreate E chain
  = ([WriteFile ErrFile (reason_invalid_format (length (parts_of content)));
      Unlink], Return).
Proof.
  intros Hr Hlen. unfold earlier_onDidCreate. rewrite Hr.
  apply Nat.ltb_lt in Hlen. simpl. rewrite Hlen. simpl.
  rewrite cleanup_run. reflexivity.
Qed.

Lemma earlier_empty_field content :
  read_msgFile E = Ok content ->
  3 <= length (parts_of content) ->
  falsy (sessionId_of (parts_of content))
  || falsy (mode_of (parts_of content))
  || falsy (message_of (parts_of content)) = true ->
  earlier_onDidCreate E chain
  = ([WriteFile ErrFile
        (reason_empty_field (sessionId_of (parts_of content))
           (mode_of (parts_of content)) (message_of (parts_of content)));
      Unlink], Return).
Proof.
  intros Hr Hlen Hf. unfold earlier_onDidCreate. rewrite Hr.
  apply Nat.ltb_ge in Hlen. simpl. rewrite Hlen. simpl. rewrite Hf. simpl.
  rewrite cleanup_run. reflexivity.
Qed.

Lemma earlier_valid sessionId mode message :
  valid_request E sessionId mode message ->
  earlier_onDidCreate E chain
  = try_catch (chain sessionId mode message) (on_error E).
Proof.
  intros (content & Hr & Hlen & -> & -> & -> & Hs & Hm & Hg).
  unfold earlier_onDidCreate. rewrite Hr.
  apply Nat.ltb_ge in Hlen. simpl. rewrite Hlen. simpl.
  apply falsy_false_iff in Hs, Hm, Hg. rewrite Hs, Hm, Hg. simpl.
  destruct (chain _ _ _) as [t c]. reflexivity.
Qed.
End EarlierFacts.

(** A request that does not get past line 207 is answered alike by the
    earlier releases and by the present handler. *)
Lemma earlier_same_refusal {num : Type} `{JsNumber num} (E : Env) chain :
  (forall sessionId mode message,
      ~ valid_request E sessionId mode message) ->
  earlier_onDidCreate E chain = onDidCreate E.
Proof.
  intros Hnv.
  destruct (run_paths E) as
    [[error Hr]|[(content & Hr & Hl)|[(content & Hr & Hl & Hf)
      |(sessionId & mode & message & Hv)]]].
  - rewrite (read_failure_run _ Hr). apply earlier_read_failure. exact Hr.
  - rewrite (malformed_run _ Hr Hl). apply earlier_malformed; assumption.
  - rewrite (empty_field_run _ Hr Hl Hf).
    apply earlier_empty_field; assumption.
  - destruct (Hnv _ _ _ Hv).
Qed.

Lemma chain_v030 E sessionId mode message :
  try_catch (dispatch_v030 E sessionId mode message) (on_error E)
  = (match steps_of_v030 mode message with
     | Some steps =>
         run_steps E steps (ack_of_v030 sessionId mode (now_ISO E))
     | None => [WriteFile ErrFile (refusal_v030 mode); Unlink]
     end, Normal tt).
Proof.
  unfold dispatch_v030, steps_of_v030, ack_of_v030, refusal_v030.
  destruct (str_eqb mode MODE_SEND); [run_chain; reflexivity|].
  destruct (str_eqb mode MODE_STEER); [run_chain; reflexivity|].
  destruct (str_eqb mode MODE_STOP_AND_SEND); [run_chain; reflexivity|].
  destruct (str_eqb mode MODE_QUEUE); rewrite cleanup_run; reflexivity.
Qed.

Lemma chain_v020 E sessionId mode message :
  try_catch (dispatch_v020 E sessionId mode message) (on_error E)
  = (match steps_of_v020 mode message with
     | Some steps => run_steps E steps (ack_send sessionId (now_ISO E))
     | None => [WriteFile ErrFile (refusal_v020 mode); Unlink]
     end, Normal tt).
Proof.
  unfold dispatch_v020, steps_of_v020, refusal_v020.
  destruct (str_eqb mode MODE_SEND); [run_chain; reflexivity|].
  destruct (str_eqb mode MODE_STEER); [rewrite cleanup_run; reflexivity|].
  destruct (str_eqb mode MODE_QUEUE); rewrite cleanup_run; reflexivity.
Qed.

Lemma resolved_once_after_steps pre t :
  host_only pre = true -> resolved_once (pre ++ t) = resolved_once t.
Proof.
  induction pre as [|[c|ms|f k|] pre IH]; simpl; intros Hh;
    try discriminate; auto.
Qed.

Lemma run_steps_resolved E steps ack :
  host_only steps = true -> resolved_once (run_steps E steps ack) = true.
Proof.
  intros Hh.
  destruct (run_steps_cases E steps ack Hh)
    as [[_ ->]|(pre & c & post & e & Hs & _ & _ & ->)].
  - rewrite resolved_once_after_steps by assumption. reflexivity.
  - rewrite resolved_once_after_steps; [reflexivity|].
    rewrite Hs in Hh. unfold host_only in *. rewrite forallb_app in Hh.
    apply andb_true_iff in Hh. apply Hh.
Qed.

Lemma steps_of_v030_host_only mode message steps :
  steps_of_v030 mode message = Some steps -> host_only steps = true.
Proof.
  unfold steps_of_v030.
  repeat match goal with
         | |- context [if ?b then _ else _] => destruct b
         end;
    intros Hs; try discriminate; injection Hs as <-; reflexivity.
Qed.

Lemma steps_of_v020_host_only mode message steps :
  steps_of_v020 mode message = Some steps -> host_only steps = true.
Proof.
  unfold steps_of_v020. destruct (str_eqb mode MODE_SEND);
    intros Hs; try discriminate; injection Hs as <-; reflexivity.
Qed.

Lemma earlier_resolved (E : Env) chain :
  (forall sessionId mode message,
      resolved_once
        (fst (try_catch (chain sessionId mode message) (on_error E))) = true
      /\ snd (try_catch (chain sessionId mode message) (on_error E))
         = Normal tt) ->
  resolved_once (fst (earlier_onDidCreate E chain)) = true
  /\ forall e, snd (earlier_onDidCreate E chain) <> Throw e.
Proof.
  intros Hchain.
  destruct (run_paths E) as
    [[error Hr]|[(content & Hr & Hl)|[(content & Hr & Hl & Hf)
      |(sessionId & mode & message & Hv)]]].
  - rewrite (earlier_read_failure _ _ Hr). split; [reflexivity|discriminate].
  - rewrite (earlier_malformed _ _ Hr Hl).
    split; [reflexivity|discriminate].
  - rewrite (earlier_empty_field _ _ Hr Hl Hf).
    split; [reflexivity|discriminate].
  - rewrite (earlier_valid _ Hv).
    destruct (Hchain sessionId mode message) as [-> ->].
    split; [reflexivity|discriminate].
Qed.

(** X14.  The handlers of v0.2.0 and v0.3.0 keep the same discipline as
    the present one: whatever the file system and the host answer, a run
    attempts exactly one write of an [.ack] or [.err] file and exactly one
    unlink, and lets no exception out. *)
Theorem earlier_releases_resolve_once (E : Env) :
  (count is_outcome_write (fst (onDidCreate_v020 E)) = 1
   /\ count is_unlink (fst (onDidCreate_v020 E)) = 1
   /\ forall e, snd (onDidCreate_v020 E) <> Throw e)
  /\ (count is_outcome_write (fst (onDidCreate_v030 E)) = 1
      /\ count is_unlink (fst (onDidCreate_v030 E)) = 1
      /\ forall e, snd (onDidCreate_v030 E) <> Throw e).
Proof.
  split.
  - destruct (earlier_resolved E (dispatch_v020 E)) as [Hr Hn].
    + intros s m g. rewrite chain_v020. simpl. split; [|reflexivity].
      destruct (steps_of_v020 m g) as [steps|] eqn:Hs; [|reflexivity].
      apply run_steps_resolved. eapply steps_of_v020_host_only. exact Hs.
    + destruct (resolved_once_counts _ Hr) as [Hw Hu]. auto.
  - destruct (earlier_resolved E (dispatch_v030 E)) as [Hr Hn].
    + intros s m g. rewrite chain_v030. simpl. split; [|reflexivity].
      destruct (steps_of_v030 m g) as [steps|] eqn:Hs; [|reflexivity].
      apply run_steps_resolved. eapply steps_of_v030_host_only. exact Hs.
    + destruct (resolved_once_counts _ Hr) as [Hw Hu]. auto.
Qed.

(** X15.  In v0.3.0 steer and stop-and-send are the same two commands,
    [chat.cancel] then a full [chat.open] of the message, and differ by
    the wait between them (250 ms against 300 ms) and by the text of the
    [.ack] file. *)
Theorem v030_cancel_then_send
  (E : Env) (sessionId mode message : jsstring) :
  valid_request E sessionId mode message ->
  mode = MODE_STEER \/ mode = MODE_STOP_AND_SEND ->
  executeCommand E ChatCancel = Ok tt ->
  executeCommand E (ChatOpen message false) = Ok tt ->
  fst (onDidCreate_v030 E)
  = [Exec ChatCancel;
     Delay (if str_eqb mode MODE_STEER then 250 else 300);
     Exec (ChatOpen message false);
     WriteFile AckFile
       (if str_eqb mode MODE_STEER
        then ack_steer_v030 sessionId (now_ISO E)
        else ack_stop_and_send sessionId (now_ISO E));
     Unlink].
Proof.
  intros Hv Hm Hc Ho. unfold onDidCreate_v030.
  rewrite (earlier_valid _ Hv), chain_v030.
  destruct Hm as [-> | ->]; simpl; rewrite Hc, Ho; reflexivity.
Qed.

Lemma v030_cancel_then_send_witness :
  fst (onDidCreate_v030 env_steer_idle)
  = [Exec ChatCancel; Delay 250; Exec (ChatOpen (lit "look here") false);
     WriteFile AckFile
       (lit "steered (cancel+250ms+send) sessionId=session-... at 2026-02-20T13:20:40.000Z");
     Unlink].
Proof.
  assert (Hv : valid_request env_steer_idle (lit "session-0001")
                 MODE_STEER (lit "look here"))
    by valid_by_computation (lit "session-0001|steer|look here").
  exact (v030_cancel_then_send Hv (or_introl eq_refl) eq_refl eq_refl).
Defined.

(** X16.  In v0.2.0 only [send] reaches the host: a valid request in any
    other mode is refused with an [.err] file (steer and queue as not
    implemented, the rest as unknown), and a run that invokes a command
    at all is a valid [send] request invoking one full [chat.open] of its
    message. *)
Theorem v020_only_send_reaches_host (E : Env) :
  (forall sessionId mode message,
      valid_request E sessionId mode message ->
      mode <> MODE_SEND ->
      fst (onDidCreate_v020 E)
      = [WriteFile ErrFile (refusal_v020 mode); Unlink])
  /\ (invocations (fst (onDidCreate_v020 E)) <> [] ->
      exists sessionId message,
        valid_request E sessionId MODE_SEND message
        /\ invocations (fst (onDidCreate_v020 E))
           = [ChatOpen message false]).
Proof.
  assert (Hother : forall sessionId mode message,
             valid_request E sessionId mode message ->
             mode <> MODE_SEND ->
             fst (onDidCreate_v020 E)
             = [WriteFile ErrFile (refusal_v020 mode); Unlink]).
  { intros s m g Hv Hm. unfold onDidCreate_v020.
    rewrite (earlier_valid _ Hv), chain_v020. unfold steps_of_v020.
    rewrite (str_eqb_neq Hm). reflexivity. }
  split; [exact Hother|].
  intros Hinv.
  destruct (run_paths E) as
    [[error Hr]|[(content & Hr & Hl)|[(content & Hr & Hl & Hf)
      |(sessionId & mode & message & Hv)]]].
  - unfold onDidCreate_v020 in Hinv.
    rewrite (earlier_read_failure _ _ Hr) in Hinv. destruct Hinv.
    reflexivity.
  - unfold onDidCreate_v020 in Hinv.
    rewrite (earlier_malformed _ _ Hr Hl) in Hinv. destruct Hinv.
    reflexivity.
  - unfold onDidCreate_v020 in Hinv.
    rewrite (earlier_empty_field _ _ Hr Hl Hf) in Hinv. destruct Hinv.
    reflexivity.
  - destruct (str_eqb mode MODE_SEND) eqn:Hm.
    + apply str_eqb_eq in Hm. subst mode.
      exists sessionId, message. split; [exact Hv|].
      unfold onDidCreate_v020. rewrite (earlier_valid _ Hv), chain_v020.
      simpl. destruct (executeCommand E _); reflexivity.
    + exfalso. apply Hinv. rewrite (Hother _ _ _ Hv); [reflexivity|].
      intros ->. rewrite str_eqb_refl in Hm. discriminate.
Qed.

Lemma v020_only_send_reaches_host_witness :
  fst (onDidCreate_v020 env_steer_idle)
  = [WriteFile ErrFile (lit "mode=steer: not implemented (Phase 2)"); Unlink].
Proof.
  assert (Hv : valid_request env_steer_idle (lit "session-0001")
                 MODE_STEER (lit "look here"))
    by valid_by_computation (lit "session-0001|steer|look here").
  apply (proj1 (v020_only_send_reaches_host env_steer_idle) _ _ _ Hv).
  discriminate.
Defined.

(** X17.  From v0.3.0 to the present handler nothing changes for a request
    that is refused before the chain, and a valid [send] or
    [stop-and-send] request gets the same run, behind the context warning
    if there is one. *)
Theorem upgrade_from_v030
  {num : Type} `{JsNumber num} (E : Env) :
  ((forall sessionId mode message,
       ~ valid_request E sessionId mode message) ->
   onDidCreate E = onDidCreate_v030 E)
  /\ (forall sessionId mode message,
         valid_request E sessionId mode message ->
         mode = MODE_SEND \/ mode = MODE_STOP_AND_SEND ->
         onDidCreate E
         = (warn_events (_readContextProbe E) ++ fst (onDidCreate_v030 E),
            snd (onDidCreate_v030 E))).
Proof.
  split.
  - intros Hnv. symmetry. apply earlier_same_refusal. exact Hnv.
  - intros s m g Hv Hm.
    assert (Hb : blocks (_readContextProbe E) m = false)
      by (apply not_steer_unblocked; destruct Hm as [-> | ->]; discriminate).
    rewrite (unblocked_run Hv Hb). unfold onDidCreate_v030.
    rewrite (earlier_valid _ Hv).
    destruct Hm as [-> | ->]; reflexivity.
Qed.

Lemma upgrade_from_v030_witness :
  onDidCreate (num := dec) env_send_85
  = (warn_events (_readContextProbe (num := dec) env_send_85)
       ++ fst (onDidCreate_v030 env_send_85),
     snd (onDidCreate_v030 env_send_85)).
Proof.
  assert (Hv : valid_request env_send_85 (lit "abc") MODE_SEND
                 (lit "hello|world"))
    by valid_by_computation (lit "abc|send|hello|world").
  exact (proj2 (upgrade_from_v030 (num := dec) env_send_85) _ _ _ Hv
           (or_introl eq_refl)).
Defined.

(** X18.  From v0.2.0 to v0.3.0 nothing changes for a request that is
    refused before the chain, nor for a valid [send] or [queue] request;
    [queue] is still refused as not implemented. *)
Theorem upgrade_from_v020 (E : Env) :
  ((forall sessionId mode message,
       ~ valid_request E sessionId mode message) ->
   onDidCreate_v030 E = onDidCreate_v020 E)
  /\ (forall sessionId mode message,
         valid_request E sessionId mode message ->
         mode = MODE_SEND \/ mode = MODE_QUEUE ->
         onDidCreate_v030 E = onDidCreate_v020 E)
  /\ (forall sessionId message,
         valid_request E sessionId MODE_QUEUE message ->
         fst (onDidCreate_v030 E)
         = [WriteFile ErrFile reason_queue_phase3; Unlink]).
Proof.
  split; [|split].
  - intros Hnv. unfold onDidCreate_v030, onDidCreate_v020.
    rewrite (@earlier_same_refusal dec _ E (dispatch_v030 E) Hnv).
    rewrite (@earlier_same_refusal dec _ E (dispatch_v020 E) Hnv).
    reflexivity.
  - intros s m g Hv Hm. unfold onDidCreate_v030, onDidCreate_v020.
    rewrite !(earlier_valid _ Hv).
    destruct Hm as [-> | ->]; reflexivity.
  - intros s g Hv. unfold onDidCreate_v030.
    rewrite (earlier_valid _ Hv), chain_v030. reflexivity.
Qed.

Lemma upgrade_from_v020_witness :
  onDidCreate_v030 env_queue = onDidCreate_v020 env_queue
  /\ fst (onDidCreate_v030 env_queue)
     = [WriteFile ErrFile (lit "mode=queue: not implemented (Phase 3)");
        Unlink].
Proof.
  assert (Hv : valid_request env_queue (lit "abcdefghijkl") MODE_QUEUE
                 (lit "later"))
    by valid_by_computation (lit "abcdefghijkl|queue|later").
  destruct (upgrade_from_v020 env_queue) as (_ & Hsame & Hq).
  split.
  - exact (Hsame _ _ _ Hv (or_intror eq_refl)).
  - exact (Hq _ _ Hv).
Defined.

(* ================================================================= *)
(** * The prototype *)

Lemma prototype_fields_ok (H : Prototype.Host) content :
  Prototype.read H = Ok content ->
  sessionId_of (parts_of content) <> [] ->
  message_of (parts_of content) <> [] ->
  Prototype.onDidCreate H
  = Prototype.pcatch
      (Prototype.pbind
         (if str_eqb (Prototype.mode_or_send (parts_of content)) (lit "send")
          then Prototype.pbind
                 (Prototype.call H
                    (Prototype.Open (message_of (parts_of content)) false))
                 (fun _ => Prototype.writeFileSync H Prototype.MsgAck
                             Prototype.SENT)
          else if str_eqb (Prototype.mode_or_send (parts_of content))
                    (lit "steer")
          then Prototype.pbind
                 (Prototype.call H
                    (Prototype.SteerWithMessage
                       (message_of (parts_of content))))
                 (fun _ => Prototype.writeFileSync H Prototype.MsgAck
                             Prototype.STEERED)
          else Prototype.writeFileSync H Prototype.MsgErr Prototype.NOT_YET)
         (fun _ => Prototype.unlinkSync H))
      (Prototype.write_error H).
Proof.
  intros Hr Hs Hg. unfold Prototype.onDidCreate, Prototype.body.
  rewrite Hr. apply falsy_false_iff in Hs, Hg.
  simpl. rewrite Hs, Hg. simpl.
  match goal with
  | |- context [let (t', c) := ?m in _] => destruct m
  end.
  reflexivity.
Qed.

Lemma prototype_mode_send parts :
  mode_of parts = [] \/ mode_of parts = lit "send" ->
  Prototype.mode_or_send parts = lit "send".
Proof.
  unfold Prototype.mode_or_send. intros [-> | ->]; reflexivity.
Qed.

Lemma prototype_mode_other parts :
  mode_of parts <> [] ->
  Prototype.mode_or_send parts = mode_of parts.
Proof.
  unfold Prototype.mode_or_send. intros Hm.
  apply falsy_false_iff in Hm. rewrite Hm. reflexivity.
Qed.

Ltac proto_cases :=
  repeat (unfold Prototype.call, Prototype.writeFileSync,
            Prototype.unlinkSync, Prototype.write_error, Prototype.attempt;
          simpl;
          match goal with
          | |- context [Prototype.execute ?H ?c] =>
              destruct (Prototype.execute H c) as [|[?|]]
          | |- context [Prototype.write ?H ?f ?k] =>
              destruct (Prototype.write H f k) as [[]|?]
          | |- context [Prototype.remove ?H] =>
              destruct (Prototype.remove H) as [[]|?]
          end);
  simpl.

Ltac proto_run :=
  unfold Prototype.call, Prototype.writeFileSync, Prototype.unlinkSync,
    Prototype.write_error, Prototype.attempt;
  repeat match goal with
         | Hx : ?l = _ |- context [?l] => rewrite Hx
         end;
  simpl.

(** X19.  The prototype drops a request whose session id or message is
    empty without a trace: no outcome file is written and the [.msg] file
    is not removed.  Every content with fewer than two separators is such
    a request. *)
Theorem prototype_drops_invalid_request
  (H : Prototype.Host) (content : jsstring) :
  Prototype.read H = Ok content ->
  (sessionId_of (parts_of content) = []
   \/ message_of (parts_of content) = []
   \/ separators (trim content) < 2) ->
  Prototype.steps H = [] /\ Prototype.rejects H = false.
Proof.
  intros Hr Hbad.
  assert (Hf : falsy (sessionId_of (parts_of content))
               || falsy (message_of (parts_of content)) = true).
  { destruct Hbad as [Hs|[Hg|Hsep]].
    - rewrite Hs. reflexivity.
    - rewrite Hg. apply orb_true_r.
    - assert (Hl : length (parts_of content) <= 2).
      { unfold parts_of. rewrite split_length. unfold separators in Hsep.
        lia. }
      unfold message_of, messageParts_of.
      rewrite skipn_all2 by exact Hl. apply orb_true_r. }
  unfold Prototype.steps, Prototype.rejects, Prototype.onDidCreate,
    Prototype.body.
  rewrite Hr. simpl. rewrite Hf. split; reflexivity.
Qed.

Lemma prototype_drops_invalid_request_witness :
  Prototype.steps
    (Prototype.host_of (lit "abcdefghijkl|send")
       (fun _ => Prototype.Accepted) (fun _ _ => Ok tt) (Ok tt)) = []
  /\ Prototype.rejects
       (Prototype.host_of (lit "abcdefghijkl|send")
          (fun _ => Prototype.Accepted) (fun _ _ => Ok tt) (Ok tt)) = false.
Proof.
  apply (prototype_drops_invalid_request
           (Prototype.host_of (lit "abcdefghijkl|send")
              (fun _ => Prototype.Accepted) (fun _ _ => Ok tt) (Ok tt))
           (content := lit "abcdefghijkl|send")).
  - reflexivity.
  - right; right. vm_compute. lia.
Defined.

(** X20.  In the prototype a missing or empty mode means [send]: with a
    session id and a message, the run starts with one full [chat.open] of
    the message, and on a host and a file system that accept everything
    it is that command, the [.ack] file and the removal of the [.msg]
    file. *)
Theorem prototype_mode_defaults_to_send
  (H : Prototype.Host) (content : jsstring) :
  Prototype.read H = Ok content ->
  sessionId_of (parts_of content) <> [] ->
  message_of (parts_of content) <> [] ->
  mode_of (parts_of content) = [] \/ mode_of (parts_of content) = lit "send" ->
  (exists rest,
      Prototype.steps H
      = Prototype.Call (Prototype.Open (message_of (parts_of content)) false)
          :: rest)
  /\ (Prototype.execute H
        (Prototype.Open (message_of (parts_of content)) false)
      = Prototype.Accepted ->
      Prototype.write H Prototype.MsgAck Prototype.SENT = Ok tt ->
      Prototype.remove H = Ok tt ->
      Prototype.steps H
      = [Prototype.Call
           (Prototype.Open (message_of (parts_of content)) false);
         Prototype.Write Prototype.MsgAck Prototype.SENT;
         Prototype.Remove]).
Proof.
  intros Hr Hs Hg Hm. unfold Prototype.steps.
  rewrite (prototype_fields_ok H Hr Hs Hg).
  rewrite (prototype_mode_send _ Hm). simpl. split.
  - proto_cases; eexists; reflexivity.
  - intros Hx Hw Hd. proto_run. reflexivity.
Qed.

Lemma prototype_mode_defaults_to_send_witness :
  Prototype.steps
    (Prototype.host_of (lit "abcdefghijkl||hello")
       (fun _ => Prototype.Accepted) (fun _ _ => Ok tt) (Ok tt))
  = [Prototype.Call (Prototype.Open (lit "hello") false);
     Prototype.Write Prototype.MsgAck (lit "Message sent successfully");
     Prototype.Remove].
Proof.
  destruct (prototype_mode_defaults_to_send
              (Prototype.host_of (lit "abcdefghijkl||hello")
                 (fun _ => Prototype.Accepted) (fun _ _ => Ok tt) (Ok tt))
              (content := lit "abcdefghijkl||hello")
              eq_refl ltac:(discriminate) ltac:(discriminate)
              (or_introl eq_refl))
    as [_ Hall].
  exact (Hall eq_refl eq_refl eq_refl).
Defined.

(** X21.  The prototype knows two modes.  Any other non-empty mode,
    [queue], [stop-and-send] and [compact] among them, invokes no command:
    the run writes [queue mode not yet implemented] to the [.err] file and
    then removes the [.msg] file. *)
Theorem prototype_refuses_other_modes
  (H : Prototype.Host) (content : jsstring) :
  Prototype.read H = Ok content ->
  sessionId_of (parts_of content) <> [] ->
  message_of (parts_of content) <> [] ->
  mode_of (parts_of content) <> [] ->
  mode_of (parts_of content) <> lit "send" ->
  mode_of (parts_of content) <> lit "steer" ->
  Prototype.calls (Prototype.steps H) = []
  /\ (exists rest,
         Prototype.steps H
         = Prototype.Write Prototype.MsgErr
             (lit "queue mode not yet implemented") :: rest)
  /\ (Prototype.write H Prototype.MsgErr Prototype.NOT_YET = Ok tt ->
      Prototype.remove H = Ok tt ->
      Prototype.steps H
      = [Prototype.Write Prototype.MsgErr
           (lit "queue mode not yet implemented");
         Prototype.Remove]).
Proof.
  intros Hr Hs Hg Hm H1 H2. unfold Prototype.steps.
  rewrite (prototype_fields_ok H Hr Hs Hg).
  rewrite (prototype_mode_other _ Hm).
  rewrite (str_eqb_neq H1), (str_eqb_neq H2).
  unfold Prototype.writeFileSync, Prototype.unlinkSync, Prototype.attempt.
  split; [|split].
  - proto_cases; reflexivity.
  - proto_cases; eexists; reflexivity.
  - intros Hw Hd. rewrite Hw. simpl. rewrite Hd. reflexivity.
Qed.

Lemma prototype_refuses_other_modes_witness :
  Prototype.steps
    (Prototype.host_of (lit "abcdefghijkl|compact|now")
       (fun _ => Prototype.Accepted) (fun _ _ => Ok tt) (Ok tt))
  = [Prototype.Write Prototype.MsgErr (lit "queue mode not yet implemented");
     Prototype.Remove].
Proof.
  destruct (prototype_refuses_other_modes
              (Prototype.host_of (lit "abcdefghijkl|compact|now")
                 (fun _ => Prototype.Accepted) (fun _ _ => Ok tt) (Ok tt))
              (content := lit "abcdefghijkl|compact|now")
              eq_refl ltac:(discriminate) ltac:(discriminate)
              ltac:(discriminate) ltac:(discriminate) ltac:(discriminate))
    as (_ & _ & Hall).
  exact (Hall eq_refl eq_refl).
Defined.

(** X22.  Failures in the prototype, whose [catch] writes [error.message].
    If the [.err] file can always be written and no command is rejected
    with a value that has no string message, the callback never rejects.
    When the command of a [send] is rejected with an Error, the run is the
    command and the [.err] file with its message: the [.msg] file is not
    removed.  When it is rejected with a value that has no string message,
    the run is the command alone: no [.err] file is written, the [.msg]
    file stays and the callback rejects, even if every write would
    succeed.  When the command and the [.ack] write go through and the
    removal throws, the run leaves both an [.ack] and an [.err] file.
    Where an [.err] write is attempted, the callback rejects exactly when
    that write throws. *)
Theorem prototype_failures (H : Prototype.Host) :
  ((forall k, Prototype.write H Prototype.MsgErr k = Ok tt) ->
   (forall c,
       Prototype.execute H c <> Prototype.Rejected Prototype.WithoutMessage) ->
   Prototype.rejects H = false)
  /\ (forall content e,
         Prototype.read H = Ok content ->
         sessionId_of (parts_of content) <> [] ->
         message_of (parts_of content) <> [] ->
         mode_of (parts_of content) = lit "send" ->
         Prototype.execute H
           (Prototype.Open (message_of (parts_of content)) false)
         = Prototype.Rejected (Prototype.WithMessage e) ->
         Prototype.steps H
         = [Prototype.Call
              (Prototype.Open (message_of (parts_of content)) false);
            Prototype.Write Prototype.MsgErr e]
         /\ (Prototype.rejects H = true <->
             exists e', Prototype.write H Prototype.MsgErr e = Raise e'))
  /\ (forall content,
         Prototype.read H = Ok content ->
         sessionId_of (parts_of content) <> [] ->
         message_of (parts_of content) <> [] ->
         mode_of (parts_of content) = lit "send" ->
         Prototype.execute H
           (Prototype.Open (message_of (parts_of content)) false)
         = Prototype.Rejected Prototype.WithoutMessage ->
         Prototype.steps H
         = [Prototype.Call
              (Prototype.Open (message_of (parts_of content)) false)]
         /\ Prototype.rejects H = true)
  /\ (forall content e,
         Prototype.read H = Ok content ->
         sessionId_of (parts_of content) <> [] ->
         message_of (parts_of content) <> [] ->
         mode_of (parts_of content) = lit "send" ->
         Prototype.execute H
           (Prototype.Open (message_of (parts_of content)) false)
         = Prototype.Accepted ->
         Prototype.write H Prototype.MsgAck Prototype.SENT = Ok tt ->
         Prototype.remove H = Raise e ->
         Prototype.steps H
         = [Prototype.Call
              (Prototype.Open (message_of (parts_of content)) false);
            Prototype.Write Prototype.MsgAck Prototype.SENT;
            Prototype.Remove;
            Prototype.Write Prototype.MsgErr e]
         /\ (Prototype.rejects H = true <->
             exists e', Prototype.write H Prototype.MsgErr e = Raise e')).
Proof.
  split; [|split; [|split]].
  - intros Hw Hno. unfold Prototype.rejects, Prototype.onDidCreate,
      Prototype.body.
    destruct (Prototype.read H) as [content|e]; simpl.
    + destruct (falsy (sessionId_of (parts_of content))
                || falsy (message_of (parts_of content))); [reflexivity|].
      destruct (str_eqb _ (lit "send")); [|destruct (str_eqb _ (lit "steer"))];
        repeat (unfold Prototype.call, Prototype.writeFileSync,
                  Prototype.unlinkSync, Prototype.write_error,
                  Prototype.attempt;
                simpl; rewrite ?Hw; simpl;
                match goal with
                | |- context [Prototype.execute H ?c] =>
                    let Hx := fresh "Hx" in
                    destruct (Prototype.execute H c) as [|[?|]] eqn:Hx;
                    [ | |exfalso; exact (Hno _ Hx)]
                | |- context [Prototype.write H Prototype.MsgAck ?k] =>
                    destruct (Prototype.write H Prototype.MsgAck k)
                      as [[]|?]
                | |- context [Prototype.remove H] =>
                    destruct (Prototype.remove H) as [[]|?]
                end);
        unfold Prototype.pcatch, Prototype.write_error,
          Prototype.writeFileSync, Prototype.attempt;
        simpl; rewrite ?Hw; reflexivity.
    + unfold Prototype.writeFileSync, Prototype.attempt. rewrite Hw.
      reflexivity.
  - intros content e Hr Hs Hg Hm Hx.
    unfold Prototype.steps, Prototype.rejects.
    rewrite (prototype_fields_ok H Hr Hs Hg).
    rewrite (prototype_mode_send _ (or_intror Hm)). simpl.
    unfold Prototype.call. rewrite Hx. simpl.
    unfold Prototype.writeFileSync, Prototype.attempt.
    destruct (Prototype.write H Prototype.MsgErr e) as [[]|e']; simpl.
    + split; [reflexivity|]. split; [discriminate|].
      intros [e' He']. discriminate.
    + split; [reflexivity|]. split; eauto.
  - intros content Hr Hs Hg Hm Hx.
    unfold Prototype.steps, Prototype.rejects.
    rewrite (prototype_fields_ok H Hr Hs Hg).
    rewrite (prototype_mode_send _ (or_intror Hm)). simpl.
    unfold Prototype.call. rewrite Hx. simpl. split; reflexivity.
  - intros content e Hr Hs Hg Hm Hx Hw Hd.
    unfold Prototype.steps, Prototype.rejects.
    rewrite (prototype_fields_ok H Hr Hs Hg).
    rewrite (prototype_mode_send _ (or_intror Hm)). simpl.
    unfold Prototype.call, Prototype.writeFileSync, Prototype.unlinkSync,
      Prototype.attempt.
    rewrite Hx. simpl. rewrite Hw. simpl. rewrite Hd. simpl.
    unfold Prototype.writeFileSync, Prototype.attempt.
    destruct (Prototype.write H Prototype.MsgErr e) as [[]|e']; simpl.
    + split; [reflexivity|]. split; [discriminate|].
      intros [e' He']. discriminate.
    + split; [reflexivity|]. split; eauto.
Qed.

Lemma prototype_failures_witness :
  (Prototype.steps
     (Prototype.host_of (lit "abcdefghijkl|send|hello")
        (fun _ => Prototype.Rejected Prototype.WithoutMessage)
        (fun _ _ => Ok tt) (Ok tt))
   = [Prototype.Call (Prototype.Open (lit "hello") false)]
   /\ Prototype.rejects
        (Prototype.host_of (lit "abcdefghijkl|send|hello")
           (fun _ => Prototype.Rejected Prototype.WithoutMessage)
           (fun _ _ => Ok tt) (Ok tt)) = true)
  /\ (Prototype.steps
        (Prototype.host_of (lit "abcdefghijkl|send|hello")
           (fun _ => Prototype.Accepted)
           (fun f _ =>
              match f with
              | Prototype.MsgAck => Ok tt
              | Prototype.MsgErr => Raise (lit "EACCES: permission denied")
              end)
           (Raise (lit "EBUSY: resource busy or locked")))
      = [Prototype.Call (Prototype.Open (lit "hello") false);
         Prototype.Write Prototype.MsgAck (lit "Message sent successfully");
         Prototype.Remove;
         Prototype.Write Prototype.MsgErr
           (lit "EBUSY: resource busy or locked")]
      /\ Prototype.rejects
           (Prototype.host_of (lit "abcdefghijkl|send|hello")
              (fun _ => Prototype.Accepted)
              (fun f _ =>
                 match f with
                 | Prototype.MsgAck => Ok tt
                 | Prototype.MsgErr =>
                     Raise (lit "EACCES: permission denied")
                 end)
              (Raise (lit "EBUSY: resource busy or locked"))) = true).
Proof.
  split.
  - destruct (prototype_failures
                (Prototype.host_of (lit "abcdefghijkl|send|hello")
                   (fun _ => Prototype.Rejected Prototype.WithoutMessage)
                   (fun _ _ => Ok tt) (Ok tt)))
      as (_ & _ & Hbare & _).
    exact (Hbare (lit "abcdefghijkl|send|hello")
             eq_refl ltac:(discriminate) ltac:(discriminate)
             eq_refl eq_refl).
  - destruct (prototype_failures
                (Prototype.host_of (lit "abcdefghijkl|send|hello")
                   (fun _ => Prototype.Accepted)
                   (fun f _ =>
                      match f with
                      | Prototype.MsgAck => Ok tt
                      | Prototype.MsgErr =>
                          Raise (lit "EACCES: permission denied")
                      end)
                   (Raise (lit "EBUSY: resource busy or locked"))))
      as (_ & _ & _ & Hrm).
    destruct (Hrm (lit "abcdefghijkl|send|hello")
                (lit "EBUSY: resource busy or locked")
                eq_refl ltac:(discriminate) ltac:(discriminate)
                eq_refl eq_refl eq_refl eq_refl) as [Hsteps Hrej].
    split; [exact Hsteps|].
    apply Hrej. exists (lit "EACCES: permission denied"). reflexivity.
Defined.
